(** * Request conversion between Scrapy and the Apify request queue

    A shallow embedding of [src/apify/scrapy/requests.py]: the two conversion
    functions [to_apify_request] and [to_scrapy_request], over a small model
    of the Python object store (dicts are shared, mutable objects), with the
    calls into Scrapy, pickle and codecs taken as an interface. *)

From stdpp Require Import base option list strings gmap fin_maps countable pretty.
From Stdlib Require Import ZArith Ascii.
From Ceres Require CeresS CeresFormat CeresParser.

Open Scope string_scope.

(** ** Python values and objects *)

(** Object identity. *)
Definition loc := positive.

(** Immutable values are kept by value, everything mutable by reference. *)
Inductive pyval :=
  | VNone
  | VBool (b : bool)
  | VInt (n : Z)
  | VStr (s : string)
  | VRef (l : loc).

#[global] Instance pyval_eq_dec : EqDecision pyval.
Proof. solve_decision. Defined.

(** [scrapy.http.headers.Headers]: a header name with the list of its values. *)
Definition Headers := gmap string (list string).

(** The [headers] attribute of a request: a [Headers] instance, or whatever
    else has been assigned to it. *)
Inductive headers_attr :=
  | IsHeaders (hs : Headers)
  | NotHeaders (v : pyval).

(** [scrapy.Request].  [_meta] backs the [meta] property; [internal] stands
    for the attributes the conversion never looks at (callback, errback, body,
    cookies, priority, flags, ...). *)
Record Request := mkRequest {
  url : pyval;
  method : pyval;
  headers : headers_attr;
  _meta : pyval;
  internal : gmap string pyval
}.

Definition set_meta (rq : Request) (m : pyval) : Request :=
  mkRequest (url rq) (method rq) (headers rq) m (internal rq).

Definition set_headers (rq : Request) (hs : headers_attr) : Request :=
  mkRequest (url rq) (method rq) hs (_meta rq) (internal rq).

(** Heap objects.  Dict keys are strings, as in the records of the queue. *)
Inductive pyobj :=
  | ODict (d : gmap string pyval)
  | OList (xs : list pyval)
  | ORequest (rq : Request)
  | OOpaque (cls : string).

(** [OOpaque] is an object of any other class: not a dict, not a request,
    and with no container or mapping behaviour. *)

(** ** Exceptions and diagnostics *)

Inductive exn_class :=
  | TypeError
  | ValueError
  | KeyError
  | AttributeError
  | OtherError (cls : string).

Record exn := Exn { exn_cls : exn_class; exn_msg : string }.

#[global] Instance exn_class_eq_dec : EqDecision exn_class.
Proof. solve_decision. Defined.

Inductive level := DEBUG | WARNING.

(** The texts passed to [Actor.log]; the interpolated object is kept as a
    value, its [repr] belongs to the runtime. *)
Inductive logtext :=
  | to_apify_request_was_called (scrapy_request : pyval)
  | headers_is_not_Headers (scrapy_request_headers : headers_attr)
  | scrapy_request_was_converted (apify_request : pyval)
  | to_scrapy_request_was_called (apify_request : pyval)
  | restoring_the_scrapy_request
  | scrapy_request_reconstructed (scrapy_request : pyval)
  | gonna_create_a_new_scrapy_request
  | headers_is_not_dict (apify_request_headers : pyval)
  | apify_request_was_converted (scrapy_request : pyval).

(** One log record; [log_call] is the [[call_id]] prefix, when there is one. *)
Record logrec := LogRec {
  log_level : level;
  log_call : option string;
  log_text : logtext
}.

(** ** The interpreter state and its monad *)

Record state := State {
  heap : gmap loc pyobj;
  log : list logrec
}.

(** A computation runs on a state and ends with a value or an exception; what
    it did to the state before raising stays done. *)
Definition M (A : Type) : Type := state → (exn + A) * state.

#[global] Instance M_ret : MRet M := λ A (a : A) (σ : state), (inr a, σ).

#[global] Instance M_bind : MBind M := λ A B (k : A → M B) (c : M A) (σ : state),
  match c σ with
  | (inl e, σ') => (inl e, σ')
  | (inr a, σ') => k a σ'
  end.

Definition raise {A : Type} (c : exn_class) (msg : string) : M A :=
  λ σ, (inl (Exn c msg), σ).

Definition get_heap : M (gmap loc pyobj) := λ σ, (inr (heap σ), σ).

Definition put_heap (h : gmap loc pyobj) : M unit :=
  λ σ, (inr tt, State h (log σ)).

Definition emit (lv : level) (call_id : option string) (t : logtext) : M unit :=
  λ σ, (inr tt, State (heap σ) (log σ ++ [LogRec lv call_id t])).

(** A new object gets an identity no live object has. *)
Definition new_loc (h : gmap loc pyobj) : loc := fresh (dom h).

Definition alloc (o : pyobj) : M loc :=
  h ← get_heap;
  let l := new_loc h in
  put_heap (<[l := o]> h);;
  mret l.

(** A call into a library that may allocate and may raise. *)
Definition call {A : Type}
    (f : gmap loc pyobj → exn + (A * gmap loc pyobj)) : M A :=
  λ σ, match f (heap σ) with
       | inl e => (inl e, σ)
       | inr (a, h') => (inr a, State h' (log σ))
       end.

(** A call into a library that only reads the heap. *)
Definition call_ro {A : Type} (f : gmap loc pyobj → exn + A) : M A :=
  λ σ, match f (heap σ) with
       | inl e => (inl e, σ)
       | inr a => (inr a, σ)
       end.

(** ** The Python operations the module uses *)

Definition type_name (h : gmap loc pyobj) (v : pyval) : string :=
  match v with
  | VNone => "NoneType"
  | VBool _ => "bool"
  | VInt _ => "int"
  | VStr _ => "str"
  | VRef l =>
      match h !! l with
      | Some (ODict _) => "dict"
      | Some (OList _) => "list"
      | Some (ORequest _) => "Request"
      | Some (OOpaque cls) => cls
      | None => "object"
      end
  end.

(** [isinstance(v, dict)] *)
Definition as_dict (h : gmap loc pyobj) (v : pyval) : option (gmap string pyval) :=
  match v with
  | VRef l => match h !! l with Some (ODict d) => Some d | _ => None end
  | _ => None
  end.

(** [isinstance(v, Request)] *)
Definition as_Request (h : gmap loc pyobj) (v : pyval) : option (loc * Request) :=
  match v with
  | VRef l => match h !! l with Some (ORequest rq) => Some (l, rq) | _ => None end
  | _ => None
  end.

(** [bool(v)] *)
Definition truthy (h : gmap loc pyobj) (v : pyval) : bool :=
  match v with
  | VNone => false
  | VBool b => b
  | VInt n => negb (n =? 0)%Z
  | VStr s => negb (bool_decide (s = ""))
  | VRef l =>
      match h !! l with
      | Some (ODict d) => negb (bool_decide (d = ∅))
      | Some (OList xs) => negb (bool_decide (xs = []))
      | _ => true
      end
  end.

Definition is_substring (needle hay : string) : bool :=
  match String.index 0 needle hay with Some _ => true | None => false end.

(** [key in v], for a string [key] *)
Definition py_contains (key : string) (v : pyval) : M bool :=
  h ← get_heap;
  match v with
  | VStr s => mret (is_substring key s)
  | VRef l =>
      match h !! l with
      | Some (ODict d) => mret (bool_decide (is_Some (d !! key)))
      | Some (OList xs) => mret (bool_decide (VStr key ∈ xs))
      | _ => raise TypeError ("argument of type '" +:+ type_name h v +:+ "' is not iterable")
      end
  | _ => raise TypeError ("argument of type '" +:+ type_name h v +:+ "' is not iterable")
  end.

(** [v[key]], for a string [key] *)
Definition py_getitem (v : pyval) (key : string) : M pyval :=
  h ← get_heap;
  match v with
  | VStr _ => raise TypeError "string indices must be integers"
  | VRef l =>
      match h !! l with
      | Some (ODict d) =>
          match d !! key with
          | Some x => mret x
          | None => raise KeyError key
          end
      | Some (OList _) => raise TypeError "list indices must be integers or slices, not str"
      | _ => raise TypeError ("'" +:+ type_name h v +:+ "' object is not subscriptable")
      end
  | _ => raise TypeError ("'" +:+ type_name h v +:+ "' object is not subscriptable")
  end.

(** [v[key] = x], for a string [key] *)
Definition py_setitem (v : pyval) (key : string) (x : pyval) : M unit :=
  h ← get_heap;
  match v with
  | VRef l =>
      match h !! l with
      | Some (ODict d) => put_heap (<[l := ODict (<[key := x]> d)]> h)
      | Some (OList _) => raise TypeError "list indices must be integers or slices, not str"
      | _ => raise TypeError ("'" +:+ type_name h v +:+ "' object does not support item assignment")
      end
  | _ => raise TypeError ("'" +:+ type_name h v +:+ "' object does not support item assignment")
  end.

(** [v.get(key, dflt)] *)
Definition dict_get (v : pyval) (key : string) (dflt : pyval) : M pyval :=
  h ← get_heap;
  match as_dict h v with
  | Some d => mret (default dflt (d !! key))
  | None => raise AttributeError ("'" +:+ type_name h v +:+ "' object has no attribute 'get'")
  end.

(** [v.update({k1: x1, k2: x2})]: the entries are stored in order. *)
Definition dict_update (v : pyval) (items : list (string * pyval)) : M unit :=
  h ← get_heap;
  match v, as_dict h v with
  | VRef l, Some d =>
      put_heap (<[l := ODict (foldl (λ acc kx, <[kx.1 := kx.2]> acc) d items)]> h)
  | _, _ => raise AttributeError ("'" +:+ type_name h v +:+ "' object has no attribute 'update'")
  end.

(** Attribute reads and writes on a request object. *)
Definition get_Request (l : loc) : M Request :=
  h ← get_heap;
  match h !! l with
  | Some (ORequest rq) => mret rq
  | _ => raise AttributeError "not a Request"
  end.

Definition put_Request (l : loc) (rq : Request) : M unit :=
  h ← get_heap;
  put_heap (<[l := ORequest rq]> h).

(** The [meta] property of [scrapy.Request]: the dict is made on first use. *)
Definition Request_meta (l : loc) : M pyval :=
  rq ← get_Request l;
  match _meta rq with
  | VNone =>
      m ← alloc (ODict ∅);
      put_Request l (set_meta rq (VRef m));;
      mret (VRef m)
  | m => mret m
  end.

(** ** What the conversions are expected to build *)

(** A value that is not a reference to a missing object. *)
Definition live (h : gmap loc pyobj) (v : pyval) : Prop :=
  ∀ x, v = VRef x → is_Some (h !! x).

Definition insert_opt (key : string) (o : option pyval) (d : gmap string pyval)
    : gmap string pyval :=
  match o with Some v => <[key := v]> d | None => d end.

(** What [to_apify_request] copies from [meta]: the value under [key] when
    it is truthy. *)
Definition copied (h : gmap loc pyobj) (dm : gmap string pyval) (key : string)
    : option pyval :=
  match dm !! key with
  | Some v => if truthy h v then Some v else None
  | None => None
  end.

(** The dict behind the [meta] property, as the property would return it. *)
Definition meta_dict (h : gmap loc pyobj) (rq : Request) : option (gmap string pyval) :=
  match _meta rq with
  | VNone => Some ∅
  | v => as_dict h v
  end.

(** The dict that [scrapy_request.meta or {}] evaluates to: the meta when it
    is truthy, an empty dict otherwise. *)
Definition meta_or_empty (h : gmap loc pyobj) (rq : Request) : option (gmap string pyval) :=
  if truthy h (_meta rq) then as_dict h (_meta rq) else Some ∅.

(** Every dict of [h] is the same dict in [h']. *)
Definition dicts_kept (h h' : gmap loc pyobj) : Prop :=
  ∀ x d, h !! x = Some (ODict d) → h' !! x = Some (ODict d).

(** No snapshot in the record: no [userData], or a dict without the key. *)
Definition no_snapshot (h : gmap loc pyobj) (d : gmap string pyval) : Prop :=
  d !! "userData" = None
  ∨ ∃ lu du, d !! "userData" = Some (VRef lu) ∧ h !! lu = Some (ODict du)
             ∧ du !! "scrapy_request" = None.

(** No snapshot to restore: the record has no [userData], or one in which
    ['scrapy_request'] is looked for and not found. *)
Definition without_snapshot (h : gmap loc pyobj) (d : gmap string pyval) : Prop :=
  match d !! "userData" with
  | None => True
  | Some (VStr s) => is_substring "scrapy_request" s = false
  | Some (VRef x) =>
      match h !! x with
      | Some (ODict du) => du !! "scrapy_request" = None
      | Some (OList xs) => VStr "scrapy_request" ∉ xs
      | _ => False
      end
  | Some _ => False
  end.

(** The record of lines 38-57. *)
Definition record_fields (rq : Request) (userData : pyval) (hd i k : option pyval)
    : gmap string pyval :=
  insert_opt "uniqueKey" k (insert_opt "id" i (insert_opt "headers" hd
    {[ "url" := url rq; "method" := method rq; "userData" := userData ]})).

(** ** The libraries the module calls

    Scrapy, pickle and codecs are not part of the module.  Each call is a
    function that may raise; the ones that build objects take the heap and
    return it extended. *)

Class Framework := {
  (** [Request(url=u, method=m, meta=...)]: the attributes the constructor
      computes from [u] and [m]; the object keeps the meta it is given. *)
  Request_init : pyval → pyval → exn + Request;
  (** [request.to_dict(spider=spider)] *)
  Request_to_dict : pyval → loc → gmap loc pyobj → exn + (pyval * gmap loc pyobj);
  (** [request_from_dict(d, spider=spider)] *)
  request_from_dict : pyval → pyval → gmap loc pyobj → exn + (pyval * gmap loc pyobj);
  (** [Headers(d)], for a plain dict [d] of header names and values *)
  Headers_init : gmap string pyval → exn + Headers;
  (** [headers.to_unicode_dict()] *)
  to_unicode_dict : Headers → gmap string string;
  (** [pickle.dumps(v)] *)
  pickle_dumps : pyval → gmap loc pyobj → exn + string;
  (** [pickle.loads(b)] *)
  pickle_loads : string → gmap loc pyobj → exn + (pyval * gmap loc pyobj);
  (** [codecs.encode(b, 'base64').decode()] *)
  base64_encode : string → string;
  (** [codecs.decode(s.encode(), 'base64')] *)
  base64_decode : string → exn + string;
  (** The building calls leave every object that exists alone. *)
  Request_to_dict_frame : ∀ spider l h v h',
    Request_to_dict spider l h = inr (v, h') → h ⊆ h';
  request_from_dict_frame : ∀ d spider h v h',
    request_from_dict d spider h = inr (v, h') → h ⊆ h';
  pickle_loads_frame : ∀ b h v h',
    pickle_loads b h = inr (v, h') → h ⊆ h'
}.

(** The [headers] attribute after lines 137-144 of [to_scrapy_request];
    [None] when [Headers(...)] raises. *)
Definition headers_after `{!Framework} (h : gmap loc pyobj) (d : gmap string pyval)
    (old : headers_attr) : option headers_attr :=
  match d !! "headers" with
  | None => Some old
  | Some hv =>
      match as_dict h hv with
      | None => Some old
      | Some hd =>
          match Headers_init hd with
          | inr hs => Some (IsHeaders hs)
          | inl _ => None
          end
      end
  end.

(** The warning of lines 142-144, when it is due. *)
Definition headers_warning (h : gmap loc pyobj) (d : gmap string pyval) : list logrec :=
  match d !! "headers" with
  | None => []
  | Some hv =>
      match as_dict h hv with
      | None => [LogRec WARNING None (headers_is_not_dict hv)]
      | Some _ => []
      end
  end.

(** The meta of the request [to_scrapy_request] returns: the identity of
    the record over [dm], and its [userData] when it has one. *)
Definition meta_after (d dm : gmap string pyval) (i k : pyval) : gmap string pyval :=
  insert_opt "userData" (d !! "userData")
    (<["apify_request_unique_key" := k]> (<["apify_request_id" := i]> dm)).

Definition required_keys : list string := ["url"; "method"; "id"; "uniqueKey"].

(** [repr] of a string with no quote, backslash or control character in it. *)
Definition repr_str (s : string) : string := "'" +:+ s +:+ "'".

(** [[key for key in required_keys if key not in apify_request]] *)
Definition missing_keys (d : gmap string pyval) : list string :=
  filter (λ key, d !! key = None) required_keys.

Definition missing_keys_message (missing : list string) : string :=
  "apify_request must contain " +:+ String.concat ", " (repr_str <$> missing) +:+ " key(s)".

(** ** Frameworks that restore what they export *)





Section conversion.
Context `{!Framework}.

(** Lines 52-53 and 56-57 of [to_apify_request]: the entry of [meta] under
    [meta_key], when there is one and it is truthy, goes under [key]. *)
Definition copy_from_meta (l : loc) (apify_request : pyval) (meta_key key : string) : M unit :=
  meta ← Request_meta l;
  v ← dict_get meta meta_key VNone;
  h ← get_heap;
  if truthy h v then
    meta ← Request_meta l;
    x ← py_getitem meta meta_key;
    py_setitem apify_request key x
  else mret tt.

(** Lines 38-57: the record with [url], [method], [userData], and [headers],
    [id] and [uniqueKey] when they apply. *)
Definition apify_request_fields (l : loc) : M pyval :=
  rq ← get_Request l;
  meta ← Request_meta l;
  dflt ← alloc (ODict ∅);
  userData ← dict_get meta "userData" (VRef dflt);
  r ← alloc (ODict {[ "url" := url rq; "method" := method rq; "userData" := userData ]});
  let apify_request := VRef r in
  rq ← get_Request l;
  match headers rq with
  | IsHeaders hs =>
      hd ← alloc (ODict (VStr <$> to_unicode_dict hs));
      py_setitem apify_request "headers" (VRef hd)
  | NotHeaders _ =>
      emit WARNING None (headers_is_not_Headers (headers rq))
  end;;
  copy_from_meta l apify_request "apify_request_id" "id";;
  copy_from_meta l apify_request "apify_request_unique_key" "uniqueKey";;
  mret apify_request.

(** Lines 63-64: the request exported, pickled and written as text. *)
Definition encode_scrapy_request (spider : pyval) (l : loc) : M string :=
  scrapy_request_dict ← call (Request_to_dict spider l);
  pickled ← call_ro (pickle_dumps scrapy_request_dict);
  mret (base64_encode pickled).

(** [call_id] is what [crypto_random_object_id(8)] returned for this call. *)
Definition to_apify_request (scrapy_request spider : pyval) (call_id : string) : M pyval :=
  h ← get_heap;
  match as_Request h scrapy_request with
  | None => raise TypeError "scrapy_request must be an instance of the scrapy.Request class"
  | Some (l, _) =>
      emit DEBUG (Some call_id) (to_apify_request_was_called scrapy_request);;
      apify_request ← apify_request_fields l;
      scrapy_request_dict_encoded ← encode_scrapy_request spider l;
      ud ← py_getitem apify_request "userData";
      py_setitem ud "scrapy_request" (VStr scrapy_request_dict_encoded);;
      emit DEBUG (Some call_id) (scrapy_request_was_converted apify_request);;
      mret apify_request
  end.

(** Line 120: [scrapy_request.meta or {}] *)
Definition meta_or_new (q : loc) : M pyval :=
  m ← Request_meta q;
  h ← get_heap;
  if truthy h m then mret m else e ← alloc (ODict ∅); mret (VRef e).

(** Lines 109-115: the snapshot decoded, unpickled and rebuilt. *)
Definition decode_scrapy_request (s : string) (spider : pyval) : M loc :=
  pickled ← call_ro (λ _, base64_decode s);
  scrapy_request_dict ← call (pickle_loads pickled);
  h ← get_heap;
  match as_dict h scrapy_request_dict with
  | None => raise TypeError "scrapy_request_dict must be a dictionary"
  | Some _ =>
      scrapy_request ← call (request_from_dict scrapy_request_dict spider);
      h ← get_heap;
      match as_Request h scrapy_request with
      | None => raise TypeError "scrapy_request must be an instance of the Request class"
      | Some (q, _) => mret q
      end
  end.

(** Lines 119-122: the identity of the record goes into the meta. *)
Definition update_identity (apify_request : pyval) (q : loc) : M unit :=
  meta ← meta_or_new q;
  i ← py_getitem apify_request "id";
  k ← py_getitem apify_request "uniqueKey";
  dict_update meta [("apify_request_id", i); ("apify_request_unique_key", k)];;
  rq ← get_Request q;
  put_Request q (set_meta rq meta).

(** The branch of [to_scrapy_request] that restores the request from the
    snapshot in [userData]; returns the request object. *)
Definition restore_scrapy_request (apify_request spider : pyval) (call_id : string) : M loc :=
  emit DEBUG (Some call_id) restoring_the_scrapy_request;;
  ud ← py_getitem apify_request "userData";
  scrapy_request_dict_encoded ← py_getitem ud "scrapy_request";
  match scrapy_request_dict_encoded with
  | VStr s =>
      q ← decode_scrapy_request s spider;
      emit DEBUG (Some call_id) (scrapy_request_reconstructed (VRef q));;
      update_identity apify_request q;;
      mret q
  | _ => raise TypeError "scrapy_request_dict_encoded must be a string"
  end.

(** The branch that makes a new request from [url] and [method]. *)
Definition create_scrapy_request (apify_request : pyval) (call_id : string) : M loc :=
  emit DEBUG (Some call_id) gonna_create_a_new_scrapy_request;;
  u ← py_getitem apify_request "url";
  m ← py_getitem apify_request "method";
  i ← py_getitem apify_request "id";
  k ← py_getitem apify_request "uniqueKey";
  meta ← alloc (ODict {[ "apify_request_id" := i; "apify_request_unique_key" := k ]});
  rq ← call_ro (λ _, Request_init u m);
  alloc (ORequest (set_meta rq (VRef meta))).

(** Lines 137-148: the optional [headers] and [userData] of the record. *)
Definition set_optional_fields (apify_request : pyval) (q : loc) : M unit :=
  has_headers ← py_contains "headers" apify_request;
  (if (has_headers : bool) then
     hv ← py_getitem apify_request "headers";
     h ← get_heap;
     match as_dict h hv with
     | Some hd =>
         hs ← call_ro (λ _, Headers_init hd);
         rq ← get_Request q;
         put_Request q (set_headers rq (IsHeaders hs))
     | None => emit WARNING None (headers_is_not_dict hv)
     end
   else mret tt);;
  has_userData ← py_contains "userData" apify_request;
  (if (has_userData : bool) then
     ud ← py_getitem apify_request "userData";
     meta ← Request_meta q;
     py_setitem meta "userData" ud
   else mret tt).

(** Line 99: does the record carry a snapshot? *)
Definition has_snapshot (apify_request : pyval) : M bool :=
  has_userData ← py_contains "userData" apify_request;
  (if (has_userData : bool) then
     ud ← py_getitem apify_request "userData";
     py_contains "scrapy_request" ud
   else mret false).

(** Lines 137-151: the optional fields, the last log entry, the result. *)
Definition finish_scrapy_request (apify_request : pyval) (q : loc) (call_id : string) : M pyval :=
  set_optional_fields apify_request q;;
  emit DEBUG (Some call_id) (apify_request_was_converted (VRef q));;
  mret (VRef q).

(** Lines 89-93: the check on the required keys. *)
Definition check_required_keys (d : gmap string pyval) : M unit :=
  match missing_keys d with
  | _ :: _ => raise ValueError (missing_keys_message (missing_keys d))
  | [] => mret tt
  end.

Definition to_scrapy_request (apify_request spider : pyval) (call_id : string) : M pyval :=
  h ← get_heap;
  match as_dict h apify_request with
  | None => raise TypeError "apify_request must be a dictionary"
  | Some d =>
      check_required_keys d;;
      emit DEBUG (Some call_id) (to_scrapy_request_was_called apify_request);;
      snapshot ← has_snapshot apify_request;
      q ← (if (snapshot : bool)
           then restore_scrapy_request apify_request spider call_id
           else create_scrapy_request apify_request call_id);
      finish_scrapy_request apify_request q call_id
  end.

End conversion.

(** ** The inputs on which [to_scrapy_request] raises a TypeError *)

(** [ud] has no membership test: it is neither a string, a list nor a dict. *)
Definition not_a_container (h : gmap loc pyobj) (ud : pyval) : Prop :=
  match ud with
  | VStr _ => False
  | VRef x =>
      match h !! x with
      | Some (ODict _) | Some (OList _) => False
      | _ => True
      end
  | _ => True
  end.

(** [ud] is a string or a list in which ['scrapy_request'] is found; it
    cannot be indexed by it. *)
Definition found_but_no_item (h : gmap loc pyobj) (ud : pyval) : Prop :=
  match ud with
  | VStr s => is_substring "scrapy_request" s = true
  | VRef x =>
      match h !! x with
      | Some (OList xs) => VStr "scrapy_request" ∈ xs
      | _ => False
      end
  | _ => False
  end.

(** The value under [userData['scrapy_request']], for a dict [ud]. *)
Definition snapshot_value (h : gmap loc pyobj) (ud : pyval) : option pyval :=
  match as_dict h ud with
  | Some du => du !! "scrapy_request"
  | None => None
  end.

Section shapes.
Context `{!Framework}.

(** The snapshot value [x] is not a string, or does not decode to a dict, or
    the dict does not rebuild into a request. *)
Definition restore_shape_error (h : gmap loc pyobj) (spider x : pyval) : Prop :=
  (∀ s, x ≠ VStr s)
  ∨ ∃ s b dv h1,
      x = VStr s ∧ base64_decode s = inr b ∧ pickle_loads b h = inr (dv, h1)
      ∧ (as_dict h1 dv = None
         ∨ ∃ qv h2, is_Some (as_dict h1 dv)
                    ∧ request_from_dict dv spider h1 = inr (qv, h2)
                    ∧ as_Request h2 qv = None).

(** The shapes of input on which [to_scrapy_request] raises a TypeError
    without a library raising one. *)
Definition shape_error (h : gmap loc pyobj) (spider v : pyval) : Prop :=
  as_dict h v = None
  ∨ ∃ d ud,
      as_dict h v = Some d ∧ missing_keys d = [] ∧ d !! "userData" = Some ud
      ∧ (not_a_container h ud
         ∨ found_but_no_item h ud
         ∨ ∃ x, snapshot_value h ud = Some x ∧ restore_shape_error h spider x).

(** [e] comes out of a call into the libraries. *)
Definition raised_by_library (spider : pyval) (e : exn) : Prop :=
  (∃ s, base64_decode s = inl e)
  ∨ (∃ b h, pickle_loads b h = inl e)
  ∨ (∃ dv h, request_from_dict dv spider h = inl e)
  ∨ (∃ u m, Request_init u m = inl e)
  ∨ (∃ hd, Headers_init hd = inl e).

End shapes.

(** ** A miniature framework

    An instance of the interface on which the conversions run: requests are
    exported to a dict of their attributes, pickled as an S-expression and
    written in hexadecimal (the text-safe encoding that stands in for
    base64). *)

Module Mini.

Import CeresS.

Definition tag (s : string) : sexp := Atom_ (Raw s).

(** Reads the object graph under [v]; a cycle or an object that is neither
    a dict nor a list cannot be pickled. *)
Fixpoint freeze (fuel : nat) (h : gmap loc pyobj) (v : pyval) : option sexp :=
  match fuel with
  | O => None
  | S n =>
      match v with
      | VNone => Some (tag "None")
      | VBool b => Some (tag (if b then "True" else "False"))
      | VInt z => Some (Atom_ (Num z))
      | VStr s => Some (Atom_ (Str s))
      | VRef l =>
          match h !! l with
          | Some (ODict d) =>
              kvs ← mapM (λ kv : string * pyval,
                            t ← freeze n h kv.2; Some (List [Atom_ (Str kv.1); t]))
                         (map_to_list d);
              Some (List (tag "dict" :: kvs))
          | Some (OList xs) =>
              ts ← mapM (freeze n h) xs;
              Some (List (tag "list" :: ts))
          | _ => None
          end
      end
  end.

(** Runs [f] over a list, passing the heap along. *)
Fixpoint thread {A B : Type} (f : A → gmap loc pyobj → option (B * gmap loc pyobj))
    (xs : list A) (h : gmap loc pyobj) : option (list B * gmap loc pyobj) :=
  match xs with
  | [] => Some ([], h)
  | x :: xs' =>
      '(b, h1) ← f x h;
      '(bs, h2) ← thread f xs' h1;
      Some (b :: bs, h2)
  end.

(** Builds the object graph an S-expression describes. *)
Fixpoint thaw (fuel : nat) (x : sexp) (h : gmap loc pyobj) : option (pyval * gmap loc pyobj) :=
  match fuel with
  | O => None
  | S n =>
      match x with
      | Atom_ (Num z) => Some (VInt z, h)
      | Atom_ (Str s) => Some (VStr s, h)
      | Atom_ (Raw s) =>
          if decide (s = "None") then Some (VNone, h)
          else if decide (s = "True") then Some (VBool true, h)
          else if decide (s = "False") then Some (VBool false, h)
          else None
      | List (Atom_ (Raw s) :: xs) =>
          if decide (s = "list") then
            '(vs, h1) ← thread (thaw n) xs h;
            Some (VRef (new_loc h1), <[new_loc h1 := OList vs]> h1)
          else if decide (s = "dict") then
            '(kvs, h1) ← thread (λ e h0,
                            match e with
                            | List [Atom_ (Str k); y] =>
                                '(v, h') ← thaw n y h0; Some ((k, v), h')
                            | _ => None
                            end) xs h;
            Some (VRef (new_loc h1), <[new_loc h1 := ODict (list_to_map kvs)]> h1)
          else None
      | _ => None
      end
  end.

Definition hex_digits : string := "0123456789abcdef".

Definition hex_digit (n : N) : ascii :=
  default "0"%char (String.get (N.to_nat n) hex_digits).

Definition hex_value (c : ascii) : option N :=
  N.of_nat <$> String.index 0 (String c "") hex_digits.

Fixpoint hex_encode (s : string) : string :=
  match s with
  | EmptyString => ""
  | String c s' =>
      let n := N_of_ascii c in
      String (hex_digit (n / 16)) (String (hex_digit (n mod 16)) (hex_encode s'))
  end.

Fixpoint hex_decode (s : string) : option string :=
  match s with
  | EmptyString => Some ""
  | String a (String b s') =>
      x ← hex_value a; y ← hex_value b; r ← hex_decode s';
      Some (String (ascii_of_N (16 * x + y)) r)
  | String _ EmptyString => None
  end.

Definition one_value (v : pyval) : option (list string) :=
  match v with VStr s => Some [s] | _ => None end.

Definition init (u m : pyval) : exn + Request :=
  match u with
  | VStr _ => inr (mkRequest u m (IsHeaders ∅) VNone ∅)
  | _ => inl (Exn TypeError "Request url must be str")
  end.

Definition to_dict (spider : pyval) (l : loc) (h : gmap loc pyobj)
    : exn + (pyval * gmap loc pyobj) :=
  match h !! l with
  | Some (ORequest rq) =>
      match headers rq with
      | IsHeaders hs =>
          let lh := new_loc h in
          let h1 := <[lh := ODict (VStr <$> (String.concat "," <$> hs))]> h in
          inr (VRef (new_loc h1),
               <[new_loc h1 := ODict (<["url" := url rq]> (<["method" := method rq]>
                  (<["headers" := VRef lh]> (<["meta" := _meta rq]> (internal rq)))))]> h1)
      | NotHeaders v =>
          match as_dict h v with
          | Some _ =>
              inr (VRef (new_loc h),
                   <[new_loc h := ODict (<["url" := url rq]> (<["method" := method rq]>
                      (<["headers" := v]> (<["meta" := _meta rq]> (internal rq)))))]> h)
          | None => inl (Exn TypeError ("'" +:+ type_name h v +:+ "' object is not iterable"))
          end
      end
  | _ => inl (Exn AttributeError "to_dict")
  end.

Definition from_dict (d spider : pyval) (h : gmap loc pyobj)
    : exn + (pyval * gmap loc pyobj) :=
  match as_dict h d with
  | Some f =>
      match f !! "url" with
      | Some u =>
          let hd := match f !! "headers" with
                    | Some hv =>
                        match as_dict h hv with
                        | Some hm => IsHeaders (omap one_value hm)
                        | None => NotHeaders hv
                        end
                    | None => IsHeaders ∅
                    end in
          let rq := mkRequest u (default (VStr "GET") (f !! "method")) hd
                      (default VNone (f !! "meta"))
                      (delete "url" (delete "method" (delete "headers" (delete "meta" f)))) in
          inr (VRef (new_loc h), <[new_loc h := ORequest rq]> h)
      | None => inl (Exn KeyError "url")
      end
  | None => inl (Exn TypeError "from_dict")
  end.

Definition headers_of_dict (d : gmap string pyval) : exn + Headers :=
  inr (omap one_value d).

Definition unicode_dict (hs : Headers) : gmap string string :=
  String.concat "," <$> hs.

Definition dumps (v : pyval) (h : gmap loc pyobj) : exn + string :=
  match freeze (S (size h)) h v with
  | Some x => inr (CeresFormat.string_of_sexp x)
  | None => inl (Exn (OtherError "PicklingError") "cannot pickle")
  end.

Definition loads (b : string) (h : gmap loc pyobj)
    : exn + (pyval * gmap loc pyobj) :=
  match CeresParser.parse_sexp b with
  | inr x =>
      match thaw (S (String.length b)) x h with
      | Some r => inr r
      | None => inl (Exn (OtherError "UnpicklingError") "invalid load key")
      end
  | inl _ => inl (Exn (OtherError "UnpicklingError") "invalid load key")
  end.

Definition hex_decode_exn (s : string) : exn + string :=
  match hex_decode s with
  | Some b => inr b
  | None => inl (Exn ValueError "Incorrect padding")
  end.

End Mini.

(** ** A second miniature framework

    The constructor treats [url], [method] and [meta] as Scrapy's does, and
    the pickle is one whose round trip is proved. *)

Module Model.

Definition upper_char (c : ascii) : ascii :=
  let n := N_of_ascii c in
  if ((97 <=? n) && (n <=? 122))%N then ascii_of_N (n - 32) else c.

(** [s.upper()], for ASCII letters *)
Fixpoint upper (s : string) : string :=
  match s with
  | EmptyString => ""
  | String c s' => String (upper_char c) (upper s')
  end.

(** [str(v)]; an object has the text its class gives it. *)
Definition py_str (v : pyval) : string :=
  match v with
  | VNone => "None"
  | VBool true => "True"
  | VBool false => "False"
  | VInt z => pretty z
  | VStr s => s
  | VRef _ => "<object>"
  end.

(** [Request(url=u, method=m)]: the url must be a string with a scheme,
    the method is upper-cased. *)
Definition init (u m : pyval) : exn + Request :=
  match u with
  | VStr s =>
      if is_substring "://" s || String.prefix "about:" s || String.prefix "data:" s
      then inr (mkRequest u (VStr (upper (py_str m))) (IsHeaders ∅) VNone ∅)
      else inl (Exn ValueError ("Missing scheme in request url: " +:+ s))
  | _ => inl (Exn TypeError "Request url must be str")
  end.

(** [dict(meta) if meta else None], as the constructor stores the meta it
    is given. *)
Definition meta_copy (h : gmap loc pyobj) (mv : pyval) : exn + (pyval * gmap loc pyobj) :=
  if truthy h mv then
    match as_dict h mv with
    | Some dm => inr (VRef (new_loc h), <[new_loc h := ODict dm]> h)
    | None => inl (Exn TypeError ("'" +:+ type_name h mv +:+ "' object is not iterable"))
    end
  else inr (VNone, h).

(** [request_from_dict(d)]: the constructor is called on the entries of
    [d]. *)
Definition from_dict (d spider : pyval) (h : gmap loc pyobj)
    : exn + (pyval * gmap loc pyobj) :=
  match as_dict h d with
  | Some f =>
      match f !! "url" with
      | Some u =>
          match init u (default (VStr "GET") (f !! "method")) with
          | inr rq0 =>
              match meta_copy h (default VNone (f !! "meta")) with
              | inr (mv, h1) =>
                  let hd := match f !! "headers" with
                            | Some hv =>
                                match as_dict h hv with
                                | Some hm => IsHeaders (omap Mini.one_value hm)
                                | None => NotHeaders hv
                                end
                            | None => IsHeaders ∅
                            end in
                  let rq := mkRequest (url rq0) (method rq0) hd mv
                              (delete "url" (delete "method" (delete "headers"
                                 (delete "meta" f)))) in
                  inr (VRef (new_loc h1), <[new_loc h1 := ORequest rq]> h1)
              | inl e => inl e
              end
          | inl e => inl e
          end
      | None => inl (Exn KeyError "url")
      end
  | None => inl (Exn TypeError "from_dict")
  end.

(** What pickle writes for a value that is no object. *)
Definition atom : Type := unit + bool + Z + string.

#[global] Instance atom_eq_dec : EqDecision atom.
Proof. unfold atom. apply _. Defined.

#[global] Instance atom_countable : Countable atom.
Proof. unfold atom. apply _. Defined.

Definition atom_of (v : pyval) : option atom :=
  match v with
  | VNone => Some (inl (inl (inl tt)))
  | VBool b => Some (inl (inl (inr b)))
  | VInt z => Some (inl (inr z))
  | VStr s => Some (inr s)
  | VRef _ => None
  end.

Definition value_of_atom (a : atom) : pyval :=
  match a with
  | inl (inl (inl _)) => VNone
  | inl (inl (inr b)) => VBool b
  | inl (inr z) => VInt z
  | inr s => VStr s
  end.

Definition freeze_entry (freeze : pyval → option (gen_tree atom)) (kv : string * pyval)
    : option (gen_tree atom) :=
  t ← freeze kv.2; Some (GenNode 2 [GenLeaf (inr kv.1); t]).

(** The object graph under a value, as a tree: node 0 is a dict of entries,
    node 1 a list, node 2 one entry of a dict. *)
Fixpoint freeze (fuel : nat) (h : gmap loc pyobj) (v : pyval) : option (gen_tree atom) :=
  match fuel with
  | O => None
  | S n =>
      match v with
      | VRef l =>
          match h !! l with
          | Some (ODict d) =>
              kvs ← mapM (freeze_entry (freeze n h)) (map_to_list d);
              Some (GenNode 0 kvs)
          | Some (OList xs) =>
              ts ← mapM (freeze n h) xs;
              Some (GenNode 1 ts)
          | _ => None
          end
      | _ => GenLeaf <$> atom_of v
      end
  end.

Definition thaw_entry (thaw : gen_tree atom → gmap loc pyobj → option (pyval * gmap loc pyobj))
    (e : gen_tree atom) (h : gmap loc pyobj) : option (string * pyval * gmap loc pyobj) :=
  match e with
  | GenNode 2 [GenLeaf (inr key); y] => '(v, h') ← thaw y h; Some ((key, v), h')
  | _ => None
  end.

(** Builds the object graph a tree describes, out of new objects. *)
Fixpoint thaw (t : gen_tree atom) (h : gmap loc pyobj) : option (pyval * gmap loc pyobj) :=
  match t with
  | GenLeaf a => Some (value_of_atom a, h)
  | GenNode 0 ts =>
      '(kvs, h1) ← Mini.thread (thaw_entry thaw) ts h;
      Some (VRef (new_loc h1), <[new_loc h1 := ODict (list_to_map kvs)]> h1)
  | GenNode 1 ts =>
      '(vs, h1) ← Mini.thread thaw ts h;
      Some (VRef (new_loc h1), <[new_loc h1 := OList vs]> h1)
  | GenNode _ _ => None
  end.

(** A number in binary, lowest digit first, without its leading 1. *)
Fixpoint digits (p : positive) : string :=
  match p with
  | xH => ""
  | xO p' => String "0" (digits p')
  | xI p' => String "1" (digits p')
  end.

Fixpoint number (s : string) : option positive :=
  match s with
  | EmptyString => Some xH
  | String c s' =>
      match number s' with
      | Some p =>
          if decide (c = "0"%char) then Some (xO p)
          else if decide (c = "1"%char) then Some (xI p)
          else None
      | None => None
      end
  end.

Definition dumps (v : pyval) (h : gmap loc pyobj) : exn + string :=
  match freeze (S (size h)) h v with
  | Some t => inr (digits (encode t))
  | None => inl (Exn (OtherError "PicklingError") "cannot pickle")
  end.

Definition unpickled (b : string) : option (gen_tree atom) :=
  match number b with
  | Some p => decode p
  | None => None
  end.

Definition loads (b : string) (h : gmap loc pyobj) : exn + (pyval * gmap loc pyobj) :=
  match unpickled b with
  | Some t =>
      match thaw t h with
      | Some r => inr r
      | None => inl (Exn (OtherError "UnpicklingError") "invalid load key")
      end
  | None => inl (Exn (OtherError "UnpicklingError") "invalid load key")
  end.

End Model.

(** ** Running the primitives *)

Lemma bind_inr {A B : Type} (c : M A) (k : A → M B) (σ σ' : state) (a : A) :
  c σ = (inr a, σ') → (c ≫= k) σ = k a σ'.
Proof. intros Hc. unfold mbind, M_bind. by rewrite Hc. Qed.

Lemma bind_inl {A B : Type} (c : M A) (k : A → M B) (σ σ' : state) (e : exn) :
  c σ = (inl e, σ') → (c ≫= k) σ = (inl e, σ').
Proof. intros Hc. unfold mbind, M_bind. by rewrite Hc. Qed.

Lemma emit_run (lv : level) (c : option string) (t : logtext) (σ : state) :
  emit lv c t σ = (inr tt, State (heap σ) (log σ ++ [LogRec lv c t])).
Proof. reflexivity. Qed.

Lemma alloc_run (o : pyobj) (σ : state) :
  alloc o σ = (inr (new_loc (heap σ)),
               State (<[new_loc (heap σ) := o]> (heap σ)) (log σ)).
Proof. reflexivity. Qed.

Lemma get_Request_run (σ : state) (l : loc) (rq : Request) :
  heap σ !! l = Some (ORequest rq) → get_Request l σ = (inr rq, σ).
Proof. intros Hl. unfold get_Request, mbind, M_bind, get_heap. simpl. by rewrite Hl. Qed.

Lemma put_Request_run (σ : state) (l : loc) (rq : Request) :
  put_Request l rq σ = (inr tt, State (<[l := ORequest rq]> (heap σ)) (log σ)).
Proof. reflexivity. Qed.

Lemma Request_meta_run (σ : state) (l : loc) (rq : Request) :
  heap σ !! l = Some (ORequest rq) → _meta rq ≠ VNone →
  Request_meta l σ = (inr (_meta rq), σ).
Proof.
  intros Hl Hm. unfold Request_meta. rewrite (bind_inr _ _ _ _ _ (get_Request_run _ _ _ Hl)).
  by destruct (_meta rq).
Qed.

Lemma dict_get_run (σ : state) (l : loc) (d : gmap string pyval) (key : string) (dflt : pyval) :
  heap σ !! l = Some (ODict d) →
  dict_get (VRef l) key dflt σ = (inr (default dflt (d !! key)), σ).
Proof. intros Hl. unfold dict_get, mbind, M_bind, get_heap. simpl. by rewrite Hl. Qed.

Lemma py_getitem_run (σ : state) (l : loc) (d : gmap string pyval) (key : string) (x : pyval) :
  heap σ !! l = Some (ODict d) → d !! key = Some x →
  py_getitem (VRef l) key σ = (inr x, σ).
Proof. intros Hl Hk. unfold py_getitem, mbind, M_bind, get_heap. simpl. by rewrite Hl, Hk. Qed.

Lemma py_setitem_run (σ : state) (l : loc) (d : gmap string pyval) (key : string) (x : pyval) :
  heap σ !! l = Some (ODict d) →
  py_setitem (VRef l) key x σ
    = (inr tt, State (<[l := ODict (<[key := x]> d)]> (heap σ)) (log σ)).
Proof. intros Hl. unfold py_setitem, mbind, M_bind, get_heap. simpl. by rewrite Hl. Qed.

Lemma py_contains_run (σ : state) (l : loc) (d : gmap string pyval) (key : string) :
  heap σ !! l = Some (ODict d) →
  py_contains key (VRef l) σ = (inr (bool_decide (is_Some (d !! key))), σ).
Proof. intros Hl. unfold py_contains, mbind, M_bind, get_heap. simpl. by rewrite Hl. Qed.

Lemma dict_update_run (σ : state) (l : loc) (d : gmap string pyval) (items : list (string * pyval)) :
  heap σ !! l = Some (ODict d) →
  dict_update (VRef l) items σ
    = (inr tt, State (<[l := ODict (foldl (λ acc kx, <[kx.1 := kx.2]> acc) d items)]> (heap σ)) (log σ)).
Proof. intros Hl. unfold dict_update, mbind, M_bind, get_heap. simpl. by rewrite Hl. Qed.

Lemma get_heap_run (σ : state) : get_heap σ = (inr (heap σ), σ).
Proof. reflexivity. Qed.

Lemma ret_run {A : Type} (a : A) (σ : state) : (mret a : M A) σ = (inr a, σ).
Proof. reflexivity. Qed.

Lemma truthy_weaken (h h' : gmap loc pyobj) (v : pyval) :
  h ⊆ h' → live h v → truthy h' v = truthy h v.
Proof.
  intros Hsub Hlive. destruct v as [| | | |x]; try done.
  destruct (Hlive x eq_refl) as [o Ho]. simpl.
  by rewrite Ho, (lookup_weaken _ _ _ _ Ho Hsub).
Qed.

Lemma bind_same {A B : Type} (c : M A) (k : A → M B) (σ σ' : state) :
  c σ = c σ' → (c ≫= k) σ = (c ≫= k) σ'.
Proof. intros Hc. unfold mbind, M_bind. by rewrite Hc. Qed.

Lemma call_ro_run {A : Type} (f : gmap loc pyobj → exn + A) (σ : state) (a : A) :
  f (heap σ) = inr a → call_ro f σ = (inr a, σ).
Proof. intros Hf. unfold call_ro. by rewrite Hf. Qed.

Lemma call_run {A : Type} (f : gmap loc pyobj → exn + (A * gmap loc pyobj))
    (σ : state) (a : A) (h' : gmap loc pyobj) :
  f (heap σ) = inr (a, h') → call f σ = (inr a, State h' (log σ)).
Proof. intros Hf. unfold call. by rewrite Hf. Qed.

Lemma set_headers_id (rq : Request) : set_headers rq (headers rq) = rq.
Proof. by destruct rq. Qed.

Lemma new_loc_fresh (h : gmap loc pyobj) : h !! new_loc h = None.
Proof. apply (not_elem_of_dom (D:=gset loc)). unfold new_loc. apply is_fresh. Qed.

Lemma alloc_subseteq (h : gmap loc pyobj) (o : pyobj) : h ⊆ <[new_loc h := o]> h.
Proof. apply insert_subseteq, new_loc_fresh. Qed.

Lemma lookup_alloc_old (h : gmap loc pyobj) (o x : pyobj) (l : loc) :
  h !! l = Some x → <[new_loc h := o]> h !! l = Some x.
Proof. intros Hl. eapply lookup_weaken; [exact Hl | apply alloc_subseteq]. Qed.

Lemma missing_keys_nil (d : gmap string pyval) :
  missing_keys d = [] ↔ ∀ key, key ∈ required_keys → is_Some (d !! key).
Proof.
  unfold missing_keys. split.
  - intros Hnil key Hkey. destruct (d !! key) eqn:Hd; [by eexists|].
    assert (key ∈ filter (λ key, d !! key = None) required_keys) as Hin
      by (apply list_elem_of_filter; done).
    rewrite Hnil in Hin. by apply not_elem_of_nil in Hin.
  - intros Hall.
    destruct (filter (λ key, d !! key = None) required_keys) as [|key rest] eqn:Hf; [done|].
    assert (key ∈ filter (λ key, d !! key = None) required_keys) as Hin
      by (rewrite Hf; apply list_elem_of_here).
    apply list_elem_of_filter in Hin as [Hnone Hkey].
    destruct (Hall key Hkey). congruence.
Qed.

Lemma as_dict_weaken (h h' : gmap loc pyobj) (v : pyval) :
  h ⊆ h' → live h v → as_dict h' v = as_dict h v.
Proof.
  intros Hsub Hlive. destruct v as [| | | |x]; try done.
  destruct (Hlive x eq_refl) as [o Ho]. simpl.
  by rewrite Ho, (lookup_weaken _ _ _ _ Ho Hsub).
Qed.

Lemma set_meta_set_meta (rq : Request) (m m' : pyval) :
  set_meta (set_meta rq m) m' = set_meta rq m'.
Proof. done. Qed.

Lemma missing_keys_present (d : gmap string pyval) :
  is_Some (d !! "url") → is_Some (d !! "method") →
  is_Some (d !! "id") → is_Some (d !! "uniqueKey") →
  missing_keys d = [].
Proof.
  intros Hu Hm Hi Hk. apply missing_keys_nil. intros key Hkey.
  unfold required_keys in Hkey.
  repeat (apply elem_of_cons in Hkey as [->|Hkey]); try done.
  by apply not_elem_of_nil in Hkey.
Qed.

(** ** Running the conversions *)

Lemma record_fields_lookup (rq : Request) (ud : pyval) (hd i k : option pyval) :
  record_fields rq ud hd i k !! "url" = Some (url rq)
  ∧ record_fields rq ud hd i k !! "method" = Some (method rq)
  ∧ record_fields rq ud hd i k !! "userData" = Some ud
  ∧ record_fields rq ud hd i k !! "headers" = hd
  ∧ record_fields rq ud hd i k !! "id" = i
  ∧ record_fields rq ud hd i k !! "uniqueKey" = k.
Proof. unfold record_fields, insert_opt. destruct hd, i, k; by simplify_map_eq. Qed.

Lemma check_required_keys_run (d : gmap string pyval) (σ : state) :
  missing_keys d = [] → check_required_keys d σ = (inr tt, σ).
Proof. intros Hnone. unfold check_required_keys. by rewrite Hnone. Qed.

Section runs.
Context `{!Framework}.


Lemma copy_from_meta_run (σ : state) (l lm r : loc) (rq : Request)
    (dm rec : gmap string pyval) (meta_key key : string) :
  heap σ !! l = Some (ORequest rq) →
  _meta rq = VRef lm →
  heap σ !! lm = Some (ODict dm) →
  heap σ !! r = Some (ODict rec) →
  copy_from_meta l (VRef r) meta_key key σ
    = (inr tt, State (<[r := ODict (insert_opt key (copied (heap σ) dm meta_key) rec)]> (heap σ))
                     (log σ)).
Proof.
  intros Hl Hm Hlm Hr. unfold copy_from_meta, copied.
  assert (_meta rq ≠ VNone) as Hmn by (by rewrite Hm).
  rewrite (bind_inr _ _ _ _ _ (Request_meta_run _ _ _ Hl Hmn)), Hm.
  rewrite (bind_inr _ _ _ _ _ (dict_get_run _ _ _ _ _ Hlm)).
  rewrite (bind_inr _ _ _ _ _ (get_heap_run _)).
  destruct (dm !! meta_key) as [v|] eqn:Hv; simpl.
  - destruct (truthy (heap σ) v) eqn:Ht.
    + rewrite (bind_inr _ _ _ _ _ (Request_meta_run _ _ _ Hl Hmn)), Hm.
      rewrite (bind_inr _ _ _ _ _ (py_getitem_run _ _ _ _ _ Hlm Hv)).
      by rewrite (py_setitem_run _ _ _ _ _ Hr).
    + rewrite ret_run. simpl. rewrite (insert_id _ _ _ Hr). by destruct σ.
  - rewrite ret_run. simpl. rewrite (insert_id _ _ _ Hr). by destruct σ.
Qed.


Lemma copied_weaken (h h' : gmap loc pyobj) (dm : gmap string pyval) (key : string) :
  h ⊆ h' → (∀ v, dm !! key = Some v → live h v) →
  copied h' dm key = copied h dm key.
Proof.
  intros Hsub Hlive. unfold copied. destruct (dm !! key) as [v|]; [|done].
  by rewrite (truthy_weaken h h' v Hsub (Hlive v eq_refl)).
Qed.

Lemma apify_request_fields_run (σ : state) (l lm : loc) (rq : Request)
    (dm : gmap string pyval) :
  heap σ !! l = Some (ORequest rq) →
  _meta rq = VRef lm →
  heap σ !! lm = Some (ODict dm) →
  (∀ v, dm !! "apify_request_id" = Some v → live (heap σ) v) →
  (∀ v, dm !! "apify_request_unique_key" = Some v → live (heap σ) v) →
  ∃ r σ1,
    apify_request_fields l σ = (inr (VRef r), σ1)
    ∧ heap σ ⊆ heap σ1
    ∧ heap σ !! r = None ∧ r ≠ new_loc (heap σ)
    ∧ heap σ1 !! new_loc (heap σ) = Some (ODict ∅)
    ∧ match headers rq with
      | IsHeaders hs => ∃ hd,
          heap σ !! hd = None ∧ hd ≠ new_loc (heap σ)
          ∧ heap σ1 !! hd = Some (ODict (VStr <$> to_unicode_dict hs))
          ∧ heap σ1 !! r = Some (ODict (record_fields rq
              (default (VRef (new_loc (heap σ))) (dm !! "userData"))
              (Some (VRef hd))
              (copied (heap σ) dm "apify_request_id")
              (copied (heap σ) dm "apify_request_unique_key")))
          ∧ log σ1 = log σ
      | NotHeaders v =>
          heap σ1 !! r = Some (ODict (record_fields rq
              (default (VRef (new_loc (heap σ))) (dm !! "userData"))
              None
              (copied (heap σ) dm "apify_request_id")
              (copied (heap σ) dm "apify_request_unique_key")))
          ∧ log σ1 = (log σ ++ [LogRec WARNING None (headers_is_not_Headers (headers rq))])%list
      end.
Proof.
  intros Hl Hm Hlm Hlive1 Hlive2.
  unfold apify_request_fields.
  rewrite (bind_inr _ _ _ _ _ (get_Request_run _ _ _ Hl)).
  assert (_meta rq ≠ VNone) as Hmn by (by rewrite Hm).
  rewrite (bind_inr _ _ _ _ _ (Request_meta_run _ _ _ Hl Hmn)), Hm.
  rewrite (bind_inr _ _ _ _ _ (alloc_run _ _)).
  set (h := heap σ) in *. set (e0 := new_loc h).
  set (h1 := <[e0 := ODict ∅]> h).
  assert (h ⊆ h1) as Hsub1 by apply alloc_subseteq.
  assert (h !! e0 = None) as He0 by apply new_loc_fresh.
  assert (h1 !! e0 = Some (ODict ∅)) as H1e0 by apply lookup_insert_eq.
  rewrite (bind_inr _ _ _ _ _ (dict_get_run (State h1 (log σ)) _ _ _ _ (lookup_weaken _ _ _ _ Hlm Hsub1))).
  set (ud := default (VRef e0) (dm !! "userData")).
  rewrite (bind_inr _ _ _ _ _ (alloc_run _ _)). simpl.
  set (r := new_loc h1).
  set (base := ({[ "url" := url rq; "method" := method rq; "userData" := ud ]} : gmap string pyval)).
  set (h2 := <[r := ODict base]> h1).
  assert (h1 !! r = None) as H1r by apply new_loc_fresh.
  assert (h !! r = None) as Hr by (eapply lookup_weaken_None; [exact H1r | exact Hsub1]).
  assert (r ≠ e0) as Hre by congruence.
  assert (h ⊆ h2) as Hsub2 by (etrans; [exact Hsub1 | apply alloc_subseteq]).
  assert (h2 !! e0 = Some (ODict ∅)) as H2e0 by (by apply lookup_alloc_old).
  assert (h2 !! r = Some (ODict base)) as H2r by apply lookup_insert_eq.
  rewrite (bind_inr _ _ _ _ _ (get_Request_run (State h2 (log σ)) _ _ (lookup_weaken _ _ _ _ Hl Hsub2))).
  exists r.
  destruct (headers rq) as [hs|w] eqn:Hh.
  - rewrite (bind_inr _ _ _ (State (<[r := ODict (<["headers" := VRef (new_loc h2)]> base)]>
                                      (<[new_loc h2 := ODict (VStr <$> to_unicode_dict hs)]> h2)) (log σ)) tt).
    2:{ rewrite (bind_inr _ _ _ _ _ (alloc_run _ _)). simpl.
        by rewrite (py_setitem_run (State _ (log σ)) _ base _ _ (lookup_alloc_old _ _ _ _ H2r)). }
    set (hd := new_loc h2). set (h3 := <[hd := ODict (VStr <$> to_unicode_dict hs)]> h2).
    set (rec4 := <["headers" := VRef hd]> base).
    set (h4 := <[r := ODict rec4]> h3).
    assert (h2 !! hd = None) as H2hd by apply new_loc_fresh.
    assert (h !! hd = None) as Hhd by (eapply lookup_weaken_None; [exact H2hd | exact Hsub2]).
    assert (hd ≠ r) as Hhr by congruence.
    assert (hd ≠ e0) as Hhe by congruence.
    assert (h ⊆ h4) as Hsub4.
    { apply insert_subseteq_r; [exact Hr|]. etrans; [exact Hsub2 | apply alloc_subseteq]. }
    assert (h4 !! r = Some (ODict rec4)) as H4r by apply lookup_insert_eq.
    rewrite (bind_inr _ _ _ _ _ (copy_from_meta_run (State h4 (log σ)) l lm r rq dm rec4 _ _
               (lookup_weaken _ _ _ _ Hl Hsub4) Hm (lookup_weaken _ _ _ _ Hlm Hsub4) H4r)).
    simpl. rewrite (copied_weaken h h4 _ _ Hsub4 Hlive1).
    set (rec5 := insert_opt "id" _ rec4). set (h5 := <[r := ODict rec5]> h4).
    assert (h ⊆ h5) as Hsub5 by (by apply insert_subseteq_r).
    assert (h5 !! r = Some (ODict rec5)) as H5r by apply lookup_insert_eq.
    rewrite (bind_inr _ _ _ _ _ (copy_from_meta_run (State h5 (log σ)) l lm r rq dm rec5 _ _
               (lookup_weaken _ _ _ _ Hl Hsub5) Hm (lookup_weaken _ _ _ _ Hlm Hsub5) H5r)).
    simpl. rewrite (copied_weaken h h5 _ _ Hsub5 Hlive2).
    eexists. split; [reflexivity|]. simpl.
    split; [by apply insert_subseteq_r|].
    split; [done|]. split; [done|].
    split.
    { unfold h5, h4, h3. rewrite !lookup_insert_ne by done. exact H2e0. }
    exists hd. split; [done|]. split; [done|]. split.
    { unfold h5, h4, h3. rewrite !lookup_insert_ne by done. apply lookup_insert_eq. }
    split; [|done]. by rewrite lookup_insert_eq.
  - rewrite (bind_inr _ _ _ _ _ (emit_run _ _ _ _)). simpl.
    set (lg := (log σ ++ _)%list).
    rewrite (bind_inr _ _ _ _ _ (copy_from_meta_run (State h2 lg) l lm r rq dm base _ _
               (lookup_weaken _ _ _ _ Hl Hsub2) Hm (lookup_weaken _ _ _ _ Hlm Hsub2) H2r)).
    simpl. rewrite (copied_weaken h h2 _ _ Hsub2 Hlive1).
    set (rec5 := insert_opt "id" _ base). set (h5 := <[r := ODict rec5]> h2).
    assert (h ⊆ h5) as Hsub5 by (by apply insert_subseteq_r).
    assert (h5 !! r = Some (ODict rec5)) as H5r by apply lookup_insert_eq.
    rewrite (bind_inr _ _ _ _ _ (copy_from_meta_run (State h5 lg) l lm r rq dm rec5 _ _
               (lookup_weaken _ _ _ _ Hl Hsub5) Hm (lookup_weaken _ _ _ _ Hlm Hsub5) H5r)).
    simpl. rewrite (copied_weaken h h5 _ _ Hsub5 Hlive2).
    eexists. split; [reflexivity|]. simpl.
    split; [by apply insert_subseteq_r|].
    split; [done|]. split; [done|].
    split.
    { unfold h5. rewrite !lookup_insert_ne by done. exact H2e0. }
    split; [|done]. by rewrite lookup_insert_eq.
Qed.


Lemma encode_scrapy_request_frame (spider : pyval) (l : loc) (σ σ' : state) (enc : string) :
  encode_scrapy_request spider l σ = (inr enc, σ') →
  heap σ ⊆ heap σ' ∧ log σ' = log σ.
Proof.
  unfold encode_scrapy_request, mbind, M_bind, call, call_ro. intros Hrun.
  destruct (Request_to_dict spider l (heap σ)) as [e|[d h']] eqn:Hd; [done|].
  simpl in Hrun. destruct (pickle_dumps d h') as [e|b]; [done|].
  inversion Hrun; subst. simpl. split; [|done]. by eapply Request_to_dict_frame.
Qed.

Lemma record_fields_lookup_userData (rq : Request) (ud : pyval) (hd i k : option pyval) :
  record_fields rq ud hd i k !! "userData" = Some ud.
Proof. unfold record_fields, insert_opt. destruct hd, i, k; by simplify_map_eq. Qed.

Lemma to_apify_request_run_dict (σ : state) (l lm : loc) (rq : Request)
    (dm : gmap string pyval) (spider : pyval) (call_id enc : string) (σ2 : state) :
  let σ0 := State (heap σ) (log σ ++ [LogRec DEBUG (Some call_id)
                                       (to_apify_request_was_called (VRef l))]) in
  heap σ !! l = Some (ORequest rq) →
  _meta rq = VRef lm →
  heap σ !! lm = Some (ODict dm) →
  (∀ v, dm !! "apify_request_id" = Some v → live (heap σ) v) →
  (∀ v, dm !! "apify_request_unique_key" = Some v → live (heap σ) v) →
  (∀ v, dm !! "userData" = Some v → is_Some (as_dict (heap σ) v)) →
  encode_scrapy_request spider l (apify_request_fields l σ0).2 = (inr enc, σ2) →
  ∃ r lu du hd σ',
    to_apify_request (VRef l) spider call_id σ = (inr (VRef r), σ')
    ∧ heap σ !! r = None
    ∧ heap σ' !! r = Some (ODict (record_fields rq (VRef lu) hd
                              (copied (heap σ) dm "apify_request_id")
                              (copied (heap σ) dm "apify_request_unique_key")))
    ∧ match dm !! "userData" with
      | Some v => v = VRef lu ∧ heap σ !! lu = Some (ODict du)
      | None => heap σ !! lu = None ∧ du = ∅
      end
    ∧ heap σ' !! lu = Some (ODict (<["scrapy_request" := VStr enc]> du))
    ∧ r ≠ lu
    ∧ match headers rq with
      | IsHeaders hs => ∃ lh,
          hd = Some (VRef lh) ∧ heap σ !! lh = None
          ∧ heap σ' !! lh = Some (ODict (VStr <$> to_unicode_dict hs))
          ∧ log σ' = (log σ0 ++ [LogRec DEBUG (Some call_id)
                                   (scrapy_request_was_converted (VRef r))])%list
      | NotHeaders _ =>
          hd = None
          ∧ log σ' = (log σ0 ++ [LogRec WARNING None (headers_is_not_Headers (headers rq));
                                 LogRec DEBUG (Some call_id)
                                   (scrapy_request_was_converted (VRef r))])%list
      end.
Proof.
  intros σ0 Hl Hm Hlm Hlive1 Hlive2 Hud Henc.
  destruct (apify_request_fields_run σ0 l lm rq dm Hl Hm Hlm Hlive1 Hlive2)
    as (r & σ1 & Hrun & Hsub1 & Hr & Hre & He0 & Hhead).
  rewrite Hrun in Henc. simpl in Henc.
  destruct (encode_scrapy_request_frame _ _ _ _ _ Henc) as [Hsub2 Hlog2].
  change (heap σ0) with (heap σ) in *.
  set (e0 := new_loc (heap σ)) in *.
  set (ud := default (VRef e0) (dm !! "userData")) in *.
  assert (∃ lu du, ud = VRef lu ∧ heap σ1 !! lu = Some (ODict du) ∧ r ≠ lu
          ∧ (lu = e0 ∨ is_Some (heap σ !! lu))
          ∧ match dm !! "userData" with
            | Some v => v = VRef lu ∧ heap σ !! lu = Some (ODict du)
            | None => heap σ !! lu = None ∧ du = ∅
            end) as (lu & du & Hudv & H1lu & Hrlu & Hlu & Hsrc).
  { unfold ud. destruct (dm !! "userData") as [v|] eqn:Hv; simpl.
    - destruct (Hud v eq_refl) as [du Hdu]. destruct v as [| | | |lu]; try done.
      simpl in Hdu. destruct (heap σ !! lu) as [[du'| | |]|] eqn:Hlu; try done.
      inversion Hdu; subst. exists lu, du. split; [done|].
      split; [by eapply lookup_weaken|]. split; [congruence|].
      split; [right; by eexists|done].
    - exists e0, ∅. split; [done|]. split; [done|]. split; [done|].
      split; [by left|]. split; [apply new_loc_fresh|done]. }
  unfold to_apify_request.
  rewrite (bind_inr _ _ _ _ _ (get_heap_run _)). simpl. rewrite Hl.
  rewrite (bind_inr _ _ _ _ _ (emit_run _ _ _ _)). fold σ0.
  rewrite (bind_inr _ _ _ _ _ Hrun).
  rewrite (bind_inr _ _ _ _ _ Henc).
  destruct (headers rq) as [hs|w] eqn:Hh.
  - destruct Hhead as (lh & Hlh & Hlhe & H1lh & H1r & Hlog1).
    exists r, lu, du, (Some (VRef lh)). rewrite Hudv in H1r.
    rewrite (bind_inr _ _ _ _ _ (py_getitem_run σ2 _ _ _ _
               (lookup_weaken _ _ _ _ H1r Hsub2) (record_fields_lookup_userData _ _ _ _ _))).
    rewrite (bind_inr _ _ _ _ _ (py_setitem_run σ2 _ _ _ _ (lookup_weaken _ _ _ _ H1lu Hsub2))).
    rewrite (bind_inr _ _ _ _ _ (emit_run _ _ _ _)). simpl.
    eexists. split; [reflexivity|]. simpl.
    split; [done|]. split.
    { rewrite lookup_insert_ne by done. by eapply lookup_weaken. }
    split; [done|]. split; [apply lookup_insert_eq|].
    split; [done|].
    exists lh. split; [reflexivity|]. split; [done|]. split.
    + rewrite lookup_insert_ne; [by eapply lookup_weaken|].
      intros <-. destruct Hlu as [?|[? ?]]; congruence.
    + by rewrite Hlog2, Hlog1.
  - destruct Hhead as (H1r & Hlog1).
    exists r, lu, du, None. rewrite Hudv in H1r.
    rewrite (bind_inr _ _ _ _ _ (py_getitem_run σ2 _ _ _ _
               (lookup_weaken _ _ _ _ H1r Hsub2) (record_fields_lookup_userData _ _ _ _ _))).
    rewrite (bind_inr _ _ _ _ _ (py_setitem_run σ2 _ _ _ _ (lookup_weaken _ _ _ _ H1lu Hsub2))).
    rewrite (bind_inr _ _ _ _ _ (emit_run _ _ _ _)). simpl.
    eexists. split; [reflexivity|]. simpl.
    split; [done|]. split.
    { rewrite lookup_insert_ne by done. by eapply lookup_weaken. }
    split; [done|]. split; [apply lookup_insert_eq|].
    split; [done|].
    split; [done|].
    rewrite Hlog2, Hlog1. by rewrite <- app_assoc.
Qed.


Lemma apify_request_fields_meta_None (σ : state) (l : loc) (rq : Request) :
  heap σ !! l = Some (ORequest rq) →
  _meta rq = VNone →
  apify_request_fields l σ
  = apify_request_fields l
      (State (<[l := ORequest (set_meta rq (VRef (new_loc (heap σ))))]>
                (<[new_loc (heap σ) := ODict ∅]> (heap σ))) (log σ)).
Proof.
  intros Hl Hm. unfold apify_request_fields.
  set (e := new_loc (heap σ)). set (rq' := set_meta rq (VRef e)).
  set (σ' := State (<[l := ORequest rq']> (<[e := ODict ∅]> (heap σ))) (log σ)).
  assert (heap σ' !! l = Some (ORequest rq')) as Hl' by apply lookup_insert_eq.
  assert (Request_meta l σ = (inr (VRef e), σ')) as Hrun.
  { unfold Request_meta. rewrite (bind_inr _ _ _ _ _ (get_Request_run _ _ _ Hl)).
    rewrite Hm. rewrite (bind_inr _ _ _ _ _ (alloc_run _ _)).
    by rewrite (bind_inr _ _ _ _ _ (put_Request_run _ _ _)). }
  assert (Request_meta l σ' = (inr (VRef e), σ')) as Hrun'
    by (by apply (Request_meta_run σ' l rq')).
  rewrite (bind_inr _ _ _ _ _ (get_Request_run _ _ _ Hl)).
  rewrite (bind_inr _ _ _ _ _ (get_Request_run _ _ _ Hl')).
  rewrite (bind_inr _ _ _ _ _ Hrun), (bind_inr _ _ _ _ _ Hrun').
  reflexivity.
Qed.


Lemma to_apify_request_run (σ : state) (l : loc) (rq : Request)
    (dm : gmap string pyval) (spider : pyval) (call_id enc : string) (σ2 : state) :
  let σ0 := State (heap σ) (log σ ++ [LogRec DEBUG (Some call_id)
                                       (to_apify_request_was_called (VRef l))]) in
  heap σ !! l = Some (ORequest rq) →
  meta_dict (heap σ) rq = Some dm →
  (∀ v, dm !! "apify_request_id" = Some v → live (heap σ) v) →
  (∀ v, dm !! "apify_request_unique_key" = Some v → live (heap σ) v) →
  (∀ v, dm !! "userData" = Some v → is_Some (as_dict (heap σ) v)) →
  encode_scrapy_request spider l (apify_request_fields l σ0).2 = (inr enc, σ2) →
  ∃ r lu du hd σ',
    to_apify_request (VRef l) spider call_id σ = (inr (VRef r), σ')
    ∧ heap σ !! r = None
    ∧ heap σ' !! r = Some (ODict (record_fields rq (VRef lu) hd
                              (copied (heap σ) dm "apify_request_id")
                              (copied (heap σ) dm "apify_request_unique_key")))
    ∧ match dm !! "userData" with
      | Some v => v = VRef lu ∧ heap σ !! lu = Some (ODict du)
      | None => heap σ !! lu = None ∧ du = ∅
      end
    ∧ heap σ' !! lu = Some (ODict (<["scrapy_request" := VStr enc]> du))
    ∧ r ≠ lu
    ∧ match headers rq with
      | IsHeaders hs => ∃ lh,
          hd = Some (VRef lh) ∧ heap σ !! lh = None
          ∧ heap σ' !! lh = Some (ODict (VStr <$> to_unicode_dict hs))
          ∧ log σ' = (log σ0 ++ [LogRec DEBUG (Some call_id)
                                   (scrapy_request_was_converted (VRef r))])%list
      | NotHeaders _ =>
          hd = None
          ∧ log σ' = (log σ0 ++ [LogRec WARNING None (headers_is_not_Headers (headers rq));
                                 LogRec DEBUG (Some call_id)
                                   (scrapy_request_was_converted (VRef r))])%list
      end.
Proof.
  intros σ0 Hl Hmeta Hlive1 Hlive2 Hud Henc. unfold meta_dict in Hmeta.
  destruct (_meta rq) as [| | | |lm] eqn:Hm; try done.
  - (* no meta yet: the property makes an empty one *)
    inversion Hmeta; subst dm.
    set (e := new_loc (heap σ)). set (rq' := set_meta rq (VRef e)).
    set (h' := <[l := ORequest rq']> (<[e := ODict ∅]> (heap σ))).
    assert (heap σ !! e = None) as He by apply new_loc_fresh.
    assert (l ≠ e) as Hle by congruence.
    assert (∀ x, h' !! x = None → heap σ !! x = None) as Hnone.
    { intros x Hx. unfold h' in Hx.
      apply lookup_insert_None in Hx as [Hx _]. by apply lookup_insert_None in Hx as [Hx _]. }
    assert (to_apify_request (VRef l) spider call_id σ
            = to_apify_request (VRef l) spider call_id (State h' (log σ))) as Hsame.
    { unfold to_apify_request.
      rewrite !(bind_inr _ _ _ _ _ (get_heap_run _)). simpl.
      rewrite Hl. unfold h' at 1. rewrite lookup_insert_eq.
      rewrite !(bind_inr _ _ _ _ _ (emit_run _ _ _ _)). simpl.
      fold σ0. apply bind_same.
      by rewrite (apify_request_fields_meta_None σ0 l rq Hl Hm). }
    rewrite (apify_request_fields_meta_None σ0 l rq Hl Hm) in Henc.
    destruct (to_apify_request_run_dict (State h' (log σ)) l e rq' ∅ spider call_id enc σ2)
      as (r & lu & du & hd & σ' & Hrun & Hr & H'r & Hsrc & H'lu & Hrlu & Hhead); try done.
    { simpl. apply lookup_insert_eq. }
    { simpl. unfold h'. rewrite lookup_insert_ne by done. apply lookup_insert_eq. }
    exists r, lu, du, hd, σ'. rewrite Hsame. split; [done|].
    split; [by apply Hnone|]. split; [done|]. rewrite lookup_empty in Hsrc |- *.
    split; [destruct Hsrc; split; [by apply Hnone|done]|].
    split; [done|]. split; [done|].
    change (headers rq') with (headers rq) in Hhead. simpl in Hhead.
    destruct (headers rq); [|done].
    destruct Hhead as (lh & ? & ? & ? & ?). exists lh. repeat split; try done. by apply Hnone.
  - destruct (heap σ !! lm) as [[dm'| | |]|] eqn:Hlm; simpl in Hmeta; rewrite Hlm in Hmeta; try done.
    inversion Hmeta; subst dm'.
    by apply (to_apify_request_run_dict σ l lm rq dm spider call_id enc σ2).
Qed.


Lemma set_optional_fields_run (σ : state) (l q lm : loc) (d dm : gmap string pyval)
    (rq : Request) (hnew : headers_attr) :
  heap σ !! l = Some (ODict d) →
  heap σ !! q = Some (ORequest rq) →
  _meta rq = VRef lm →
  heap σ !! lm = Some (ODict dm) →
  headers_after (heap σ) d (headers rq) = Some hnew →
  set_optional_fields (VRef l) q σ
  = (inr tt,
     State (<[lm := ODict (insert_opt "userData" (d !! "userData") dm)]>
              (<[q := ORequest (set_headers rq hnew)]> (heap σ)))
           (log σ ++ headers_warning (heap σ) d)).
Proof.
  intros Hl Hq Hm Hlm Hh. unfold set_optional_fields.
  assert (q ≠ l) as Hql by congruence.
  assert (q ≠ lm) as Hqlm by congruence.
  rewrite (bind_inr _ _ _ _ _ (py_contains_run _ _ _ _ Hl)).
  unfold headers_after, headers_warning in *.
  set (σ1 := State (<[q := ORequest (set_headers rq hnew)]> (heap σ))
                   (log σ ++ match d !! "headers" with
                             | None => []
                             | Some hv => match as_dict (heap σ) hv with
                                          | None => [LogRec WARNING None (headers_is_not_dict hv)]
                                          | Some _ => []
                                          end
                             end)).
  assert (heap σ1 !! l = Some (ODict d)) as H1l by (simpl; by rewrite lookup_insert_ne).
  assert (heap σ1 !! lm = Some (ODict dm)) as H1lm by (simpl; by rewrite lookup_insert_ne).
  assert (heap σ1 !! q = Some (ORequest (set_headers rq hnew))) as H1q
    by (simpl; by rewrite lookup_insert_eq).
  assert (_meta (set_headers rq hnew) ≠ VNone) as Hmn by (simpl; by rewrite Hm).
  erewrite (bind_inr _ _ σ σ1 tt).
  - rewrite (bind_inr _ _ _ _ _ (py_contains_run _ _ _ _ H1l)).
    destruct (d !! "userData") as [ud|] eqn:Hud; simpl.
    + rewrite (bind_inr _ _ _ _ _ (py_getitem_run _ _ _ _ _ H1l Hud)).
      rewrite (bind_inr _ _ _ _ _ (Request_meta_run _ _ _ H1q Hmn)). simpl. rewrite Hm.
      by rewrite (py_setitem_run σ1 _ _ _ _ H1lm).
    + rewrite ret_run. unfold σ1. simpl. f_equal. f_equal.
      symmetry. apply insert_id. by rewrite lookup_insert_ne.
  - destruct (d !! "headers") as [hv|] eqn:Hhv; simpl.
    + rewrite (bind_inr _ _ _ _ _ (py_getitem_run _ _ _ _ _ Hl Hhv)).
      rewrite (bind_inr _ _ _ _ _ (get_heap_run _)).
      destruct (as_dict (heap σ) hv) as [hd|] eqn:Hhd.
      * destruct (Headers_init hd) as [e|hs] eqn:Hinit; [done|]. inversion Hh; subst hnew.
        rewrite (bind_inr _ _ σ σ hs) by done.
        rewrite (bind_inr _ _ _ _ _ (get_Request_run _ _ _ Hq)).
        rewrite put_Request_run. unfold σ1. by rewrite app_nil_r.
      * inversion Hh; subst hnew. rewrite emit_run. unfold σ1. f_equal. f_equal.
        rewrite set_headers_id. by rewrite insert_id.
    + inversion Hh; subst hnew. rewrite ret_run. unfold σ1. rewrite app_nil_r.
      rewrite set_headers_id. rewrite insert_id by done. by destruct σ.
Qed.


Lemma headers_after_stable (h h' : gmap loc pyobj) (d : gmap string pyval)
    (old : headers_attr) :
  (∀ hv, d !! "headers" = Some hv → as_dict h' hv = as_dict h hv) →
  headers_after h' d old = headers_after h d old
  ∧ headers_warning h' d = headers_warning h d.
Proof.
  intros Hsame. unfold headers_after, headers_warning.
  destruct (d !! "headers") as [hv|]; [|done]. by rewrite (Hsame hv eq_refl).
Qed.

Lemma has_snapshot_absent (σ : state) (l : loc) (d : gmap string pyval) :
  heap σ !! l = Some (ODict d) → d !! "userData" = None →
  has_snapshot (VRef l) σ = (inr false, σ).
Proof.
  intros Hl Hud. unfold has_snapshot.
  rewrite (bind_inr _ _ _ _ _ (py_contains_run _ _ _ _ Hl)), Hud.
  by rewrite bool_decide_eq_false_2 by (by intros [? ?]).
Qed.

Lemma has_snapshot_dict (σ : state) (l lu : loc) (d du : gmap string pyval) :
  heap σ !! l = Some (ODict d) → d !! "userData" = Some (VRef lu) →
  heap σ !! lu = Some (ODict du) →
  has_snapshot (VRef l) σ = (inr (bool_decide (is_Some (du !! "scrapy_request"))), σ).
Proof.
  intros Hl Hud Hlu. unfold has_snapshot.
  rewrite (bind_inr _ _ _ _ _ (py_contains_run _ _ _ _ Hl)), Hud.
  rewrite bool_decide_eq_true_2 by (by eexists).
  rewrite (bind_inr _ _ _ _ _ (py_getitem_run _ _ _ _ _ Hl Hud)).
  by rewrite (py_contains_run _ _ _ _ Hlu).
Qed.

Lemma create_scrapy_request_run (σ : state) (l : loc) (d : gmap string pyval)
    (u m i k : pyval) (rq0 : Request) (call_id : string) :
  heap σ !! l = Some (ODict d) →
  d !! "url" = Some u → d !! "method" = Some m →
  d !! "id" = Some i → d !! "uniqueKey" = Some k →
  Request_init u m = inr rq0 →
  let lm := new_loc (heap σ) in
  let h1 := <[lm := ODict {[ "apify_request_id" := i; "apify_request_unique_key" := k ]}]> (heap σ) in
  create_scrapy_request (VRef l) call_id σ
  = (inr (new_loc h1),
     State (<[new_loc h1 := ORequest (set_meta rq0 (VRef lm))]> h1)
           (log σ ++ [LogRec DEBUG (Some call_id) gonna_create_a_new_scrapy_request])).
Proof.
  intros Hl Hu Hm Hi Hk Hinit lm h1. unfold create_scrapy_request.
  rewrite (bind_inr _ _ _ _ _ (emit_run _ _ _ _)).
  set (σ1 := State (heap σ) _).
  rewrite (bind_inr _ _ _ _ _ (py_getitem_run σ1 _ _ _ _ Hl Hu)).
  rewrite (bind_inr _ _ _ _ _ (py_getitem_run σ1 _ _ _ _ Hl Hm)).
  rewrite (bind_inr _ _ _ _ _ (py_getitem_run σ1 _ _ _ _ Hl Hi)).
  rewrite (bind_inr _ _ _ _ _ (py_getitem_run σ1 _ _ _ _ Hl Hk)).
  rewrite (bind_inr _ _ _ _ _ (alloc_run _ _)).
  rewrite (bind_inr _ _ _ _ _ (call_ro_run (λ _, Request_init u m) _ rq0 Hinit)).
  by rewrite alloc_run.
Qed.

(** [scrapy_request.meta or {}] gives a dict with the entries of the meta. *)
Lemma meta_or_new_run (σ : state) (q : loc) (rq : Request) (dm : gmap string pyval) :
  heap σ !! q = Some (ORequest rq) →
  meta_or_empty (heap σ) rq = Some dm →
  ∃ lm m' σ',
    meta_or_new q σ = (inr (VRef lm), σ')
    ∧ heap σ' !! lm = Some (ODict dm)
    ∧ (_meta rq = VRef lm ∨ heap σ !! lm = None)
    ∧ heap σ' !! q = Some (ORequest (set_meta rq m'))
    ∧ (∀ x o, x ≠ q → heap σ !! x = Some o → heap σ' !! x = Some o)
    ∧ log σ' = log σ.
Proof.
  intros Hq Hmeta. unfold meta_or_new, meta_or_empty in *.
  destruct (decide (_meta rq = VNone)) as [Hm|Hmn].
  - (* the property makes an empty dict, and [or] another one *)
    rewrite Hm in Hmeta. inversion Hmeta; subst dm.
    set (e1 := new_loc (heap σ)). set (h1 := <[e1 := ODict ∅]> (heap σ)).
    set (h2 := <[q := ORequest (set_meta rq (VRef e1))]> h1).
    assert (heap σ !! e1 = None) as He1 by apply new_loc_fresh.
    assert (q ≠ e1) as Hqe by congruence.
    assert (Request_meta q σ = (inr (VRef e1), State h2 (log σ))) as Hrun.
    { unfold Request_meta. rewrite (bind_inr _ _ _ _ _ (get_Request_run _ _ _ Hq)), Hm.
      rewrite (bind_inr _ _ _ _ _ (alloc_run _ _)).
      by rewrite (bind_inr _ _ _ _ _ (put_Request_run _ _ _)). }
    rewrite (bind_inr _ _ _ _ _ Hrun), (bind_inr _ _ _ _ _ (get_heap_run _)). simpl.
    assert (h2 !! e1 = Some (ODict ∅)) as H2e
      by (unfold h2, h1; rewrite lookup_insert_ne by done; apply lookup_insert_eq).
    rewrite H2e. rewrite bool_decide_eq_true_2 by done. simpl.
    rewrite (bind_inr _ _ _ _ _ (alloc_run _ _)), ret_run. simpl.
    exists (new_loc h2), (VRef e1). eexists. split; [reflexivity|]. simpl.
    assert (h2 !! new_loc h2 = None) as Hfresh by apply new_loc_fresh.
    split; [apply lookup_insert_eq|].
    split.
    { right. unfold h2, h1 in Hfresh.
      apply lookup_insert_None in Hfresh as [Hfresh _].
      by apply lookup_insert_None in Hfresh as [Hfresh _]. }
    split.
    { apply lookup_alloc_old. apply lookup_insert_eq. }
    split; [|done].
    intros x o Hx Ho. apply lookup_alloc_old. unfold h2, h1.
    rewrite lookup_insert_ne by done. by apply lookup_alloc_old.
  - assert (set_meta rq (_meta rq) = rq) as Hid by (by destruct rq).
    rewrite (bind_inr _ _ _ _ _ (Request_meta_run _ _ _ Hq Hmn)).
    rewrite (bind_inr _ _ _ _ _ (get_heap_run _)).
    destruct (truthy (heap σ) (_meta rq)) eqn:Ht.
    + rewrite ret_run.
      destruct (_meta rq) as [| | | |lm] eqn:Hm; try done. simpl in Hmeta.
      destruct (heap σ !! lm) as [[dm'| | |]|] eqn:Hlm; try done.
      inversion Hmeta; subst dm'.
      exists lm, (VRef lm), σ.
      split; [done|]. split; [done|]. split; [by left|].
      split; [|done]. by rewrite Hid.
    + inversion Hmeta; subst dm.
      rewrite (bind_inr _ _ _ _ _ (alloc_run _ _)), ret_run. simpl.
      exists (new_loc (heap σ)), (_meta rq). eexists. split; [reflexivity|]. simpl.
      split; [apply lookup_insert_eq|].
      split; [right; apply new_loc_fresh|].
      split; [apply lookup_alloc_old; by rewrite Hid|].
      split; [|done]. intros x o _ Ho. by apply lookup_alloc_old.
Qed.

Lemma decode_scrapy_request_run (σ : state) (s b : string) (dv spider : pyval)
    (h1 h2 : gmap loc pyobj) (q : loc) (rq : Request) :
  base64_decode s = inr b →
  pickle_loads b (heap σ) = inr (dv, h1) →
  is_Some (as_dict h1 dv) →
  request_from_dict dv spider h1 = inr (VRef q, h2) →
  h2 !! q = Some (ORequest rq) →
  decode_scrapy_request s spider σ = (inr q, State h2 (log σ)).
Proof.
  intros Hdec Hloads [f Hf] Hfrom Hq. unfold decode_scrapy_request.
  rewrite (bind_inr _ _ _ _ _ (call_ro_run (λ _, base64_decode s) _ b Hdec)).
  rewrite (bind_inr _ _ _ _ _ (call_run (pickle_loads b) σ dv h1 Hloads)).
  rewrite (bind_inr _ _ _ _ _ (get_heap_run _)). simpl. rewrite Hf.
  rewrite (bind_inr _ _ _ _ _ (call_run (request_from_dict dv spider) (State h1 (log σ)) _ h2 Hfrom)).
  rewrite (bind_inr _ _ _ _ _ (get_heap_run _)). simpl. by rewrite Hq.
Qed.

Lemma update_identity_run (σ : state) (l q : loc) (d dm : gmap string pyval)
    (i k : pyval) (rq : Request) :
  heap σ !! l = Some (ODict d) →
  d !! "id" = Some i → d !! "uniqueKey" = Some k →
  heap σ !! q = Some (ORequest rq) →
  meta_or_empty (heap σ) rq = Some dm →
  ∃ lm σ',
    update_identity (VRef l) q σ = (inr tt, σ')
    ∧ heap σ' !! q = Some (ORequest (set_meta rq (VRef lm)))
    ∧ heap σ' !! lm = Some (ODict (<["apify_request_unique_key" := k]>
                                    (<["apify_request_id" := i]> dm)))
    ∧ (_meta rq = VRef lm ∨ heap σ !! lm = None)
    ∧ (∀ x o, heap σ !! x = Some o → x ≠ q → x ≠ lm → heap σ' !! x = Some o)
    ∧ log σ' = log σ.
Proof.
  intros Hl Hi Hk Hq Hmeta. unfold update_identity.
  destruct (meta_or_new_run σ q rq dm Hq Hmeta)
    as (lm & m' & σ3 & Hrun & H3lm & Hlm & H3q & Hframe & Hlog3).
  rewrite (bind_inr _ _ _ _ _ Hrun).
  assert (q ≠ l) as Hql by congruence.
  assert (heap σ3 !! l = Some (ODict d)) as H3l by (by apply Hframe).
  rewrite (bind_inr _ _ _ _ _ (py_getitem_run σ3 _ _ _ _ H3l Hi)).
  rewrite (bind_inr _ _ _ _ _ (py_getitem_run σ3 _ _ _ _ H3l Hk)).
  rewrite (bind_inr _ _ _ _ _ (dict_update_run σ3 _ _ _ H3lm)). simpl.
  assert (q ≠ lm) as Hqlm by congruence.
  erewrite (bind_inr (get_Request q) _ _ _ (set_meta rq m')).
  2: { apply get_Request_run. simpl. by rewrite lookup_insert_ne. }
  rewrite put_Request_run. simpl.
  exists lm. eexists. split; [reflexivity|]. simpl.
  split; [apply lookup_insert_eq|].
  split; [rewrite lookup_insert_ne by done; apply lookup_insert_eq|].
  split; [done|]. split; [|done].
  intros x o Hx Hxq Hxlm.
  rewrite lookup_insert_ne by done. rewrite lookup_insert_ne by done.
  by apply Hframe.
Qed.

Lemma restore_scrapy_request_run (σ : state) (l lu q : loc) (d du dm : gmap string pyval)
    (i k dv spider : pyval) (s b call_id : string) (h1 h2 : gmap loc pyobj) (rq : Request) :
  heap σ !! l = Some (ODict d) →
  d !! "userData" = Some (VRef lu) →
  heap σ !! lu = Some (ODict du) →
  du !! "scrapy_request" = Some (VStr s) →
  d !! "id" = Some i → d !! "uniqueKey" = Some k →
  base64_decode s = inr b →
  pickle_loads b (heap σ) = inr (dv, h1) →
  is_Some (as_dict h1 dv) →
  request_from_dict dv spider h1 = inr (VRef q, h2) →
  h2 !! q = Some (ORequest rq) →
  meta_or_empty h2 rq = Some dm →
  ∃ lm σ',
    restore_scrapy_request (VRef l) spider call_id σ = (inr q, σ')
    ∧ heap σ' !! q = Some (ORequest (set_meta rq (VRef lm)))
    ∧ heap σ' !! lm = Some (ODict (<["apify_request_unique_key" := k]>
                                    (<["apify_request_id" := i]> dm)))
    ∧ (_meta rq = VRef lm ∨ heap σ !! lm = None)
    ∧ (∀ x o, heap σ !! x = Some o → x ≠ q → x ≠ lm → heap σ' !! x = Some o)
    ∧ log σ' = (log σ ++ [LogRec DEBUG (Some call_id) restoring_the_scrapy_request;
                          LogRec DEBUG (Some call_id) (scrapy_request_reconstructed (VRef q))])%list.
Proof.
  intros Hl Hud Hlu Hs Hi Hk Hdec Hloads Hf Hfrom Hq Hmeta.
  assert (heap σ ⊆ h1) as Hsub1 by (by eapply pickle_loads_frame).
  assert (h1 ⊆ h2) as Hsub12 by (by eapply request_from_dict_frame).
  assert (heap σ ⊆ h2) as Hsub2 by (by etrans).
  assert (q ≠ l) as Hql by (intros ->; rewrite (lookup_weaken _ _ _ _ Hl Hsub2) in Hq; done).
  unfold restore_scrapy_request.
  rewrite (bind_inr _ _ _ _ _ (emit_run _ _ _ _)).
  set (lg1 := (log σ ++ _)%list).
  rewrite (bind_inr _ _ _ _ _ (py_getitem_run (State (heap σ) lg1) _ _ _ _ Hl Hud)).
  rewrite (bind_inr _ _ _ _ _ (py_getitem_run (State (heap σ) lg1) _ _ _ _ Hlu Hs)).
  rewrite (bind_inr _ _ _ _ _ (decode_scrapy_request_run (State (heap σ) lg1) s b dv spider
             h1 h2 q rq Hdec Hloads Hf Hfrom Hq)).
  rewrite (bind_inr _ _ _ _ _ (emit_run _ _ _ _)). simpl.
  set (lg2 := (lg1 ++ _)%list).
  destruct (update_identity_run (State h2 lg2) l q d dm i k rq
              (lookup_weaken _ _ _ _ Hl Hsub2) Hi Hk Hq Hmeta)
    as (lm & σ' & Hrun & H'q & H'lm & Hlm & Hframe & Hlog).
  rewrite (bind_inr _ _ _ _ _ Hrun), ret_run.
  exists lm, σ'. split; [done|]. split; [done|]. split; [done|].
  split.
  { destruct Hlm as [Hlm|Hlm]; [by left | right; by eapply lookup_weaken_None]. }
  split.
  - intros x o Hx Hxq Hxlm. apply Hframe; [by eapply lookup_weaken | done | done].
  - rewrite Hlog. unfold lg2, lg1. by rewrite <- app_assoc.
Qed.


Lemma to_scrapy_request_restore_run (σ : state) (l lu q : loc)
    (d du dm : gmap string pyval) (i k dv spider : pyval) (s b call_id : string)
    (h1 h2 : gmap loc pyobj) (rq : Request) (hnew : headers_attr) :
  heap σ !! l = Some (ODict d) →
  is_Some (d !! "url") → is_Some (d !! "method") →
  d !! "id" = Some i → d !! "uniqueKey" = Some k →
  d !! "userData" = Some (VRef lu) →
  heap σ !! lu = Some (ODict du) →
  du !! "scrapy_request" = Some (VStr s) →
  base64_decode s = inr b →
  pickle_loads b (heap σ) = inr (dv, h1) →
  is_Some (as_dict h1 dv) →
  request_from_dict dv spider h1 = inr (VRef q, h2) →
  h2 !! q = Some (ORequest rq) →
  meta_or_empty h2 rq = Some dm →
  (∀ lm, _meta rq = VRef lm → heap σ !! lm = None) →
  (∀ hv, d !! "headers" = Some hv → live (heap σ) hv) →
  headers_after (heap σ) d (headers rq) = Some hnew →
  ∃ lm σ',
    to_scrapy_request (VRef l) spider call_id σ = (inr (VRef q), σ')
    ∧ heap σ' !! q = Some (ORequest (set_headers (set_meta rq (VRef lm)) hnew))
    ∧ heap σ' !! lm = Some (ODict (meta_after d dm i k))
    ∧ heap σ !! lm = None
    ∧ dicts_kept (heap σ) (heap σ')
    ∧ log σ' = (log σ
                ++ [LogRec DEBUG (Some call_id) (to_scrapy_request_was_called (VRef l));
                    LogRec DEBUG (Some call_id) restoring_the_scrapy_request;
                    LogRec DEBUG (Some call_id) (scrapy_request_reconstructed (VRef q))]
                ++ headers_warning (heap σ) d
                ++ [LogRec DEBUG (Some call_id) (apify_request_was_converted (VRef q))])%list.
Proof.
  intros Hl Hu Hm Hi Hk Hud Hlu Hs Hdec Hloads Hf Hfrom Hq Hmeta Hfresh Hlive Hhead.
  assert (heap σ ⊆ h2) as Hsub2.
  { etrans; [by eapply pickle_loads_frame | by eapply request_from_dict_frame]. }
  unfold to_scrapy_request.
  rewrite (bind_inr _ _ _ _ _ (get_heap_run _)). simpl. rewrite Hl.
  rewrite (bind_inr _ _ _ _ _ (check_required_keys_run _ _ (missing_keys_present d Hu Hm
             (ex_intro _ _ Hi) (ex_intro _ _ Hk)))).
  rewrite (bind_inr _ _ _ _ _ (emit_run _ _ _ _)).
  set (σ0 := State (heap σ) _).
  rewrite (bind_inr _ _ _ _ _ (has_snapshot_dict σ0 l lu d du Hl Hud Hlu)).
  rewrite bool_decide_eq_true_2 by (by eexists).
  destruct (restore_scrapy_request_run σ0 l lu q d du dm i k dv spider s b call_id h1 h2 rq)
    as (lm & σ3 & Hrun & H3q & H3lm & Hlm' & Hframe' & Hlog3); try done.
  rewrite (bind_inr _ _ _ _ _ Hrun).
  change (heap σ0) with (heap σ) in *.
  assert (heap σ !! lm = None) as Hlm by (destruct Hlm' as [?|?]; [by apply Hfresh | done]).
  assert (∀ x o, heap σ !! x = Some o → x ≠ q → heap σ3 !! x = Some o) as Hframe
    by (intros x o Hx Hxq; apply Hframe'; [done | done | congruence]).
  assert (q ≠ l) as Hql by (intros ->; rewrite (lookup_weaken _ _ _ _ Hl Hsub2) in Hq; done).
  assert (∀ hv, d !! "headers" = Some hv → as_dict (heap σ3) hv = as_dict (heap σ) hv) as Hsame.
  { intros hv Hhv. destruct hv as [| | | |x]; try done.
    destruct (Hlive _ Hhv x eq_refl) as [o Ho]. simpl. rewrite Ho.
    destruct (decide (x = q)) as [->|Hxq].
    - rewrite H3q. rewrite (lookup_weaken _ _ _ _ Ho Hsub2) in Hq. by inversion Hq.
    - by rewrite (Hframe x o Ho Hxq). }
  destruct (headers_after_stable (heap σ) (heap σ3) d (headers rq) Hsame) as [Hha Hhw].
  assert (heap σ3 !! l = Some (ODict d)) as H3l by (apply Hframe; done).
  assert (headers_after (heap σ3) d (headers (set_meta rq (VRef lm))) = Some hnew) as Hhead3
    by (by rewrite <- Hhead, <- Hha).
  unfold finish_scrapy_request.
  rewrite (bind_inr _ _ _ _ _ (set_optional_fields_run σ3 l q lm d _ _ hnew
             H3l H3q eq_refl H3lm Hhead3)).
  rewrite (bind_inr _ _ _ _ _ (emit_run _ _ _ _)). rewrite ret_run. simpl.
  assert (q ≠ lm) as Hqlm by congruence.
  exists lm. eexists. split; [reflexivity|]. simpl.
  split; [rewrite lookup_insert_ne by done; apply lookup_insert_eq|].
  split; [unfold meta_after; apply lookup_insert_eq|].
  split; [done|]. split.
  - intros x dx Hx.
    assert (x ≠ q) as Hxq
      by (intros ->; rewrite (lookup_weaken _ _ _ _ Hx Hsub2) in Hq; done).
    rewrite lookup_insert_ne by congruence. rewrite lookup_insert_ne by done. by apply Hframe.
  - rewrite Hlog3, Hhw. unfold σ0. simpl. by rewrite <- !app_assoc.
Qed.


Lemma to_scrapy_request_create_run (σ : state) (l : loc) (d : gmap string pyval)
    (u m i k spider : pyval) (call_id : string) (rq0 : Request) (hnew : headers_attr) :
  heap σ !! l = Some (ODict d) →
  d !! "url" = Some u → d !! "method" = Some m →
  d !! "id" = Some i → d !! "uniqueKey" = Some k →
  no_snapshot (heap σ) d →
  Request_init u m = inr rq0 →
  (∀ hv, d !! "headers" = Some hv → live (heap σ) hv) →
  headers_after (heap σ) d (headers rq0) = Some hnew →
  ∃ q lm σ',
    to_scrapy_request (VRef l) spider call_id σ = (inr (VRef q), σ')
    ∧ heap σ !! q = None ∧ heap σ !! lm = None
    ∧ heap σ' !! q = Some (ORequest (set_headers (set_meta rq0 (VRef lm)) hnew))
    ∧ heap σ' !! lm = Some (ODict (meta_after d ∅ i k))
    ∧ heap σ ⊆ heap σ'
    ∧ log σ' = (log σ
                ++ [LogRec DEBUG (Some call_id) (to_scrapy_request_was_called (VRef l));
                    LogRec DEBUG (Some call_id) gonna_create_a_new_scrapy_request]
                ++ headers_warning (heap σ) d
                ++ [LogRec DEBUG (Some call_id) (apify_request_was_converted (VRef q))])%list.
Proof.
  intros Hl Hu Hm Hi Hk Hsnap Hinit Hlive Hhead.
  unfold to_scrapy_request.
  rewrite (bind_inr _ _ _ _ _ (get_heap_run _)). simpl. rewrite Hl.
  rewrite (bind_inr _ _ _ _ _ (check_required_keys_run _ _ (missing_keys_present d
             (ex_intro _ _ Hu) (ex_intro _ _ Hm) (ex_intro _ _ Hi) (ex_intro _ _ Hk)))).
  rewrite (bind_inr _ _ _ _ _ (emit_run _ _ _ _)).
  set (σ0 := State (heap σ) _).
  assert (has_snapshot (VRef l) σ0 = (inr false, σ0)) as Hno.
  { destruct Hsnap as [Hud|(lu & du & Hud & Hlu & Hs)].
    - by apply (has_snapshot_absent σ0 l d).
    - rewrite (has_snapshot_dict σ0 l lu d du Hl Hud Hlu), Hs.
      by rewrite bool_decide_eq_false_2 by (by intros [? ?]). }
  rewrite (bind_inr _ _ _ _ _ Hno).
  rewrite (bind_inr _ _ _ _ _ (create_scrapy_request_run σ0 l d u m i k rq0 call_id
             Hl Hu Hm Hi Hk Hinit)).
  change (heap σ0) with (heap σ).
  set (lm := new_loc (heap σ)).
  set (dm := ({[ "apify_request_id" := i; "apify_request_unique_key" := k ]} : gmap string pyval)).
  set (h1 := <[lm := ODict dm]> (heap σ)).
  set (q := new_loc h1). set (h2 := <[q := ORequest (set_meta rq0 (VRef lm))]> h1).
  set (σ2 := State h2 _).
  assert (heap σ !! lm = None) as Hlm by apply new_loc_fresh.
  assert (h1 !! q = None) as H1q by apply new_loc_fresh.
  assert (heap σ ⊆ h1) as Hsub1 by apply alloc_subseteq.
  assert (heap σ ⊆ h2) as Hsub2 by (etrans; [exact Hsub1 | apply alloc_subseteq]).
  assert (heap σ !! q = None) as Hq by (by eapply lookup_weaken_None).
  assert (h1 !! lm = Some (ODict dm)) as H1lm by apply lookup_insert_eq.
  assert (q ≠ lm) as Hqlm by congruence.
  assert (dm = <["apify_request_unique_key" := k]> (<["apify_request_id" := i]> ∅)) as Hdm.
  { unfold dm. apply map_eq. intros key.
    destruct (decide (key = "apify_request_unique_key")) as [->|Hk1];
      [by simplify_map_eq|].
    destruct (decide (key = "apify_request_id")) as [->|Hk2]; by simplify_map_eq. }
  assert (∀ hv, d !! "headers" = Some hv → as_dict h2 hv = as_dict (heap σ) hv) as Hsame.
  { intros hv Hhv. apply as_dict_weaken; [done | by apply Hlive]. }
  destruct (headers_after_stable (heap σ) h2 d (headers rq0) Hsame) as [Hha Hhw].
  assert (heap σ2 !! l = Some (ODict d)) as H2l by (by eapply lookup_weaken).
  assert (heap σ2 !! q = Some (ORequest (set_meta rq0 (VRef lm)))) as H2q
    by apply lookup_insert_eq.
  assert (heap σ2 !! lm = Some (ODict dm)) as H2lm by (by apply lookup_alloc_old).
  assert (headers_after (heap σ2) d (headers (set_meta rq0 (VRef lm))) = Some hnew) as Hhead2
    by (by rewrite <- Hhead, <- Hha).
  unfold finish_scrapy_request.
  rewrite (bind_inr _ _ _ _ _ (set_optional_fields_run σ2 l q lm d _ _ hnew
             H2l H2q eq_refl H2lm Hhead2)).
  rewrite (bind_inr _ _ _ _ _ (emit_run _ _ _ _)). rewrite ret_run. simpl.
  exists q, lm. eexists. split; [reflexivity|]. simpl.
  split; [done|]. split; [done|].
  split; [rewrite lookup_insert_ne by done; apply lookup_insert_eq|].
  split; [unfold meta_after; rewrite <- Hdm; apply lookup_insert_eq|].
  split.
  - apply insert_subseteq_r; [done|]. by apply insert_subseteq_r.
  - rewrite Hhw. by rewrite <- !app_assoc.
Qed.


Lemma set_optional_fields_inl (σ σ' : state) (l q lm : loc) (d dm : gmap string pyval)
    (rq : Request) (e : exn) :
  heap σ !! l = Some (ODict d) →
  heap σ !! q = Some (ORequest rq) →
  _meta rq = VRef lm →
  heap σ !! lm = Some (ODict dm) →
  set_optional_fields (VRef l) q σ = (inl e, σ') →
  ∃ hd, Headers_init hd = inl e.
Proof.
  intros Hl Hq Hm Hlm Hrun.
  destruct (headers_after (heap σ) d (headers rq)) as [hnew|] eqn:Hh.
  - by rewrite (set_optional_fields_run σ l q lm d dm rq hnew Hl Hq Hm Hlm Hh) in Hrun.
  - unfold headers_after in Hh.
    destruct (d !! "headers") as [hv|] eqn:Hhv; [|done].
    destruct (as_dict (heap σ) hv) as [hd|] eqn:Hhd; [|done].
    destruct (Headers_init hd) as [e0|hs] eqn:Hinit; [|done].
    exists hd. rewrite Hinit. f_equal.
    unfold set_optional_fields in Hrun.
    rewrite (bind_inr _ _ _ _ _ (py_contains_run _ _ _ _ Hl)) in Hrun.
    rewrite Hhv in Hrun. rewrite bool_decide_eq_true_2 in Hrun by (by eexists).
    erewrite (bind_inl _ _ σ σ e0) in Hrun; [by inversion Hrun|].
    rewrite (bind_inr _ _ _ _ _ (py_getitem_run _ _ _ _ _ Hl Hhv)).
    rewrite (bind_inr _ _ _ _ _ (get_heap_run _)). rewrite Hhd.
    apply bind_inl. unfold call_ro. by rewrite Hinit.
Qed.


Lemma finish_scrapy_request_inl (σ σ' : state) (l q lm : loc) (d dm : gmap string pyval)
    (rq : Request) (call_id : string) (e : exn) :
  heap σ !! l = Some (ODict d) →
  heap σ !! q = Some (ORequest rq) →
  _meta rq = VRef lm →
  heap σ !! lm = Some (ODict dm) →
  finish_scrapy_request (VRef l) q call_id σ = (inl e, σ') →
  ∃ hd, Headers_init hd = inl e.
Proof.
  intros Hl Hq Hm Hlm Hrun. unfold finish_scrapy_request in Hrun.
  destruct (set_optional_fields (VRef l) q σ) as [[e0|[]] σ1] eqn:Hset.
  - rewrite (bind_inl _ _ _ _ _ Hset) in Hrun. inversion Hrun; subst.
    exact (set_optional_fields_inl _ _ l q lm d dm rq _ Hl Hq Hm Hlm Hset).
  - rewrite (bind_inr _ _ _ _ _ Hset) in Hrun.
    by rewrite (bind_inr _ _ _ _ _ (emit_run _ _ _ _)) in Hrun.
Qed.

(** The branch that makes a new request fails only inside the libraries. *)
Lemma create_then_finish_inl (σ σ' : state) (l : loc) (d : gmap string pyval)
    (spider : pyval) (call_id : string) (e : exn) :
  heap σ !! l = Some (ODict d) →
  missing_keys d = [] →
  (create_scrapy_request (VRef l) call_id
     ≫= λ q, finish_scrapy_request (VRef l) q call_id) σ = (inl e, σ') →
  raised_by_library spider e.
Proof.
  intros Hl Hnone Hrun.
  destruct (proj1 (missing_keys_nil d) Hnone "url") as [u Hu]; [set_solver|].
  destruct (proj1 (missing_keys_nil d) Hnone "method") as [m Hm]; [set_solver|].
  destruct (proj1 (missing_keys_nil d) Hnone "id") as [i Hi]; [set_solver|].
  destruct (proj1 (missing_keys_nil d) Hnone "uniqueKey") as [k Hk]; [set_solver|].
  destruct (Request_init u m) as [e0|rq0] eqn:Hinit.
  - right. right. right. left. exists u, m. rewrite Hinit. f_equal.
    erewrite (bind_inl _ _ σ _ e0) in Hrun; [by inversion Hrun|].
    unfold create_scrapy_request.
    rewrite (bind_inr _ _ _ _ _ (emit_run _ _ _ _)).
    set (σ1 := State (heap σ) _).
    rewrite (bind_inr _ _ _ _ _ (py_getitem_run σ1 _ _ _ _ Hl Hu)).
    rewrite (bind_inr _ _ _ _ _ (py_getitem_run σ1 _ _ _ _ Hl Hm)).
    rewrite (bind_inr _ _ _ _ _ (py_getitem_run σ1 _ _ _ _ Hl Hi)).
    rewrite (bind_inr _ _ _ _ _ (py_getitem_run σ1 _ _ _ _ Hl Hk)).
    rewrite (bind_inr _ _ _ _ _ (alloc_run _ _)).
    apply bind_inl. unfold call_ro. by rewrite Hinit.
  - rewrite (bind_inr _ _ _ _ _ (create_scrapy_request_run σ l d u m i k rq0 call_id
               Hl Hu Hm Hi Hk Hinit)) in Hrun.
    set (lm := new_loc (heap σ)) in *.
    set (h1 := <[lm := ODict _]> (heap σ)) in *.
    assert (heap σ !! lm = None) as Hlm by apply new_loc_fresh.
    assert (h1 !! new_loc h1 = None) as Hq by apply new_loc_fresh.
    assert (h1 !! lm = Some (ODict {[ "apify_request_id" := i;
                                      "apify_request_unique_key" := k ]})) as H1lm
      by apply lookup_insert_eq.
    right. right. right. right.
    eapply (finish_scrapy_request_inl _ _ l (new_loc h1) lm d _ (set_meta rq0 (VRef lm)));
      [| | | |exact Hrun]; simpl.
    + apply lookup_alloc_old. by apply lookup_alloc_old.
    + apply lookup_insert_eq.
    + done.
    + by apply lookup_alloc_old.
Qed.


Lemma has_snapshot_cases (σ : state) (l : loc) (d : gmap string pyval) (ud : pyval) :
  heap σ !! l = Some (ODict d) →
  d !! "userData" = Some ud →
  (not_a_container (heap σ) ud
   ∧ ∃ msg, has_snapshot (VRef l) σ = (inl (Exn TypeError msg), σ))
  ∨ (found_but_no_item (heap σ) ud ∧ has_snapshot (VRef l) σ = (inr true, σ))
  ∨ ((∃ x, snapshot_value (heap σ) ud = Some x) ∧ has_snapshot (VRef l) σ = (inr true, σ))
  ∨ (¬ not_a_container (heap σ) ud ∧ ¬ found_but_no_item (heap σ) ud
     ∧ snapshot_value (heap σ) ud = None ∧ has_snapshot (VRef l) σ = (inr false, σ)).
Proof.
  intros Hl Hud. unfold has_snapshot.
  rewrite (bind_inr _ _ _ _ _ (py_contains_run _ _ _ _ Hl)), Hud.
  rewrite bool_decide_eq_true_2 by (by eexists).
  rewrite (bind_inr _ _ _ _ _ (py_getitem_run _ _ _ _ _ Hl Hud)).
  unfold py_contains. rewrite (bind_inr _ _ _ _ _ (get_heap_run _)).
  unfold not_a_container, found_but_no_item, snapshot_value.
  destruct ud as [| | |s|x]; simpl.
  - left. split; [done|]. by eexists.
  - left. split; [done|]. by eexists.
  - left. split; [done|]. by eexists.
  - rewrite ret_run. destruct (is_substring "scrapy_request" s) eqn:Hs.
    + right. left. done.
    + right. right. right. repeat split; try done. by intros [].
  - destruct (heap σ !! x) as [[du|xs|rq|cls]|] eqn:Hx.
    + rewrite ret_run. destruct (du !! "scrapy_request") as [y|] eqn:Hy.
      * right. right. left. split; [by eexists|].
        try rewrite bool_decide_eq_true_2 by (by eexists). done.
      * right. right. right. repeat split; try done; try (by intros []);
          try (by rewrite bool_decide_eq_false_2 by (by intros [? ?])).
    + rewrite ret_run. destruct (decide (VStr "scrapy_request" ∈ xs)) as [Hin|Hin].
      * right. left. split; [done|]. by rewrite bool_decide_eq_true_2.
      * right. right. right. repeat split; try done; try (by intros []);
          try (by rewrite bool_decide_eq_false_2).
    + left. split; [done|]. by eexists.
    + left. split; [done|]. by eexists.
    + left. split; [done|]. by eexists.
Qed.

(** A string or a list has no item under ['scrapy_request']. *)
Lemma restore_found_but_no_item (σ : state) (l : loc) (d : gmap string pyval)
    (ud spider : pyval) (call_id : string) :
  heap σ !! l = Some (ODict d) →
  d !! "userData" = Some ud →
  found_but_no_item (heap σ) ud →
  ∃ msg σ', restore_scrapy_request (VRef l) spider call_id σ
            = (inl (Exn TypeError msg), σ').
Proof.
  intros Hl Hud Hfound. unfold restore_scrapy_request.
  rewrite (bind_inr _ _ _ _ _ (emit_run _ _ _ _)).
  set (σ1 := State (heap σ) _).
  rewrite (bind_inr _ _ _ _ _ (py_getitem_run σ1 _ _ _ _ Hl Hud)).
  assert (∃ msg, py_getitem ud "scrapy_request" σ1 = (inl (Exn TypeError msg), σ1))
    as [msg Hget].
  { unfold found_but_no_item in Hfound. unfold py_getitem.
    rewrite (bind_inr _ _ _ _ _ (get_heap_run _)).
    destruct ud as [| | |s|x]; try done; [by eexists|]. simpl.
    destruct (heap σ !! x) as [[du|xs|rq|cls]|] eqn:Hx; try done. by eexists. }
  exists msg, σ1. by apply bind_inl.
Qed.


Lemma decode_payload_not_dict (σ : state) (s b : string) (dv spider : pyval)
    (h1 : gmap loc pyobj) :
  base64_decode s = inr b →
  pickle_loads b (heap σ) = inr (dv, h1) →
  as_dict h1 dv = None →
  decode_scrapy_request s spider σ
  = (inl (Exn TypeError "scrapy_request_dict must be a dictionary"), State h1 (log σ)).
Proof.
  intros Hdec Hloads Hf. unfold decode_scrapy_request.
  rewrite (bind_inr _ _ _ _ _ (call_ro_run (λ _, base64_decode s) _ b Hdec)).
  rewrite (bind_inr _ _ _ _ _ (call_run (pickle_loads b) σ dv h1 Hloads)).
  rewrite (bind_inr _ _ _ _ _ (get_heap_run _)). simpl. by rewrite Hf.
Qed.

Lemma decode_not_a_Request (σ : state) (s b : string) (dv qv spider : pyval)
    (h1 h2 : gmap loc pyobj) :
  base64_decode s = inr b →
  pickle_loads b (heap σ) = inr (dv, h1) →
  is_Some (as_dict h1 dv) →
  request_from_dict dv spider h1 = inr (qv, h2) →
  as_Request h2 qv = None →
  decode_scrapy_request s spider σ
  = (inl (Exn TypeError "scrapy_request must be an instance of the Request class"),
     State h2 (log σ)).
Proof.
  intros Hdec Hloads [f Hf] Hfrom Hq. unfold decode_scrapy_request.
  rewrite (bind_inr _ _ _ _ _ (call_ro_run (λ _, base64_decode s) _ b Hdec)).
  rewrite (bind_inr _ _ _ _ _ (call_run (pickle_loads b) σ dv h1 Hloads)).
  rewrite (bind_inr _ _ _ _ _ (get_heap_run _)). simpl. rewrite Hf.
  rewrite (bind_inr _ _ _ _ _ (call_run (request_from_dict dv spider) (State h1 (log σ)) _ h2 Hfrom)).
  rewrite (bind_inr _ _ _ _ _ (get_heap_run _)). simpl. by rewrite Hq.
Qed.

(** How decoding ends: a library raises, or the payload or the rebuilt
    object has the wrong shape, or there is a request. *)
Lemma decode_scrapy_request_cases (σ : state) (s : string) (spider : pyval) :
  (∃ e σ', decode_scrapy_request s spider σ = (inl e, σ') ∧ raised_by_library spider e)
  ∨ (∃ msg σ', decode_scrapy_request s spider σ = (inl (Exn TypeError msg), σ')
               ∧ restore_shape_error (heap σ) spider (VStr s))
  ∨ (∃ b dv h1 h2 q rq,
       base64_decode s = inr b ∧ pickle_loads b (heap σ) = inr (dv, h1)
       ∧ is_Some (as_dict h1 dv) ∧ request_from_dict dv spider h1 = inr (VRef q, h2)
       ∧ h2 !! q = Some (ORequest rq)
       ∧ decode_scrapy_request s spider σ = (inr q, State h2 (log σ))).
Proof.
  destruct (base64_decode s) as [e|b] eqn:Hdec.
  { left. exists e, σ. split; [|left; by exists s].
    unfold decode_scrapy_request. apply bind_inl. unfold call_ro. by rewrite Hdec. }
  destruct (pickle_loads b (heap σ)) as [e|[dv h1]] eqn:Hloads.
  { left. exists e, σ. split; [|right; left; by exists b, (heap σ)].
    unfold decode_scrapy_request.
    rewrite (bind_inr _ _ _ _ _ (call_ro_run (λ _, base64_decode s) _ b Hdec)).
    apply bind_inl. unfold call. by rewrite Hloads. }
  destruct (as_dict h1 dv) as [f|] eqn:Hf.
  2: { right. left. do 2 eexists. split; [by eapply decode_payload_not_dict|].
       right. exists s, b, dv, h1. repeat split; try done. by left. }
  destruct (request_from_dict dv spider h1) as [e|[qv h2]] eqn:Hfrom.
  { left. exists e, (State h1 (log σ)). split; [|right; right; left; by exists dv, h1].
    unfold decode_scrapy_request.
    rewrite (bind_inr _ _ _ _ _ (call_ro_run (λ _, base64_decode s) _ b Hdec)).
    rewrite (bind_inr _ _ _ _ _ (call_run (pickle_loads b) σ dv h1 Hloads)).
    rewrite (bind_inr _ _ _ _ _ (get_heap_run _)). simpl. rewrite Hf.
    apply bind_inl. unfold call. simpl. by rewrite Hfrom. }
  destruct (as_Request h2 qv) as [[q rq]|] eqn:Hq.
  - right. right. unfold as_Request in Hq. destruct qv as [| | | |q']; try done.
    destruct (h2 !! q') as [[| |rq'|]|] eqn:Hq'; try done. inversion Hq; subst.
    exists b, dv, h1, h2, q, rq.
    split; [done|]. split; [done|]. split; [by eexists|]. split; [done|]. split; [done|].
    eapply decode_scrapy_request_run; try done; by eexists.
  - right. left. do 2 eexists. split.
    + eapply decode_not_a_Request; try done; by eexists.
    + right. exists s, b, dv, h1. repeat split; try done. right.
      exists qv, h2. repeat split; try done; by eexists.
Qed.

Lemma update_identity_bad_meta (σ : state) (l q : loc) (d : gmap string pyval)
    (i k : pyval) (rq : Request) :
  heap σ !! l = Some (ODict d) →
  d !! "id" = Some i → d !! "uniqueKey" = Some k →
  heap σ !! q = Some (ORequest rq) →
  meta_or_empty (heap σ) rq = None →
  ∃ msg σ', update_identity (VRef l) q σ = (inl (Exn AttributeError msg), σ').
Proof.
  intros Hl Hi Hk Hq Hmeta. unfold meta_or_empty in Hmeta.
  destruct (truthy (heap σ) (_meta rq)) eqn:Ht; [|done].
  assert (_meta rq ≠ VNone) as Hmn by (intros Hm; by rewrite Hm in Ht).
  unfold update_identity.
  assert (meta_or_new q σ = (inr (_meta rq), σ)) as Hrun.
  { unfold meta_or_new.
    rewrite (bind_inr _ _ _ _ _ (Request_meta_run _ _ _ Hq Hmn)).
    rewrite (bind_inr _ _ _ _ _ (get_heap_run _)). by rewrite Ht. }
  rewrite (bind_inr _ _ _ _ _ Hrun).
  rewrite (bind_inr _ _ _ _ _ (py_getitem_run σ _ _ _ _ Hl Hi)).
  rewrite (bind_inr _ _ _ _ _ (py_getitem_run σ _ _ _ _ Hl Hk)).
  assert (∃ msg, dict_update (_meta rq)
                    [("apify_request_id", i); ("apify_request_unique_key", k)] σ
                  = (inl (Exn AttributeError msg), σ)) as [msg Hupd].
  { unfold dict_update. rewrite (bind_inr _ _ _ _ _ (get_heap_run _)).
    destruct (_meta rq) as [| | | |x]; simpl in *; try (by eexists).
    destruct (heap σ !! x) as [[| | |]|]; try done; by eexists. }
  exists msg, σ. by apply bind_inl.
Qed.


Lemma restore_scrapy_request_prefix (σ : state) (l lu : loc) (d du : gmap string pyval)
    (x spider : pyval) (call_id : string) :
  heap σ !! l = Some (ODict d) →
  d !! "userData" = Some (VRef lu) →
  heap σ !! lu = Some (ODict du) →
  du !! "scrapy_request" = Some x →
  restore_scrapy_request (VRef l) spider call_id σ
  = (match x with
     | VStr s =>
         q ← decode_scrapy_request s spider;
         emit DEBUG (Some call_id) (scrapy_request_reconstructed (VRef q));;
         update_identity (VRef l) q;;
         mret q
     | _ => raise TypeError "scrapy_request_dict_encoded must be a string"
     end) (State (heap σ) (log σ ++ [LogRec DEBUG (Some call_id) restoring_the_scrapy_request])).
Proof.
  intros Hl Hud Hlu Hx. unfold restore_scrapy_request.
  rewrite (bind_inr _ _ _ _ _ (emit_run _ _ _ _)).
  set (σ1 := State (heap σ) _).
  rewrite (bind_inr _ _ _ _ _ (py_getitem_run σ1 _ _ _ _ Hl Hud)).
  by rewrite (bind_inr _ _ _ _ _ (py_getitem_run σ1 _ _ _ _ Hlu Hx)).
Qed.

(** The branch that restores a request: a TypeError comes from the shape of
    the snapshot or from a library. *)
Lemma restore_then_finish_inl (σ σ' : state) (l lu : loc) (d du : gmap string pyval)
    (x spider : pyval) (call_id : string) (e : exn) :
  heap σ !! l = Some (ODict d) →
  missing_keys d = [] →
  d !! "userData" = Some (VRef lu) →
  heap σ !! lu = Some (ODict du) →
  du !! "scrapy_request" = Some x →
  (restore_scrapy_request (VRef l) spider call_id
     ≫= λ q, finish_scrapy_request (VRef l) q call_id) σ = (inl e, σ') →
  exn_cls e = TypeError →
  restore_shape_error (heap σ) spider x ∨ raised_by_library spider e.
Proof.
  intros Hl Hnone Hud Hlu Hx Hrun Hcls.
  destruct (proj1 (missing_keys_nil d) Hnone "id") as [i Hi]; [set_solver|].
  destruct (proj1 (missing_keys_nil d) Hnone "uniqueKey") as [k Hk]; [set_solver|].
  set (σ1 := State (heap σ) (log σ ++ [LogRec DEBUG (Some call_id) restoring_the_scrapy_request])).
  pose proof (restore_scrapy_request_prefix σ l lu d du x spider call_id Hl Hud Hlu Hx)
    as Hrestore.
  fold σ1 in Hrestore.
  assert ((∃ s, x = VStr s) ∨ (∀ s, x ≠ VStr s)) as [[s ->]|Hns]
    by (destruct x; (by left; eexists) || by right).
  2: { left. by left. }
  destruct (decode_scrapy_request_cases σ1 s spider)
    as [(e0 & σ0 & Hdec & Hlib)|[(msg & σ0 & Hdec & Hshape)|
        (b & dv & h1 & h2 & q & rq & Hb & Hloads & Hf & Hfrom & Hq & Hdec)]].
  - rewrite (bind_inl _ _ _ _ _ (eq_trans Hrestore (bind_inl _ _ _ _ _ Hdec))) in Hrun.
    inversion Hrun; subst. by right.
  - by left.
  - change (heap σ1) with (heap σ) in *.
    assert (heap σ ⊆ h2) as Hsub2.
    { etrans; [by eapply pickle_loads_frame | by eapply request_from_dict_frame]. }
    assert (h2 !! l = Some (ODict d)) as H2l by (by eapply lookup_weaken).
    assert (q ≠ l) as Hql by congruence.
    set (σ2 := State h2 (log σ1 ++ [LogRec DEBUG (Some call_id)
                                       (scrapy_request_reconstructed (VRef q))])).
    destruct (meta_or_empty h2 rq) as [dm|] eqn:Hmeta.
    + destruct (update_identity_run σ2 l q d dm i k rq H2l Hi Hk Hq Hmeta)
        as (lm & σu & Hupd & Huq & Hulm & _ & Hframe & _).
      assert (restore_scrapy_request (VRef l) spider call_id σ = (inr q, σu)) as Hok.
      { rewrite Hrestore, (bind_inr _ _ _ _ _ Hdec).
        rewrite (bind_inr _ _ _ _ _ (emit_run _ _ _ _)). fold σ2.
        by rewrite (bind_inr _ _ _ _ _ Hupd). }
      rewrite (bind_inr _ _ _ _ _ Hok) in Hrun.
      right. right. right. right. right.
      destruct (decide (l = lm)) as [->|Hllm].
      * by eapply (finish_scrapy_request_inl σu σ' lm q lm).
      * eapply (finish_scrapy_request_inl σu σ' l q lm d); try done.
        by apply Hframe.
    + destruct (update_identity_bad_meta σ2 l q d i k rq H2l Hi Hk Hq Hmeta)
        as (msg & σu & Hupd).
      assert (restore_scrapy_request (VRef l) spider call_id σ
              = (inl (Exn AttributeError msg), σu)) as Hbad.
      { rewrite Hrestore, (bind_inr _ _ _ _ _ Hdec).
        rewrite (bind_inr _ _ _ _ _ (emit_run _ _ _ _)). fold σ2.
        by rewrite (bind_inl _ _ _ _ _ Hupd). }
      rewrite (bind_inl _ _ _ _ _ Hbad) in Hrun. inversion Hrun; subst. done.
Qed.


Lemma as_dict_Some (h : gmap loc pyobj) (v : pyval) (d : gmap string pyval) :
  as_dict h v = Some d → ∃ l, v = VRef l ∧ h !! l = Some (ODict d).
Proof.
  destruct v as [| | | |l]; try done. simpl.
  destruct (h !! l) as [[d'| | |]|] eqn:Hl; try done.
  intros [= ->]. by exists l.
Qed.

Lemma to_scrapy_request_checked (σ : state) (l : loc) (d : gmap string pyval)
    (spider : pyval) (call_id : string) :
  heap σ !! l = Some (ODict d) →
  missing_keys d = [] →
  to_scrapy_request (VRef l) spider call_id σ
  = (snapshot ← has_snapshot (VRef l);
     q ← (if (snapshot : bool)
          then restore_scrapy_request (VRef l) spider call_id
          else create_scrapy_request (VRef l) call_id);
     finish_scrapy_request (VRef l) q call_id)
      (State (heap σ) (log σ ++ [LogRec DEBUG (Some call_id)
                                   (to_scrapy_request_was_called (VRef l))])).
Proof.
  intros Hl Hnone. unfold to_scrapy_request.
  rewrite (bind_inr _ _ _ _ _ (get_heap_run _)). simpl. rewrite Hl.
  rewrite (bind_inr _ _ _ _ _ (check_required_keys_run _ _ Hnone)).
  by rewrite (bind_inr _ _ _ _ _ (emit_run _ _ _ _)).
Qed.

(** The snapshot value has the wrong shape: the branch that restores the
    request raises a TypeError. *)
Lemma restore_shape_error_inl (σ : state) (l lu : loc) (d du : gmap string pyval)
    (x spider : pyval) (call_id : string) :
  heap σ !! l = Some (ODict d) →
  d !! "userData" = Some (VRef lu) →
  heap σ !! lu = Some (ODict du) →
  du !! "scrapy_request" = Some x →
  restore_shape_error (heap σ) spider x →
  ∃ msg σ', restore_scrapy_request (VRef l) spider call_id σ
            = (inl (Exn TypeError msg), σ').
Proof.
  intros Hl Hud Hlu Hx Hshape.
  rewrite (restore_scrapy_request_prefix σ l lu d du x spider call_id Hl Hud Hlu Hx).
  set (σ1 := State (heap σ) _).
  destruct Hshape as [Hns|(s & b & dv & h1 & -> & Hb & Hloads & Hcase)].
  - destruct x as [| | |s|]; try (by do 2 eexists). by destruct (Hns s).
  - destruct Hcase as [Hf|(qv & h2 & Hf & Hfrom & Hq)].
    + do 2 eexists. apply bind_inl. by eapply (decode_payload_not_dict σ1).
    + do 2 eexists. apply bind_inl. by eapply (decode_not_a_Request σ1).
Qed.


Lemma snapshot_value_Some (h : gmap loc pyobj) (ud x : pyval) :
  snapshot_value h ud = Some x →
  ∃ lu du, ud = VRef lu ∧ h !! lu = Some (ODict du) ∧ du !! "scrapy_request" = Some x.
Proof.
  unfold snapshot_value. destruct (as_dict h ud) as [du|] eqn:Hud; [|done].
  intros Hx. destruct (as_dict_Some h ud du Hud) as (lu & -> & Hlu). by exists lu, du.
Qed.

End runs.

(** The miniature framework keeps the laws of the interface. *)

Lemma mini_thread_frame {A B : Type}
    (f : A → gmap loc pyobj → option (B * gmap loc pyobj)) :
  (∀ a h b h', f a h = Some (b, h') → h ⊆ h') →
  ∀ xs h bs h', Mini.thread f xs h = Some (bs, h') → h ⊆ h'.
Proof.
  intros Hf xs. induction xs as [|x xs IH]; intros h bs h' Hrun; simpl in Hrun.
  - by inversion Hrun.
  - destruct (f x h) as [[b h1]|] eqn:Hx; [|done]. simpl in Hrun.
    destruct (Mini.thread f xs h1) as [[bs' h2]|] eqn:Hxs; [|done]. simpl in Hrun.
    inversion Hrun; subst. etrans; [by eapply Hf | by eapply IH].
Qed.

Lemma mini_thaw_frame (fuel : nat) :
  ∀ x h v h', Mini.thaw fuel x h = Some (v, h') → h ⊆ h'.
Proof.
  induction fuel as [|n IH]; intros x h v h' Hrun; [done|].
  simpl in Hrun. destruct x as [[z|s|s]|[|[[z|s|s]|ys] xs]]; try done.
  - by inversion Hrun.
  - by inversion Hrun.
  - repeat case_decide; by inversion Hrun.
  - repeat case_decide; try done.
    + destruct (Mini.thread (Mini.thaw n) xs h) as [[vs h1]|] eqn:Hxs; [|done].
      simpl in Hrun. inversion Hrun; subst.
      etrans; [by eapply mini_thread_frame | apply alloc_subseteq].
    + match type of Hrun with
      | context [Mini.thread ?f xs h] => destruct (Mini.thread f xs h) as [[kvs h1]|] eqn:Hxs
      end; [|done].
      simpl in Hrun. inversion Hrun; subst.
      etrans; [|apply alloc_subseteq].
      eapply mini_thread_frame; [|exact Hxs].
      intros e h0 [k w] h2 He.
      destruct e as [a|[|[[z|k'|s']|?] [|y [|? ?]]]]; try done.
      destruct (Mini.thaw n y h0) as [[w' h3]|] eqn:Hy; [|done].
      simpl in He. inversion He; subst. by eapply IH.
Qed.

#[global, refine] Instance mini_framework : Framework :=
  Build_Framework Mini.init Mini.to_dict Mini.from_dict Mini.headers_of_dict Mini.unicode_dict
    Mini.dumps Mini.loads Mini.hex_encode Mini.hex_decode_exn _ _ _.
Proof.
  - intros spider l h v h' Hrun. unfold Mini.to_dict in Hrun.
    destruct (h !! l) as [[| |rq|]|]; try done.
    destruct (headers rq) as [hs|w].
    + inversion Hrun; subst.
      etrans; [apply alloc_subseteq | apply alloc_subseteq].
    + destruct (as_dict h w); [|done]. inversion Hrun; subst. apply alloc_subseteq.
  - intros d spider h v h' Hrun. unfold Mini.from_dict in Hrun.
    destruct (as_dict h d) as [f|]; [|done].
    destruct (f !! "url"); [|done]. inversion Hrun; subst. apply alloc_subseteq.
  - intros b h v h' Hrun. unfold Mini.loads in Hrun.
    destruct (CeresParser.parse_sexp b) as [|x]; [done|].
    destruct (Mini.thaw _ x h) as [[v' h'']|] eqn:Hx; [|done].
    inversion Hrun; subst. by eapply mini_thaw_frame.
Defined.


(** Equality of values, and the heaps it is read in. *)




(** The second framework keeps the laws of the interface, and restores
    what it exports. *)



Lemma model_value_of_atom (v : pyval) (a : Model.atom) :
  Model.atom_of v = Some a → Model.value_of_atom a = v.
Proof. destruct v; intros [= <-]; done. Qed.

Lemma model_thaw_frame :
  ∀ t h v h', Model.thaw t h = Some (v, h') → h ⊆ h'.
Proof.
  fix IH 1. intros [a|n ts] h v h' Hrun; simpl in Hrun.
  - by inversion Hrun.
  - destruct n as [|[|n]]; [| |done].
    + destruct (Mini.thread _ ts h) as [[kvs h1]|] eqn:Hts; [|done].
      simpl in Hrun. inversion Hrun; subst. etrans; [|apply alloc_subseteq].
      clear Hrun. revert h kvs h1 Hts.
      induction ts as [|e ts IHts]; intros h kvs h1 Hts; simpl in Hts.
      * by inversion Hts.
      * destruct (Model.thaw_entry Model.thaw e h) as [[kv ha]|] eqn:He; [|done].
        simpl in Hts.
        destruct (Mini.thread _ ts ha) as [[kvs' hb]|] eqn:Hrest; [|done].
        simpl in Hts. inversion Hts; subst.
        etrans; [|by eapply IHts].
        destruct e as [|[|[|[|]]] [|[[[[[]|]|]|key]|] [|y [|]]]]; try done.
        simpl in He. destruct (Model.thaw y h) as [[w hc]|] eqn:Hy; [|done].
        simpl in He. inversion He; subst. by eapply IH.
    + destruct (Mini.thread _ ts h) as [[vs h1]|] eqn:Hts; [|done].
      simpl in Hrun. inversion Hrun; subst. etrans; [|apply alloc_subseteq].
      clear Hrun. revert h vs h1 Hts.
      induction ts as [|e ts IHts]; intros h vs h1 Hts; simpl in Hts.
      * by inversion Hts.
      * destruct (Model.thaw e h) as [[w ha]|] eqn:He; [|done].
        simpl in Hts.
        destruct (Mini.thread _ ts ha) as [[vs' hb]|] eqn:Hrest; [|done].
        simpl in Hts. inversion Hts; subst.
        etrans; [by eapply IH | by eapply IHts].
Qed.




Lemma model_loads_frame (b : string) (h : gmap loc pyobj) (v : pyval) (h' : gmap loc pyobj) :
  Model.loads b h = inr (v, h') → h ⊆ h'.
Proof.
  unfold Model.loads. intros Hrun.
  destruct (Model.unpickled b) as [t|]; [|done].
  destruct (Model.thaw t h) as [[v' h'']|] eqn:Ht; [|done].
  inversion Hrun; subst. by eapply model_thaw_frame.
Qed.

Lemma model_meta_copy_frame (h : gmap loc pyobj) (mv v : pyval) (h' : gmap loc pyobj) :
  Model.meta_copy h mv = inr (v, h') → h ⊆ h'.
Proof.
  unfold Model.meta_copy. intros Hrun. destruct (truthy h mv).
  - destruct (as_dict h mv); [|done]. inversion Hrun; subst. apply alloc_subseteq.
  - by inversion Hrun; subst.
Qed.

Lemma model_from_dict_frame (d spider : pyval) (h : gmap loc pyobj) (v : pyval)
    (h' : gmap loc pyobj) :
  Model.from_dict d spider h = inr (v, h') → h ⊆ h'.
Proof.
  unfold Model.from_dict. intros Hrun.
  destruct (as_dict h d) as [f|]; [|done].
  destruct (f !! "url") as [u|]; [|done].
  destruct (Model.init _ _) as [|rq0]; [done|].
  destruct (Model.meta_copy h _) as [|[mv h1]] eqn:Hcopy; [done|].
  inversion Hrun; subst.
  etrans; [by eapply model_meta_copy_frame | apply alloc_subseteq].
Qed.

Definition model_framework : Framework :=
  Build_Framework Model.init Mini.to_dict Model.from_dict Mini.headers_of_dict
    Mini.unicode_dict Model.dumps Model.loads Mini.hex_encode Mini.hex_decode_exn
    (@Request_to_dict_frame mini_framework) model_from_dict_frame model_loads_frame.






(** ** Example requests and records, on the miniature frameworks *)

Local Open Scope positive_scope.

(** What a run left behind, read back for the statements below. *)
Definition dict_at (h : gmap loc pyobj) (l : loc) : gmap string pyval :=
  default ∅ (as_dict h (VRef l)).

Definition request_at (h : gmap loc pyobj) (l : loc) : Request :=
  match h !! l with
  | Some (ORequest rq) => rq
  | _ => mkRequest VNone VNone (IsHeaders ∅) VNone ∅
  end.

Definition value_of {A : Type} (r : exn + A) (dflt : A) : A :=
  match r with inr a => a | inl _ => dflt end.

(** A request the spider got from a crawled page: it has been queued
    before, and carries a [userData] dict of the user. *)
Definition crawled_request : Request :=
  mkRequest (VStr "http://x") (VStr "GET") (IsHeaders {[ "Accept" := ["text/html"] ]})
    (VRef 2) {[ "priority" := VInt 3 ]}.

Definition crawled_meta : gmap string pyval :=
  {[ "apify_request_id" := VStr "old"; "apify_request_unique_key" := VStr "k0";
     "userData" := VRef 3 ]}.

Definition crawled_userData : gmap string pyval := {[ "label" := VStr "start" ]}.

Definition crawled : state :=
  State {[ 1 := ORequest crawled_request; 2 := ODict crawled_meta;
           3 := ODict crawled_userData ]} [].


(** A request with an empty [apify_request_id], and a plain dict assigned
    to its [headers]. *)
Definition blank_request : Request :=
  mkRequest (VStr "http://x") (VStr "GET") (NotHeaders (VRef 3)) (VRef 2) ∅.

Definition blank_meta : gmap string pyval :=
  {[ "apify_request_id" := VStr ""; "apify_request_unique_key" := VStr "k0" ]}.

Definition blank : state :=
  State {[ 1 := ORequest blank_request; 2 := ODict blank_meta;
           3 := ODict {[ "Accept" := VStr "text/html" ]} ]} [].

(** Records of the queue. *)
Definition seed_record : gmap string pyval :=
  {[ "url" := VStr "http://x"; "method" := VStr "GET"; "id" := VStr "1";
     "uniqueKey" := VStr "k1" ]}.

Definition seed : state := State {[ 1 := ODict seed_record ]} [].

Definition incomplete_record : gmap string pyval :=
  {[ "url" := VStr "http://x"; "method" := VStr "GET" ]}.

Definition incomplete : state := State {[ 1 := ODict incomplete_record ]} [].

Definition unchecked_record : gmap string pyval :=
  {[ "url" := VStr "http://x"; "method" := VStr "GET"; "id" := VNone;
     "uniqueKey" := VInt 0 ]}.

Definition unchecked : state := State {[ 1 := ODict unchecked_record ]} [].

Definition userData_None_record : gmap string pyval :=
  {[ "url" := VStr "http://x"; "method" := VStr "GET"; "id" := VStr "1";
     "uniqueKey" := VStr "k1"; "userData" := VNone ]}.

Definition userData_None : state := State {[ 1 := ODict userData_None_record ]} [].

Definition numbered_record : gmap string pyval :=
  {[ "url" := VStr "http://x"; "method" := VStr "GET"; "id" := VStr "1";
     "uniqueKey" := VStr "k1"; "userData" := VRef 2 ]}.

(** A snapshot that is a number. *)
Definition numbered : state :=
  State {[ 1 := ODict numbered_record; 2 := ODict {[ "scrapy_request" := VInt 5 ]} ]} [].

Definition numbered_incomplete : state :=
  State {[ 1 := ODict {[ "url" := VStr "http://x"; "method" := VStr "GET";
                         "userData" := VRef 2 ]};
           2 := ODict {[ "scrapy_request" := VInt 5 ]} ]} [].

(** The runs on [crawled] and [blank], step by step. *)
Definition entered (σ : state) (call_id : string) : state :=
  State (heap σ) (log σ ++ [LogRec DEBUG (Some call_id) (to_apify_request_was_called (VRef 1))]).

Definition crawled_encoded : (exn + string) * state := Eval vm_compute in
  encode_scrapy_request VNone 1 (apify_request_fields 1 (entered crawled "c0ffee01")).2.

Definition crawled_snapshot : string := Eval vm_compute in value_of crawled_encoded.1 "".

Definition pushed : state := Eval vm_compute in
  (to_apify_request (VRef 1) VNone "c0ffee01" crawled).2.

(** The queue gives the record a new [id]. *)
Definition queued : state := Eval vm_compute in
  (py_setitem (VRef 5) "id" (VStr "new") pushed).2.

Definition crawled_pickle : string := Eval vm_compute in
  value_of (base64_decode crawled_snapshot) "".

Definition pushed_loaded : pyval * gmap loc pyobj := Eval vm_compute in
  value_of (pickle_loads crawled_pickle (heap pushed)) (VNone, ∅).

Definition pushed_rebuilt : pyval * gmap loc pyobj := Eval vm_compute in
  value_of (request_from_dict pushed_loaded.1 VNone pushed_loaded.2) (VNone, ∅).

Definition queued_loaded : pyval * gmap loc pyobj := Eval vm_compute in
  value_of (pickle_loads crawled_pickle (heap queued)) (VNone, ∅).

Definition queued_rebuilt : pyval * gmap loc pyobj := Eval vm_compute in
  value_of (request_from_dict queued_loaded.1 VNone queued_loaded.2) (VNone, ∅).

Definition blank_encoded : (exn + string) * state := Eval vm_compute in
  encode_scrapy_request VNone 1 (apify_request_fields 1 (entered blank "c0ffee01")).2.

Definition blank_snapshot : string := Eval vm_compute in value_of blank_encoded.1 "".

Definition blank_pushed : state := Eval vm_compute in
  (to_apify_request (VRef 1) VNone "c0ffee01" blank).2.

Definition blank_exported : pyval * gmap loc pyobj := Eval vm_compute in
  value_of (Request_to_dict VNone 1 (heap (apify_request_fields 1 (entered blank "c0ffee01")).2))
           (VNone, ∅).

Definition blank_pickled : string := Eval vm_compute in
  value_of (pickle_dumps blank_exported.1 blank_exported.2) "".






(** Requests that have been queued, each with one thing about it that the
    round trip does not keep, or does not take. *)
Definition queued_meta : gmap string pyval :=
  {[ "apify_request_id" := VStr "old"; "apify_request_unique_key" := VStr "k0" ]}.








(** A request whose [headers] is a number. *)
Definition five : state :=
  State {[ 1 := ORequest (mkRequest (VStr "http://x") (VStr "GET") (NotHeaders (VInt 5))
                            (VRef 2) ∅);
           2 := ODict queued_meta ]} [].

(** [blank], with a string for [userData]. *)
Definition blank_labelled : state :=
  State {[ 1 := ORequest blank_request; 2 := ODict (<["userData" := VStr "start"]> blank_meta);
           3 := ODict {[ "Accept" := VStr "text/html" ]} ]} [].

(** A seed whose method is in lower case, with a [userData] of its own. *)
Definition lower_seed_record : gmap string pyval :=
  {[ "url" := VStr "http://x"; "method" := VStr "get"; "id" := VStr "1";
     "uniqueKey" := VStr "k1"; "userData" := VRef 2 ]}.

Definition lower_seed : state :=
  State {[ 1 := ODict lower_seed_record; 2 := ODict {[ "label" := VStr "start" ]} ]} [].

(** A seed with no scheme in its [url]. *)
Definition no_scheme_record : gmap string pyval :=
  {[ "url" := VStr "x"; "method" := VStr "GET"; "id" := VStr "1"; "uniqueKey" := VStr "k1" ]}.

Definition no_scheme : state := State {[ 1 := ODict no_scheme_record ]} [].



Definition back (σ : state) : (exn + pyval) * state :=
  @to_scrapy_request model_framework (VRef 1) VNone "c0ffee02" σ.


Section claims.
Context `{!Framework}.

(** C3: a dict that lacks one of [url], [method], [id], [uniqueKey] makes
    [to_scrapy_request] raise a ValueError; its message quotes a required key
    exactly when that key is missing; with only [id] and [uniqueKey] missing
    the message names these two. *)
Theorem to_scrapy_request_missing_keys (σ : state) (l : loc)
    (d : gmap string pyval) (spider : pyval) (call_id : string) :
  heap σ !! l = Some (ODict d) →
  (∃ key, key ∈ required_keys ∧ d !! key = None) →
  to_scrapy_request (VRef l) spider call_id σ
    = (inl (Exn ValueError (missing_keys_message (missing_keys d))), σ)
  ∧ (∀ key, key ∈ required_keys →
       is_substring (repr_str key) (missing_keys_message (missing_keys d)) = true
       ↔ d !! key = None)
  ∧ (is_Some (d !! "url") → is_Some (d !! "method") →
     d !! "id" = None → d !! "uniqueKey" = None →
     missing_keys_message (missing_keys d)
       = "apify_request must contain 'id', 'uniqueKey' key(s)").
Proof.
  intros Hl (key0 & Hkey0 & Hnone0). split; [|split].
  - unfold to_scrapy_request, check_required_keys, mbind, M_bind, get_heap. simpl.
    rewrite Hl.
    destruct (missing_keys d) as [|key1 rest] eqn:Hmiss; [|done].
    destruct (proj1 (missing_keys_nil d) Hmiss key0 Hkey0). congruence.
  - intros key Hkey. unfold missing_keys, required_keys in *.
    rewrite !filter_cons, filter_nil.
    repeat (apply elem_of_cons in Hkey as [->|Hkey]); [| | | |by apply not_elem_of_nil in Hkey];
      destruct (d !! "url"), (d !! "method"), (d !! "id"), (d !! "uniqueKey");
      repeat case_decide; try congruence; vm_compute; split; congruence.
  - intros [u Hu] [m Hm] Hi Hk. unfold missing_keys, required_keys.
    rewrite !filter_cons, filter_nil, Hu, Hm, Hi, Hk.
    repeat case_decide; try congruence. reflexivity.
Qed.


(** C4: when the record carries a snapshot that decodes and reconstructs,
    the meta of the returned request holds the [id] and [uniqueKey] of the
    record under [apify_request_id] and [apify_request_unique_key], whatever
    the meta [dm] of the snapshot held. *)
Theorem to_scrapy_request_identity_overwrite (σ : state) (l lu q : loc)
    (d du dm : gmap string pyval) (i k dv spider : pyval) (s b call_id : string)
    (h1 h2 : gmap loc pyobj) (rq : Request) (hnew : headers_attr) :
  heap σ !! l = Some (ODict d) →
  is_Some (d !! "url") → is_Some (d !! "method") →
  d !! "id" = Some i → d !! "uniqueKey" = Some k →
  d !! "userData" = Some (VRef lu) →
  heap σ !! lu = Some (ODict du) →
  du !! "scrapy_request" = Some (VStr s) →
  base64_decode s = inr b →
  pickle_loads b (heap σ) = inr (dv, h1) →
  is_Some (as_dict h1 dv) →
  request_from_dict dv spider h1 = inr (VRef q, h2) →
  h2 !! q = Some (ORequest rq) →
  meta_or_empty h2 rq = Some dm →
  (∀ lm, _meta rq = VRef lm → heap σ !! lm = None) →
  (∀ hv, d !! "headers" = Some hv → live (heap σ) hv) →
  headers_after (heap σ) d (headers rq) = Some hnew →
  ∃ lm σ' rq' dm',
    to_scrapy_request (VRef l) spider call_id σ = (inr (VRef q), σ')
    ∧ heap σ' !! q = Some (ORequest rq')
    ∧ _meta rq' = VRef lm
    ∧ heap σ' !! lm = Some (ODict dm')
    ∧ dm' !! "apify_request_id" = Some i
    ∧ dm' !! "apify_request_unique_key" = Some k.
Proof.
  intros Hl Hu Hm Hi Hk Hud Hlu Hs Hdec Hloads Hf Hfrom Hq Hmeta Hfresh Hlive Hhead.
  destruct (to_scrapy_request_restore_run σ l lu q d du dm i k dv spider s b call_id
              h1 h2 rq hnew) as (lm & σ' & Hrun & H'q & H'lm & _); try done.
  exists lm, σ', (set_headers (set_meta rq (VRef lm)) hnew), (meta_after d dm i k).
  repeat split; try done; unfold meta_after; rewrite Hud; by simplify_map_eq.
Qed.

(** C9: a record that has the four keys passes the check on the keys
    whatever their values are, [None] included; and in both branches the
    values of [id] and [uniqueKey] go unchanged into the meta of the
    returned request. *)
Theorem to_scrapy_request_presence_only (σ : state) (l : loc) (d : gmap string pyval)
    (u m i k spider : pyval) (call_id : string) :
  heap σ !! l = Some (ODict d) →
  d !! "url" = Some u → d !! "method" = Some m →
  d !! "id" = Some i → d !! "uniqueKey" = Some k →
  check_required_keys d σ = (inr tt, σ)
  ∧ (∀ rq0 hnew,
       no_snapshot (heap σ) d →
       Request_init u m = inr rq0 →
       (∀ hv, d !! "headers" = Some hv → live (heap σ) hv) →
       headers_after (heap σ) d (headers rq0) = Some hnew →
       ∃ q lm σ' rq' dm',
         to_scrapy_request (VRef l) spider call_id σ = (inr (VRef q), σ')
         ∧ heap σ' !! q = Some (ORequest rq') ∧ _meta rq' = VRef lm
         ∧ heap σ' !! lm = Some (ODict dm')
         ∧ dm' !! "apify_request_id" = Some i
         ∧ dm' !! "apify_request_unique_key" = Some k)
  ∧ (∀ lu q du dm dv s b h1 h2 rq hnew,
       d !! "userData" = Some (VRef lu) →
       heap σ !! lu = Some (ODict du) →
       du !! "scrapy_request" = Some (VStr s) →
       base64_decode s = inr b →
       pickle_loads b (heap σ) = inr (dv, h1) →
       is_Some (as_dict h1 dv) →
       request_from_dict dv spider h1 = inr (VRef q, h2) →
       h2 !! q = Some (ORequest rq) →
       meta_or_empty h2 rq = Some dm →
       (∀ lm, _meta rq = VRef lm → heap σ !! lm = None) →
       (∀ hv, d !! "headers" = Some hv → live (heap σ) hv) →
       headers_after (heap σ) d (headers rq) = Some hnew →
       ∃ lm σ' rq' dm',
         to_scrapy_request (VRef l) spider call_id σ = (inr (VRef q), σ')
         ∧ heap σ' !! q = Some (ORequest rq') ∧ _meta rq' = VRef lm
         ∧ heap σ' !! lm = Some (ODict dm')
         ∧ dm' !! "apify_request_id" = Some i
         ∧ dm' !! "apify_request_unique_key" = Some k).
Proof.
  intros Hl Hu Hm Hi Hk.
  split; [|split].
  - apply check_required_keys_run, missing_keys_present; by eexists.
  - intros rq0 hnew Hsnap Hinit Hlive Hhead.
    destruct (to_scrapy_request_create_run σ l d u m i k spider call_id rq0 hnew)
      as (q & lm & σ' & Hrun & Hq & Hlm & H'q & H'lm & _); try done.
    exists q, lm, σ', (set_headers (set_meta rq0 (VRef lm)) hnew), (meta_after d ∅ i k).
    repeat split; try done; unfold meta_after, insert_opt;
      destruct (d !! "userData"); by simplify_map_eq.
  - intros lu q du dm dv s b h1 h2 rq hnew Hud Hlu Hs Hdec Hloads Hf Hfrom Hq Hmeta
      Hfresh Hlive Hhead.
    destruct (to_scrapy_request_restore_run σ l lu q d du dm i k dv spider s b call_id
                h1 h2 rq hnew) as (lm & σ' & Hrun & H'q & H'lm & _); try done; try by eexists.
    exists lm, σ', (set_headers (set_meta rq (VRef lm)) hnew), (meta_after d dm i k).
    repeat split; try done; unfold meta_after; rewrite Hud; by simplify_map_eq.
Qed.

(** C10: in the snapshot branch the meta of the returned request holds,
    under [userData], the very [userData] dict of the record, and that dict
    still has the snapshot string under [scrapy_request]. *)
Theorem to_scrapy_request_keeps_snapshot (σ : state) (l lu q : loc)
    (d du dm : gmap string pyval) (i k dv spider : pyval) (s b call_id : string)
    (h1 h2 : gmap loc pyobj) (rq : Request) (hnew : headers_attr) :
  heap σ !! l = Some (ODict d) →
  is_Some (d !! "url") → is_Some (d !! "method") →
  d !! "id" = Some i → d !! "uniqueKey" = Some k →
  d !! "userData" = Some (VRef lu) →
  heap σ !! lu = Some (ODict du) →
  du !! "scrapy_request" = Some (VStr s) →
  base64_decode s = inr b →
  pickle_loads b (heap σ) = inr (dv, h1) →
  is_Some (as_dict h1 dv) →
  request_from_dict dv spider h1 = inr (VRef q, h2) →
  h2 !! q = Some (ORequest rq) →
  meta_or_empty h2 rq = Some dm →
  (∀ lm, _meta rq = VRef lm → heap σ !! lm = None) →
  (∀ hv, d !! "headers" = Some hv → live (heap σ) hv) →
  headers_after (heap σ) d (headers rq) = Some hnew →
  ∃ lm σ' rq' dm' du',
    to_scrapy_request (VRef l) spider call_id σ = (inr (VRef q), σ')
    ∧ heap σ' !! q = Some (ORequest rq')
    ∧ _meta rq' = VRef lm
    ∧ heap σ' !! lm = Some (ODict dm')
    ∧ dm' !! "userData" = Some (VRef lu)
    ∧ heap σ' !! lu = Some (ODict du')
    ∧ du' !! "scrapy_request" = Some (VStr s)
    ∧ du' = du.
Proof.
  intros Hl Hu Hm Hi Hk Hud Hlu Hs Hdec Hloads Hf Hfrom Hq Hmeta Hfresh Hlive Hhead.
  destruct (to_scrapy_request_restore_run σ l lu q d du dm i k dv spider s b call_id
              h1 h2 rq hnew) as (lm & σ' & Hrun & H'q & H'lm & _ & Hkept & _); try done.
  exists lm, σ', (set_headers (set_meta rq (VRef lm)) hnew), (meta_after d dm i k), du.
  repeat split; try done.
  - unfold meta_after. rewrite Hud. by simplify_map_eq.
  - by apply Hkept.
Qed.

(** C7, as the code has it: an [apify_request_id] of the meta goes under
    [id] when it is truthy, and the record has no [id] when the meta has no
    such entry or a falsy one; the same for [apify_request_unique_key] and
    [uniqueKey]. *)
Theorem to_apify_request_identity (σ : state) (l : loc) (rq : Request)
    (dm : gmap string pyval) (spider : pyval) (call_id enc : string) (σ2 : state) :
  heap σ !! l = Some (ORequest rq) →
  meta_dict (heap σ) rq = Some dm →
  (∀ v, dm !! "apify_request_id" = Some v → live (heap σ) v) →
  (∀ v, dm !! "apify_request_unique_key" = Some v → live (heap σ) v) →
  (∀ v, dm !! "userData" = Some v → is_Some (as_dict (heap σ) v)) →
  encode_scrapy_request spider l
    (apify_request_fields l
       (State (heap σ) (log σ ++ [LogRec DEBUG (Some call_id)
                                    (to_apify_request_was_called (VRef l))]))).2
    = (inr enc, σ2) →
  ∃ r rec σ',
    to_apify_request (VRef l) spider call_id σ = (inr (VRef r), σ')
    ∧ heap σ' !! r = Some (ODict rec)
    ∧ (∀ v, dm !! "apify_request_id" = Some v → truthy (heap σ) v = true →
         rec !! "id" = Some v)
    ∧ ((∀ v, dm !! "apify_request_id" = Some v → truthy (heap σ) v = false) →
         rec !! "id" = None)
    ∧ (∀ v, dm !! "apify_request_unique_key" = Some v → truthy (heap σ) v = true →
         rec !! "uniqueKey" = Some v)
    ∧ ((∀ v, dm !! "apify_request_unique_key" = Some v → truthy (heap σ) v = false) →
         rec !! "uniqueKey" = None).
Proof.
  intros Hl Hmeta Hlive1 Hlive2 Hud Henc.
  destruct (to_apify_request_run σ l rq dm spider call_id enc σ2 Hl Hmeta Hlive1 Hlive2 Hud Henc)
    as (r & lu & du & hd & σ' & Hrun & Hr & H'r & _).
  destruct (record_fields_lookup rq (VRef lu) hd
              (copied (heap σ) dm "apify_request_id")
              (copied (heap σ) dm "apify_request_unique_key"))
    as (_ & _ & _ & _ & Hfi & Hfk).
  eexists r, _, σ'. split; [done|]. split; [exact H'r|].
  rewrite Hfi, Hfk. unfold copied.
  split; [|split; [|split]].
  - intros v Hv Ht. by rewrite Hv, Ht.
  - intros Hfalsy. destruct (dm !! "apify_request_id") as [v|]; [|done].
    by rewrite (Hfalsy v eq_refl).
  - intros v Hv Ht. by rewrite Hv, Ht.
  - intros Hfalsy. destruct (dm !! "apify_request_unique_key") as [v|]; [|done].
    by rewrite (Hfalsy v eq_refl).
Qed.

(** C8, as the code has it: [to_scrapy_request] raises a TypeError on the
    inputs of [shape_error] (not a dict; or a dict with the four keys whose
    [userData] has no membership test, or is a string or list holding
    ['scrapy_request'], or holds a snapshot that is not a string, does not
    decode to a dict or does not rebuild into a request), and on no other
    input unless a library call raises one; a dict that lacks a required key
    gets the ValueError whatever its [userData]; [to_apify_request] raises a
    TypeError when its input is not a request. *)
Theorem to_scrapy_request_TypeError (σ : state) (v spider : pyval) (call_id : string) :
  (shape_error (heap σ) spider v →
     ∃ msg σ', to_scrapy_request v spider call_id σ = (inl (Exn TypeError msg), σ'))
  ∧ (∀ e σ', to_scrapy_request v spider call_id σ = (inl e, σ') →
       exn_cls e = TypeError →
       shape_error (heap σ) spider v ∨ raised_by_library spider e)
  ∧ (∀ d, as_dict (heap σ) v = Some d → missing_keys d ≠ [] →
       to_scrapy_request v spider call_id σ
       = (inl (Exn ValueError (missing_keys_message (missing_keys d))), σ))
  ∧ (as_Request (heap σ) v = None →
       to_apify_request v spider call_id σ
       = (inl (Exn TypeError "scrapy_request must be an instance of the scrapy.Request class"),
          σ)).
Proof.
  split; [|split; [|split]].
  - (* the shapes raise *)
    intros [Hnd|(d & ud & Hd & Hnone & Hud & Hcase)].
    { exists "apify_request must be a dictionary", σ. unfold to_scrapy_request.
      rewrite (bind_inr _ _ _ _ _ (get_heap_run _)). by rewrite Hnd. }
    destruct (as_dict_Some _ _ _ Hd) as (l & -> & Hl).
    rewrite (to_scrapy_request_checked σ l d spider call_id Hl Hnone).
    set (σ0 := State (heap σ) _).
    destruct (has_snapshot_cases σ0 l d ud Hl Hud)
      as [(Hnc & msg & Hsnap)|[(Hfound & Hsnap)|[([x Hx] & Hsnap)|(Hc & Hnf & Hnx & Hsnap)]]];
      change (heap σ0) with (heap σ) in *.
    + exists msg, σ0. by apply bind_inl.
    + destruct (restore_found_but_no_item σ0 l d ud spider call_id Hl Hud Hfound)
        as (msg & σ' & Hrestore).
      exists msg, σ'. rewrite (bind_inr _ _ _ _ _ Hsnap). by apply bind_inl.
    + destruct Hcase as [Hnc|[Hfound|(x' & Hx' & Hshape)]].
      * destruct (snapshot_value_Some _ _ _ Hx) as (lu & du & -> & Hlu & _).
        unfold not_a_container in Hnc. by rewrite Hlu in Hnc.
      * destruct (snapshot_value_Some _ _ _ Hx) as (lu & du & -> & Hlu & _).
        unfold found_but_no_item in Hfound. by rewrite Hlu in Hfound.
      * destruct (snapshot_value_Some _ _ _ Hx') as (lu & du & -> & Hlu & Hdu).
        destruct (restore_shape_error_inl σ0 l lu d du x' spider call_id Hl Hud Hlu Hdu Hshape)
          as (msg & σ' & Hrestore).
        exists msg, σ'. rewrite (bind_inr _ _ _ _ _ Hsnap). by apply bind_inl.
    + destruct Hcase as [Hnc|[Hfound|(x' & Hx' & _)]]; [done|done|congruence].
  - (* nothing else does, but for the libraries *)
    intros e σ' Hrun Hcls.
    destruct (as_dict (heap σ) v) as [d|] eqn:Hd; [|by left; left].
    destruct (as_dict_Some _ _ _ Hd) as (l & -> & Hl).
    destruct (missing_keys d) as [|key rest] eqn:Hnone.
    2: { unfold to_scrapy_request in Hrun.
         rewrite (bind_inr _ _ _ _ _ (get_heap_run _)) in Hrun. simpl in Hrun.
         rewrite Hl in Hrun. unfold check_required_keys in Hrun. rewrite Hnone in Hrun.
         erewrite bind_inl in Hrun by reflexivity. inversion Hrun; subst. done. }
    rewrite (to_scrapy_request_checked σ l d spider call_id Hl Hnone) in Hrun.
    set (σ0 := State (heap σ) _) in *.
    destruct (d !! "userData") as [ud|] eqn:Hud.
    2: { right. rewrite (bind_inr _ _ _ _ _ (has_snapshot_absent σ0 l d Hl Hud)) in Hrun.
         by eapply (create_then_finish_inl σ0 σ' l d). }
    destruct (has_snapshot_cases σ0 l d ud Hl Hud)
      as [(Hnc & msg & Hsnap)|[(Hfound & Hsnap)|[([x Hx] & Hsnap)|(Hc & Hnf & Hnx & Hsnap)]]];
      change (heap σ0) with (heap σ) in *.
    + left. right. exists d, ud. repeat split; try done. by left.
    + left. right. exists d, ud. repeat split; try done. right. by left.
    + rewrite (bind_inr _ _ _ _ _ Hsnap) in Hrun.
      destruct (snapshot_value_Some _ _ _ Hx) as (lu & du & -> & Hlu & Hdu).
      destruct (restore_then_finish_inl σ0 σ' l lu d du x spider call_id e
                  Hl Hnone Hud Hlu Hdu Hrun Hcls) as [Hshape|Hlib]; [|by right].
      left. right. exists d, (VRef lu). repeat split; try done. right. right. by exists x.
    + right. rewrite (bind_inr _ _ _ _ _ Hsnap) in Hrun.
      by eapply (create_then_finish_inl σ0 σ' l d).
  - (* a missing key comes first *)
    intros d Hd Hmiss. destruct (as_dict_Some _ _ _ Hd) as (l & -> & Hl).
    unfold to_scrapy_request.
    rewrite (bind_inr _ _ _ _ _ (get_heap_run _)). simpl. rewrite Hl.
    apply bind_inl. unfold check_required_keys. by destruct (missing_keys d).
  - intros Hnr. unfold to_apify_request.
    rewrite (bind_inr _ _ _ _ _ (get_heap_run _)). by rewrite Hnr.
Qed.

(** C2: [to_apify_request] does change its input: when the meta of the
    request has a [userData] dict, the snapshot is written into that very
    dict, which the request still holds after the call. *)
Theorem to_apify_request_writes_into_meta (σ : state) (l lu : loc) (rq : Request)
    (dm du : gmap string pyval) (spider : pyval) (call_id enc : string) (σ2 : state) :
  heap σ !! l = Some (ORequest rq) →
  meta_dict (heap σ) rq = Some dm →
  (∀ v, dm !! "apify_request_id" = Some v → live (heap σ) v) →
  (∀ v, dm !! "apify_request_unique_key" = Some v → live (heap σ) v) →
  dm !! "userData" = Some (VRef lu) →
  heap σ !! lu = Some (ODict du) →
  encode_scrapy_request spider l
    (apify_request_fields l
       (State (heap σ) (log σ ++ [LogRec DEBUG (Some call_id)
                                    (to_apify_request_was_called (VRef l))]))).2
    = (inr enc, σ2) →
  ∃ r σ',
    to_apify_request (VRef l) spider call_id σ = (inr (VRef r), σ')
    ∧ heap σ' !! lu = Some (ODict (<["scrapy_request" := VStr enc]> du))
    ∧ (du !! "scrapy_request" ≠ Some (VStr enc) → heap σ' !! lu ≠ heap σ !! lu).
Proof.
  intros Hl Hmeta Hlive1 Hlive2 Hud Hlu Henc.
  destruct (to_apify_request_run σ l rq dm spider call_id enc σ2 Hl Hmeta Hlive1 Hlive2)
    as (r & lu' & du' & hd & σ' & Hrun & _ & _ & Hsrc & H'lu & _); [|done|].
  { intros v Hv. rewrite Hud in Hv. inversion Hv; subst. simpl. rewrite Hlu. by eexists. }
  rewrite Hud in Hsrc. destruct Hsrc as [[= <-] Hlu'].
  rewrite Hlu in Hlu'. inversion Hlu'; subst du'.
  exists r, σ'. split; [done|]. split; [done|].
  intros Hne Heq. rewrite H'lu, Hlu in Heq. inversion Heq as [Hd].
  apply Hne. rewrite <- Hd. apply lookup_insert_eq.
Qed.

End claims.

(** ** More on [to_apify_request]: what it changes, and how it fails *)

Section to_apify_request_effects.
Context `{!Framework}.

(** Lines 63-64, when the export and the pickling succeed. *)
Lemma encode_scrapy_request_run (spider : pyval) (l : loc) (σ : state)
    (dv : pyval) (h' : gmap loc pyobj) (b : string) :
  Request_to_dict spider l (heap σ) = inr (dv, h') →
  pickle_dumps dv h' = inr b →
  encode_scrapy_request spider l σ = (inr (base64_encode b), State h' (log σ)).
Proof.
  intros Hexport Hdumps. unfold encode_scrapy_request.
  rewrite (bind_inr _ _ _ _ _ (call_run _ _ _ _ Hexport)).
  by rewrite (bind_inr _ _ (State h' (log σ)) (State h' (log σ)) b)
    by (unfold call_ro; simpl; by rewrite Hdumps).
Qed.

(** Lines 63-64, when the export or the pickling raises. *)
Lemma encode_scrapy_request_inl (spider : pyval) (l : loc) (σ : state) (e : exn) :
  Request_to_dict spider l (heap σ) = inl e
  ∨ (∃ dv h', Request_to_dict spider l (heap σ) = inr (dv, h') ∧ pickle_dumps dv h' = inl e) →
  ∃ σ', encode_scrapy_request spider l σ = (inl e, σ') ∧ log σ' = log σ.
Proof.
  intros [Hexport|(dv & h' & Hexport & Hdumps)]; unfold encode_scrapy_request.
  - exists σ. split; [|done]. apply bind_inl. unfold call. by rewrite Hexport.
  - exists (State h' (log σ)). split; [|done].
    rewrite (bind_inr _ _ _ _ _ (call_run _ _ _ _ Hexport)).
    apply bind_inl. unfold call_ro. simpl. by rewrite Hdumps.
Qed.

(** [to_apify_request] once the input has passed the check of line 32. *)
Lemma to_apify_request_entered (σ : state) (l : loc) (rq : Request) (spider : pyval)
    (call_id : string) :
  heap σ !! l = Some (ORequest rq) →
  to_apify_request (VRef l) spider call_id σ
  = (apify_request ← apify_request_fields l;
     scrapy_request_dict_encoded ← encode_scrapy_request spider l;
     ud ← py_getitem apify_request "userData";
     py_setitem ud "scrapy_request" (VStr scrapy_request_dict_encoded);;
     emit DEBUG (Some call_id) (scrapy_request_was_converted apify_request);;
     mret apify_request)
      (State (heap σ) (log σ ++ [LogRec DEBUG (Some call_id)
                                   (to_apify_request_was_called (VRef l))])).
Proof.
  intros Hl. unfold to_apify_request.
  rewrite (bind_inr _ _ _ _ _ (get_heap_run _)). simpl. rewrite Hl.
  by rewrite (bind_inr _ _ _ _ _ (emit_run _ _ _ _)).
Qed.

(** The record as lines 38-57 leave it, whatever the headers are. *)
Lemma apify_request_fields_record (σ : state) (l lm : loc) (rq : Request)
    (dm : gmap string pyval) :
  heap σ !! l = Some (ORequest rq) →
  _meta rq = VRef lm →
  heap σ !! lm = Some (ODict dm) →
  (∀ v, dm !! "apify_request_id" = Some v → live (heap σ) v) →
  (∀ v, dm !! "apify_request_unique_key" = Some v → live (heap σ) v) →
  ∃ r σ1 hd,
    apify_request_fields l σ = (inr (VRef r), σ1)
    ∧ heap σ ⊆ heap σ1
    ∧ heap σ !! r = None ∧ r ≠ new_loc (heap σ)
    ∧ heap σ1 !! new_loc (heap σ) = Some (ODict ∅)
    ∧ heap σ1 !! r = Some (ODict (record_fields rq
                         (default (VRef (new_loc (heap σ))) (dm !! "userData")) hd
                         (copied (heap σ) dm "apify_request_id")
                         (copied (heap σ) dm "apify_request_unique_key"))).
Proof.
  intros Hl Hm Hlm Hlive1 Hlive2.
  destruct (apify_request_fields_run σ l lm rq dm Hl Hm Hlm Hlive1 Hlive2)
    as (r & σ1 & Hrun & Hsub & Hr & Hre & He0 & Hhead).
  destruct (headers rq) as [hs|w].
  - destruct Hhead as (hd & _ & _ & _ & H1r & _). by exists r, σ1, (Some (VRef hd)).
  - destruct Hhead as (H1r & _). by exists r, σ1, None.
Qed.

(** A failure of the export or of the pickling leaves the heap grown, not
    changed. *)
Lemma encode_scrapy_request_frame_inl (spider : pyval) (l : loc) (σ σ' : state) (e : exn) :
  encode_scrapy_request spider l σ = (inl e, σ') → heap σ ⊆ heap σ'.
Proof.
  unfold encode_scrapy_request, mbind, M_bind, call, call_ro. intros Hrun.
  destruct (Request_to_dict spider l (heap σ)) as [e'|[d h']] eqn:Hd.
  - by inversion Hrun.
  - simpl in Hrun. destruct (pickle_dumps d h') as [e'|b]; [|done].
    inversion Hrun; subst. simpl. by eapply Request_to_dict_frame.
Qed.

(** The heap [to_apify_request] leaves: the heap after the export, with the
    snapshot written into the [userData] dict. *)
Lemma to_apify_request_run_heap (σ : state) (l lm : loc) (rq : Request)
    (dm : gmap string pyval) (spider : pyval) (call_id enc : string) (σ2 : state) :
  heap σ !! l = Some (ORequest rq) →
  _meta rq = VRef lm →
  heap σ !! lm = Some (ODict dm) →
  (∀ v, dm !! "apify_request_id" = Some v → live (heap σ) v) →
  (∀ v, dm !! "apify_request_unique_key" = Some v → live (heap σ) v) →
  (∀ v, dm !! "userData" = Some v → is_Some (as_dict (heap σ) v)) →
  encode_scrapy_request spider l
    (apify_request_fields l
       (State (heap σ) (log σ ++ [LogRec DEBUG (Some call_id)
                                    (to_apify_request_was_called (VRef l))]))).2
    = (inr enc, σ2) →
  ∃ r lu du σ',
    to_apify_request (VRef l) spider call_id σ = (inr (VRef r), σ')
    ∧ heap σ ⊆ heap σ2
    ∧ heap σ2 !! lu = Some (ODict du)
    ∧ match dm !! "userData" with
      | Some v => v = VRef lu
      | None => heap σ !! lu = None ∧ du = ∅
      end
    ∧ heap σ' = <[lu := ODict (<["scrapy_request" := VStr enc]> du)]> (heap σ2).
Proof.
  intros Hl Hm Hlm Hlive1 Hlive2 Hud Henc.
  set (σ0 := State (heap σ) _) in Henc.
  destruct (apify_request_fields_record σ0 l lm rq dm Hl Hm Hlm Hlive1 Hlive2)
    as (r & σ1 & hd & Hrun & Hsub1 & Hr & Hre & He0 & H1r).
  rewrite Hrun in Henc. simpl in Henc.
  destruct (encode_scrapy_request_frame _ _ _ _ _ Henc) as [Hsub2 _].
  change (heap σ0) with (heap σ) in *.
  set (e0 := new_loc (heap σ)) in *.
  assert (∃ lu du, default (VRef e0) (dm !! "userData") = VRef lu
          ∧ heap σ1 !! lu = Some (ODict du)
          ∧ match dm !! "userData" with
            | Some v => v = VRef lu
            | None => heap σ !! lu = None ∧ du = ∅
            end) as (lu & du & Hudv & H1lu & Hsrc).
  { destruct (dm !! "userData") as [v|] eqn:Hv; simpl.
    - destruct (Hud v eq_refl) as [du Hdu]. destruct v as [| | | |lu]; try done.
      simpl in Hdu. destruct (heap σ !! lu) as [[du'| | |]|] eqn:Hlu; try done.
      inversion Hdu; subst. exists lu, du. split; [done|].
      split; [by eapply lookup_weaken | done].
    - exists e0, ∅. split; [done|]. split; [done|]. split; [apply new_loc_fresh | done]. }
  rewrite Hudv in H1r.
  exists r, lu, du.
  rewrite (to_apify_request_entered σ l rq spider call_id Hl). fold σ0.
  rewrite (bind_inr _ _ _ _ _ Hrun).
  rewrite (bind_inr _ _ _ _ _ Henc).
  rewrite (bind_inr _ _ _ _ _ (py_getitem_run σ2 _ _ _ _
             (lookup_weaken _ _ _ _ H1r Hsub2) (record_fields_lookup_userData _ _ _ _ _))).
  rewrite (bind_inr _ _ _ _ _ (py_setitem_run σ2 _ _ _ _ (lookup_weaken _ _ _ _ H1lu Hsub2))).
  rewrite (bind_inr _ _ _ _ _ (emit_run _ _ _ _)). simpl.
  eexists. split; [reflexivity|]. simpl.
  split; [by etrans|]. split; [by eapply lookup_weaken|]. done.
Qed.

(** X1: apart from the dict under [meta['userData']], [to_apify_request] leaves
    every object that exists as it is: the request keeps its attributes and
    its meta dict keeps its entries. *)
Theorem to_apify_request_frame (σ : state) (l lm : loc) (rq : Request)
    (dm : gmap string pyval) (spider : pyval) (call_id enc : string) (σ2 : state) :
  heap σ !! l = Some (ORequest rq) →
  _meta rq = VRef lm →
  heap σ !! lm = Some (ODict dm) →
  (∀ v, dm !! "apify_request_id" = Some v → live (heap σ) v) →
  (∀ v, dm !! "apify_request_unique_key" = Some v → live (heap σ) v) →
  (∀ v, dm !! "userData" = Some v → is_Some (as_dict (heap σ) v)) →
  encode_scrapy_request spider l
    (apify_request_fields l
       (State (heap σ) (log σ ++ [LogRec DEBUG (Some call_id)
                                    (to_apify_request_was_called (VRef l))]))).2
    = (inr enc, σ2) →
  ∃ r σ',
    to_apify_request (VRef l) spider call_id σ = (inr (VRef r), σ')
    ∧ (∀ x o, heap σ !! x = Some o → dm !! "userData" ≠ Some (VRef x) →
         heap σ' !! x = Some o)
    ∧ heap σ' !! l = Some (ORequest rq)
    ∧ (dm !! "userData" ≠ Some (VRef lm) → heap σ' !! lm = Some (ODict dm)).
Proof.
  intros Hl Hm Hlm Hlive1 Hlive2 Hud Henc.
  destruct (to_apify_request_run_heap σ l lm rq dm spider call_id enc σ2
              Hl Hm Hlm Hlive1 Hlive2 Hud Henc)
    as (r & lu & du & σ' & Hrun & Hsub & H2lu & Hsrc & Hheap).
  assert (∀ x o, heap σ !! x = Some o → dm !! "userData" ≠ Some (VRef x) →
            heap σ' !! x = Some o) as Hframe.
  { intros x o Hx Hne. rewrite Hheap.
    rewrite lookup_insert_ne; [by eapply lookup_weaken|].
    intros <-. destruct (dm !! "userData") as [v|].
    - by subst v.
    - destruct Hsrc as [Hnone _]. congruence. }
  exists r, σ'. split; [done|]. split; [done|]. split.
  - apply Hframe; [done|]. intros Hv.
    destruct (Hud _ Hv) as [du' Hdu']. simpl in Hdu'. by rewrite Hl in Hdu'.
  - intros Hne. by apply Hframe.
Qed.

(** X2: when the meta is a dict with no [userData], the record gets a dict
    of its own that holds the snapshot and nothing else, and the meta still
    has no [userData]. *)
Theorem to_apify_request_new_userData (σ : state) (l lm : loc) (rq : Request)
    (dm : gmap string pyval) (spider dv : pyval) (call_id b : string)
    (h' : gmap loc pyobj) :
  heap σ !! l = Some (ORequest rq) →
  _meta rq = VRef lm →
  heap σ !! lm = Some (ODict dm) →
  (∀ v, dm !! "apify_request_id" = Some v → live (heap σ) v) →
  (∀ v, dm !! "apify_request_unique_key" = Some v → live (heap σ) v) →
  dm !! "userData" = None →
  Request_to_dict spider l
    (heap (apify_request_fields l
             (State (heap σ) (log σ ++ [LogRec DEBUG (Some call_id)
                                          (to_apify_request_was_called (VRef l))]))).2)
    = inr (dv, h') →
  pickle_dumps dv h' = inr b →
  ∃ r lu rec σ',
    to_apify_request (VRef l) spider call_id σ = (inr (VRef r), σ')
    ∧ heap σ' !! r = Some (ODict rec)
    ∧ rec !! "userData" = Some (VRef lu)
    ∧ heap σ !! lu = None
    ∧ heap σ' !! lu = Some (ODict {[ "scrapy_request" := VStr (base64_encode b) ]})
    ∧ heap σ' !! lm = Some (ODict dm)
    ∧ heap σ ⊆ heap σ'.
Proof.
  intros Hl Hm Hlm Hlive1 Hlive2 Hnone Hexport Hdumps.
  pose proof (encode_scrapy_request_run spider l _ dv h' b Hexport Hdumps) as Henc.
  assert (∀ v, dm !! "userData" = Some v → is_Some (as_dict (heap σ) v)) as Hud
    by (intros v Hv; congruence).
  assert (meta_dict (heap σ) rq = Some dm) as Hmeta
    by (unfold meta_dict; rewrite Hm; simpl; by rewrite Hlm).
  destruct (to_apify_request_run σ l rq dm spider call_id _ _ Hl Hmeta Hlive1 Hlive2 Hud Henc)
    as (r & lu & du & hd & σ' & Hrun & Hr & H'r & Hsrc & H'lu & Hrlu & _).
  destruct (to_apify_request_run_heap σ l lm rq dm spider call_id _ _
              Hl Hm Hlm Hlive1 Hlive2 Hud Henc)
    as (r0 & lu0 & du0 & σ0' & Hrun0 & Hsub & H2lu & Hsrc0 & Hheap).
  rewrite Hrun in Hrun0. inversion Hrun0; subst r0 σ0'. clear Hrun0.
  rewrite Hnone in Hsrc, Hsrc0. destruct Hsrc as [Hlu ->]. destruct Hsrc0 as [Hlu0 ->].
  assert (heap σ ⊆ heap σ') as Hsub'.
  { rewrite Hheap. apply insert_subseteq_r; done. }
  eexists r, lu, _, σ'. split; [done|]. split; [exact H'r|].
  split; [apply record_fields_lookup_userData|]. split; [done|].
  split; [by rewrite H'lu, insert_empty|].
  split; [by eapply lookup_weaken | done].
Qed.

(** X3: a [userData] of the meta that is not a dict makes the call fail at the
    end, on line 66, with a TypeError. *)
Theorem to_apify_request_userData_not_dict (σ : state) (l lm : loc) (rq : Request)
    (dm : gmap string pyval) (v spider : pyval) (call_id enc : string) (σ2 : state) :
  heap σ !! l = Some (ORequest rq) →
  _meta rq = VRef lm →
  heap σ !! lm = Some (ODict dm) →
  (∀ v, dm !! "apify_request_id" = Some v → live (heap σ) v) →
  (∀ v, dm !! "apify_request_unique_key" = Some v → live (heap σ) v) →
  dm !! "userData" = Some v →
  live (heap σ) v →
  as_dict (heap σ) v = None →
  encode_scrapy_request spider l
    (apify_request_fields l
       (State (heap σ) (log σ ++ [LogRec DEBUG (Some call_id)
                                    (to_apify_request_was_called (VRef l))]))).2
    = (inr enc, σ2) →
  ∃ msg, to_apify_request (VRef l) spider call_id σ = (inl (Exn TypeError msg), σ2).
Proof.
  intros Hl Hm Hlm Hlive1 Hlive2 Hv Hlive Hnd Henc.
  set (σ0 := State (heap σ) _) in Henc.
  destruct (apify_request_fields_record σ0 l lm rq dm Hl Hm Hlm Hlive1 Hlive2)
    as (r & σ1 & hd & Hrun & Hsub1 & Hr & Hre & He0 & H1r).
  rewrite Hrun in Henc. simpl in Henc.
  destruct (encode_scrapy_request_frame _ _ _ _ _ Henc) as [Hsub2 _].
  change (heap σ0) with (heap σ) in *.
  rewrite Hv in H1r. simpl in H1r.
  assert (as_dict (heap σ2) v = None) as Hnd2.
  { rewrite <- Hnd. apply as_dict_weaken; [by etrans | done]. }
  rewrite (to_apify_request_entered σ l rq spider call_id Hl). fold σ0.
  rewrite (bind_inr _ _ _ _ _ Hrun).
  rewrite (bind_inr _ _ _ _ _ Henc).
  rewrite (bind_inr _ _ _ _ _ (py_getitem_run σ2 _ _ _ _
             (lookup_weaken _ _ _ _ H1r Hsub2) (record_fields_lookup_userData _ _ _ _ _))).
  assert (∃ msg, py_setitem v "scrapy_request" (VStr enc) σ2 = (inl (Exn TypeError msg), σ2))
    as [msg Hset].
  { unfold py_setitem. rewrite (bind_inr _ _ _ _ _ (get_heap_run _)).
    destruct v as [| | | |x]; try by eexists.
    simpl in Hnd2. destruct (heap σ2 !! x) as [[| | |]|]; try done; by eexists. }
  exists msg. by apply bind_inl.
Qed.

(** X4: when the meta is a dict and the export or the pickling raises,
    [to_apify_request] raises the same exception, and nothing that existed
    has been changed: the snapshot is written last. *)
Theorem to_apify_request_encode_fails (σ : state) (l lm : loc) (rq : Request)
    (dm : gmap string pyval) (spider : pyval) (call_id : string) (e : exn) :
  heap σ !! l = Some (ORequest rq) →
  _meta rq = VRef lm →
  heap σ !! lm = Some (ODict dm) →
  (∀ v, dm !! "apify_request_id" = Some v → live (heap σ) v) →
  (∀ v, dm !! "apify_request_unique_key" = Some v → live (heap σ) v) →
  let built := (apify_request_fields l
                  (State (heap σ) (log σ ++ [LogRec DEBUG (Some call_id)
                                               (to_apify_request_was_called (VRef l))]))).2 in
  Request_to_dict spider l (heap built) = inl e
  ∨ (∃ dv h', Request_to_dict spider l (heap built) = inr (dv, h')
              ∧ pickle_dumps dv h' = inl e) →
  ∃ σ2,
    to_apify_request (VRef l) spider call_id σ = (inl e, σ2)
    ∧ heap σ ⊆ heap σ2.
Proof.
  intros Hl Hm Hlm Hlive1 Hlive2 built Hfail.
  set (σ0 := State (heap σ) _) in built.
  destruct (apify_request_fields_record σ0 l lm rq dm Hl Hm Hlm Hlive1 Hlive2)
    as (r & σ1 & hd & Hrun & Hsub1 & _).
  assert (built = σ1) as Hbuilt by (unfold built; by rewrite Hrun).
  rewrite Hbuilt in Hfail.
  destruct (encode_scrapy_request_inl spider l σ1 e Hfail) as (σ2 & Henc & _).
  exists σ2. split.
  - rewrite (to_apify_request_entered σ l rq spider call_id Hl). fold σ0.
    rewrite (bind_inr _ _ _ _ _ Hrun). by apply bind_inl.
  - etrans; [exact Hsub1 | by eapply encode_scrapy_request_frame_inl].
Qed.

(** X5: what a successful [to_apify_request] logs: the entry on entering, the
    warning when the headers are no [Headers], the entry on leaving; the
    debug entries carry the id of the call. *)
Theorem to_apify_request_log (σ : state) (l : loc) (rq : Request)
    (dm : gmap string pyval) (spider : pyval) (call_id enc : string) (σ2 : state) :
  heap σ !! l = Some (ORequest rq) →
  meta_dict (heap σ) rq = Some dm →
  (∀ v, dm !! "apify_request_id" = Some v → live (heap σ) v) →
  (∀ v, dm !! "apify_request_unique_key" = Some v → live (heap σ) v) →
  (∀ v, dm !! "userData" = Some v → is_Some (as_dict (heap σ) v)) →
  encode_scrapy_request spider l
    (apify_request_fields l
       (State (heap σ) (log σ ++ [LogRec DEBUG (Some call_id)
                                    (to_apify_request_was_called (VRef l))]))).2
    = (inr enc, σ2) →
  ∃ r σ',
    to_apify_request (VRef l) spider call_id σ = (inr (VRef r), σ')
    ∧ log σ' = (log σ
                ++ [LogRec DEBUG (Some call_id) (to_apify_request_was_called (VRef l))]
                ++ match headers rq with
                   | IsHeaders _ => []
                   | NotHeaders w =>
                       [LogRec WARNING None (headers_is_not_Headers (NotHeaders w))]
                   end
                ++ [LogRec DEBUG (Some call_id) (scrapy_request_was_converted (VRef r))])%list.
Proof.
  intros Hl Hmeta Hlive1 Hlive2 Hud Henc.
  destruct (to_apify_request_run σ l rq dm spider call_id enc σ2 Hl Hmeta Hlive1 Hlive2 Hud Henc)
    as (r & lu & du & hd & σ' & Hrun & _ & _ & _ & _ & _ & Hhead).
  exists r, σ'. split; [done|].
  destruct (headers rq) as [hs|w].
  - destruct Hhead as (lh & _ & _ & _ & ->). simpl. by rewrite <- app_assoc.
  - destruct Hhead as (_ & ->). simpl. by rewrite <- app_assoc.
Qed.

End to_apify_request_effects.

(** ** More on [to_scrapy_request] *)

Lemma bind_cong {A B : Type} (c c' : M A) (k : A → M B) (σ σ' : state) :
  c σ = c' σ' → (c ≫= k) σ = (c' ≫= k) σ'.
Proof. intros Hc. unfold mbind, M_bind. by rewrite Hc. Qed.

(** *** The branch that restores the snapshot *)

Section snapshot_branch.
Context `{!Framework}.

Variables (σ : state) (l lu q : loc) (d du dm : gmap string pyval)
  (i k dv spider : pyval) (s b call_id : string) (h1 h2 : gmap loc pyobj)
  (rq : Request) (hnew : headers_attr).

Hypothesis record : heap σ !! l = Some (ODict d).
Hypothesis has_url : is_Some (d !! "url").
Hypothesis has_method : is_Some (d !! "method").
Hypothesis has_id : d !! "id" = Some i.
Hypothesis has_uniqueKey : d !! "uniqueKey" = Some k.
Hypothesis has_userData : d !! "userData" = Some (VRef lu).
Hypothesis userData : heap σ !! lu = Some (ODict du).
Hypothesis snapshot : du !! "scrapy_request" = Some (VStr s).
Hypothesis decoded : base64_decode s = inr b.
Hypothesis loaded : pickle_loads b (heap σ) = inr (dv, h1).
Hypothesis loaded_dict : is_Some (as_dict h1 dv).
Hypothesis rebuilt : request_from_dict dv spider h1 = inr (VRef q, h2).
Hypothesis rebuilt_request : h2 !! q = Some (ORequest rq).
Hypothesis rebuilt_meta : meta_or_empty h2 rq = Some dm.
Hypothesis rebuilt_meta_new : ∀ lm, _meta rq = VRef lm → heap σ !! lm = None.
Hypothesis headers_live : ∀ hv, d !! "headers" = Some hv → live (heap σ) hv.
Hypothesis headers_built : headers_after (heap σ) d (headers rq) = Some hnew.

(** X6: the [headers] of the record, when they are a dict, replace the headers
    of the snapshot; other headers are reported and the snapshot's stay; url,
    method and the internal attributes are those of the snapshot. *)
Theorem to_scrapy_request_restored_headers :
  ∃ σ' rq',
    to_scrapy_request (VRef l) spider call_id σ = (inr (VRef q), σ')
    ∧ heap σ' !! q = Some (ORequest rq')
    ∧ url rq' = url rq ∧ method rq' = method rq ∧ internal rq' = internal rq
    ∧ match d !! "headers" with
      | None => headers rq' = headers rq
      | Some hv =>
          match as_dict (heap σ) hv with
          | Some hd => ∃ hs, Headers_init hd = inr hs ∧ headers rq' = IsHeaders hs
          | None =>
              headers rq' = headers rq
              ∧ LogRec WARNING None (headers_is_not_dict hv) ∈ log σ'
          end
      end.
Proof.
  destruct (to_scrapy_request_restore_run σ l lu q d du dm i k dv spider s b call_id
              h1 h2 rq hnew) as (lm & σ' & Hrun & H'q & _ & _ & _ & Hlog); try done.
  exists σ', (set_headers (set_meta rq (VRef lm)) hnew).
  split; [done|]. split; [done|]. split; [done|]. split; [done|]. split; [done|].
  simpl. clear Hrun H'q. revert headers_built Hlog. unfold headers_after, headers_warning.
  destruct (d !! "headers") as [hv|]; [|by intros [= <-]].
  destruct (as_dict (heap σ) hv) as [hd|].
  - destruct (Headers_init hd) as [e|hs]; [done|]. intros [= <-] _. by exists hs.
  - intros [= <-] ->. split; [done|]. set_solver.
Qed.

(** X7: the meta of the restored request is the meta of the snapshot but for
    three entries: the two identity fields and [userData]. *)
Theorem to_scrapy_request_restored_meta :
  ∃ lm σ' rq' dm',
    to_scrapy_request (VRef l) spider call_id σ = (inr (VRef q), σ')
    ∧ heap σ' !! q = Some (ORequest rq')
    ∧ _meta rq' = VRef lm
    ∧ heap σ' !! lm = Some (ODict dm')
    ∧ ∀ key, key ≠ "apify_request_id" → key ≠ "apify_request_unique_key" →
             key ≠ "userData" → dm' !! key = dm !! key.
Proof.
  destruct (to_scrapy_request_restore_run σ l lu q d du dm i k dv spider s b call_id
              h1 h2 rq hnew) as (lm & σ' & Hrun & H'q & H'lm & _); try done.
  exists lm, σ', (set_headers (set_meta rq (VRef lm)) hnew), (meta_after d dm i k).
  split; [done|]. split; [done|]. split; [done|]. split; [done|].
  intros key Hk1 Hk2 Hk3. unfold meta_after. rewrite has_userData. simpl.
  by rewrite !lookup_insert_ne.
Qed.

(** X8: [to_scrapy_request] changes no dict that exists: the record and its
    [userData] are after the call what they were, and the meta of the
    returned request is a dict of its own. *)
Theorem to_scrapy_request_restore_keeps_dicts :
  ∃ lm σ' rq',
    to_scrapy_request (VRef l) spider call_id σ = (inr (VRef q), σ')
    ∧ (∀ x dx, heap σ !! x = Some (ODict dx) → heap σ' !! x = Some (ODict dx))
    ∧ heap σ' !! l = Some (ODict d)
    ∧ heap σ' !! lu = Some (ODict du)
    ∧ heap σ' !! q = Some (ORequest rq')
    ∧ _meta rq' = VRef lm
    ∧ heap σ !! lm = None.
Proof.
  destruct (to_scrapy_request_restore_run σ l lu q d du dm i k dv spider s b call_id
              h1 h2 rq hnew) as (lm & σ' & Hrun & H'q & _ & Hlm & Hkept & _); try done.
  exists lm, σ', (set_headers (set_meta rq (VRef lm)) hnew).
  split; [done|]. split; [exact Hkept|].
  split; [by apply Hkept|]. split; [by apply Hkept|]. done.
Qed.

(** X9: what the restoring branch logs, in order. *)
Theorem to_scrapy_request_restore_log :
  ∃ σ',
    to_scrapy_request (VRef l) spider call_id σ = (inr (VRef q), σ')
    ∧ log σ' = (log σ
                ++ [LogRec DEBUG (Some call_id) (to_scrapy_request_was_called (VRef l));
                    LogRec DEBUG (Some call_id) restoring_the_scrapy_request;
                    LogRec DEBUG (Some call_id) (scrapy_request_reconstructed (VRef q))]
                ++ headers_warning (heap σ) d
                ++ [LogRec DEBUG (Some call_id) (apify_request_was_converted (VRef q))])%list.
Proof.
  destruct (to_scrapy_request_restore_run σ l lu q d du dm i k dv spider s b call_id
              h1 h2 rq hnew) as (lm & σ' & Hrun & _ & _ & _ & _ & Hlog); try done.
  by exists σ'.
Qed.

End snapshot_branch.

(** *** A snapshot that cannot be restored *)

Section broken_snapshot.
Context `{!Framework}.

Variables (σ : state) (l lu : loc) (d du : gmap string pyval)
  (spider : pyval) (s call_id : string).

Hypothesis record : heap σ !! l = Some (ODict d).
Hypothesis complete : missing_keys d = [].
Hypothesis has_userData : d !! "userData" = Some (VRef lu).
Hypothesis userData : heap σ !! lu = Some (ODict du).
Hypothesis snapshot : du !! "scrapy_request" = Some (VStr s).

(** The state when the snapshot is about to be decoded. *)
Definition restoring : state :=
  State (heap σ)
    (log σ ++ [LogRec DEBUG (Some call_id) (to_scrapy_request_was_called (VRef l));
               LogRec DEBUG (Some call_id) restoring_the_scrapy_request]).

Lemma to_scrapy_request_decoding :
  to_scrapy_request (VRef l) spider call_id σ
  = (q ← (q ← decode_scrapy_request s spider;
          emit DEBUG (Some call_id) (scrapy_request_reconstructed (VRef q));;
          update_identity (VRef l) q;;
          mret q);
     finish_scrapy_request (VRef l) q call_id) restoring.
Proof.
  rewrite (to_scrapy_request_checked σ l d spider call_id record complete).
  set (σ0 := State (heap σ) _).
  rewrite (bind_inr _ _ _ _ _ (has_snapshot_dict σ0 l lu d du record has_userData userData)).
  rewrite bool_decide_eq_true_2 by (by eexists).
  apply bind_cong.
  rewrite (restore_scrapy_request_prefix σ0 l lu d du (VStr s) spider call_id
             record has_userData userData snapshot).
  unfold restoring, σ0. simpl. by rewrite <- app_assoc.
Qed.

(** X10: when the text does not decode, the bytes do not unpickle or the dict
    does not rebuild, the exception of the library comes out of
    [to_scrapy_request] as it is; no object that existed has been changed. *)
Theorem to_scrapy_request_broken_snapshot (e : exn) :
  (base64_decode s = inl e →
     to_scrapy_request (VRef l) spider call_id σ = (inl e, restoring))
  ∧ (∀ b, base64_decode s = inr b → pickle_loads b (heap σ) = inl e →
       to_scrapy_request (VRef l) spider call_id σ = (inl e, restoring))
  ∧ (∀ b dv h1, base64_decode s = inr b → pickle_loads b (heap σ) = inr (dv, h1) →
       is_Some (as_dict h1 dv) → request_from_dict dv spider h1 = inl e →
       to_scrapy_request (VRef l) spider call_id σ = (inl e, State h1 (log restoring))
       ∧ heap σ ⊆ h1).
Proof.
  rewrite to_scrapy_request_decoding.
  split; [|split].
  - intros Hdec. apply bind_inl, bind_inl. unfold decode_scrapy_request.
    apply bind_inl. unfold call_ro. by rewrite Hdec.
  - intros b Hdec Hloads. apply bind_inl, bind_inl. unfold decode_scrapy_request.
    rewrite (bind_inr _ _ restoring restoring b) by (unfold call_ro; by rewrite Hdec).
    apply bind_inl. unfold call. simpl. by rewrite Hloads.
  - intros b dv h1 Hdec Hloads [f Hf] Hfrom. split; [|by eapply pickle_loads_frame].
    apply bind_inl, bind_inl. unfold decode_scrapy_request.
    rewrite (bind_inr _ _ restoring restoring b) by (unfold call_ro; by rewrite Hdec).
    rewrite (bind_inr _ _ restoring (State h1 (log restoring)) dv)
      by (unfold call; simpl; by rewrite Hloads).
    rewrite (bind_inr _ _ _ _ _ (get_heap_run _)). simpl. rewrite Hf.
    apply bind_inl. unfold call. simpl. by rewrite Hfrom.
Qed.

End broken_snapshot.

(** *** The branch that makes a new request *)

Section new_request.
Context `{!Framework}.

Variables (σ : state) (l : loc) (d : gmap string pyval)
  (u m i k spider : pyval) (call_id : string).

Hypothesis record : heap σ !! l = Some (ODict d).
Hypothesis has_url : d !! "url" = Some u.
Hypothesis has_method : d !! "method" = Some m.
Hypothesis has_id : d !! "id" = Some i.
Hypothesis has_uniqueKey : d !! "uniqueKey" = Some k.
Hypothesis nothing_to_restore : no_snapshot (heap σ) d.
Hypothesis headers_live : ∀ hv, d !! "headers" = Some hv → live (heap σ) hv.

(** X11: the [headers] of the record, when they are a dict, become the headers
    of the new request; other headers are reported and the request keeps
    those its constructor gave it. *)
Theorem to_scrapy_request_fresh_headers (rq0 : Request) (hnew : headers_attr) :
  Request_init u m = inr rq0 →
  headers_after (heap σ) d (headers rq0) = Some hnew →
  ∃ q σ' rq',
    to_scrapy_request (VRef l) spider call_id σ = (inr (VRef q), σ')
    ∧ heap σ' !! q = Some (ORequest rq')
    ∧ internal rq' = internal rq0
    ∧ match d !! "headers" with
      | None => headers rq' = headers rq0
      | Some hv =>
          match as_dict (heap σ) hv with
          | Some hd => ∃ hs, Headers_init hd = inr hs ∧ headers rq' = IsHeaders hs
          | None =>
              headers rq' = headers rq0
              ∧ LogRec WARNING None (headers_is_not_dict hv) ∈ log σ'
          end
      end.
Proof.
  intros Hinit Hhead.
  destruct (to_scrapy_request_create_run σ l d u m i k spider call_id rq0 hnew)
    as (q & lm & σ' & Hrun & _ & _ & H'q & _ & _ & Hlog); try done.
  exists q, σ', (set_headers (set_meta rq0 (VRef lm)) hnew).
  split; [done|]. split; [done|]. split; [done|].
  simpl. clear Hrun H'q. revert Hhead Hlog. unfold headers_after, headers_warning.
  destruct (d !! "headers") as [hv|]; [|by intros [= <-]].
  destruct (as_dict (heap σ) hv) as [hd|].
  - destruct (Headers_init hd) as [e|hs]; [done|]. intros [= <-] _. by exists hs.
  - intros [= <-] ->. split; [done|]. set_solver.
Qed.

(** X12: the new request and its meta are new objects, nothing that existed is
    changed, and the log grows by the entries of this branch. *)
Theorem to_scrapy_request_fresh_frame (rq0 : Request) (hnew : headers_attr) :
  Request_init u m = inr rq0 →
  headers_after (heap σ) d (headers rq0) = Some hnew →
  ∃ q lm σ' rq',
    to_scrapy_request (VRef l) spider call_id σ = (inr (VRef q), σ')
    ∧ heap σ' !! q = Some (ORequest rq') ∧ _meta rq' = VRef lm
    ∧ heap σ !! q = None ∧ heap σ !! lm = None
    ∧ heap σ ⊆ heap σ'
    ∧ log σ' = (log σ
                ++ [LogRec DEBUG (Some call_id) (to_scrapy_request_was_called (VRef l));
                    LogRec DEBUG (Some call_id) gonna_create_a_new_scrapy_request]
                ++ headers_warning (heap σ) d
                ++ [LogRec DEBUG (Some call_id) (apify_request_was_converted (VRef q))])%list.
Proof.
  intros Hinit Hhead.
  destruct (to_scrapy_request_create_run σ l d u m i k spider call_id rq0 hnew)
    as (q & lm & σ' & Hrun & Hq & Hlm & H'q & _ & Hsub & Hlog); try done.
  by exists q, lm, σ', (set_headers (set_meta rq0 (VRef lm)) hnew).
Qed.

(** X13: the check on the keys does not look at the values: a [url] or [method]
    the constructor refuses gets the constructor's exception, after the two
    log entries and with no object changed. *)
Theorem to_scrapy_request_constructor_fails (e : exn) :
  Request_init u m = inl e →
  ∃ σ',
    to_scrapy_request (VRef l) spider call_id σ = (inl e, σ')
    ∧ heap σ ⊆ heap σ'
    ∧ log σ' = (log σ
                ++ [LogRec DEBUG (Some call_id) (to_scrapy_request_was_called (VRef l));
                    LogRec DEBUG (Some call_id) gonna_create_a_new_scrapy_request])%list.
Proof.
  intros Hinit.
  rewrite (to_scrapy_request_checked σ l d spider call_id record
             (missing_keys_present d (ex_intro _ _ has_url) (ex_intro _ _ has_method)
                (ex_intro _ _ has_id) (ex_intro _ _ has_uniqueKey))).
  set (σ0 := State (heap σ) _).
  assert (has_snapshot (VRef l) σ0 = (inr false, σ0)) as Hno.
  { destruct nothing_to_restore as [Hud|(lu & du & Hud & Hlu & Hs)].
    - by apply (has_snapshot_absent σ0 l d).
    - rewrite (has_snapshot_dict σ0 l lu d du record Hud Hlu), Hs.
      by rewrite bool_decide_eq_false_2 by (by intros [? ?]). }
  rewrite (bind_inr _ _ _ _ _ Hno).
  eexists. split.
  - apply bind_inl. unfold create_scrapy_request.
    rewrite (bind_inr _ _ _ _ _ (emit_run _ _ _ _)).
    set (σ1 := State (heap σ0) _).
    rewrite (bind_inr _ _ _ _ _ (py_getitem_run σ1 _ _ _ _ record has_url)).
    rewrite (bind_inr _ _ _ _ _ (py_getitem_run σ1 _ _ _ _ record has_method)).
    rewrite (bind_inr _ _ _ _ _ (py_getitem_run σ1 _ _ _ _ record has_id)).
    rewrite (bind_inr _ _ _ _ _ (py_getitem_run σ1 _ _ _ _ record has_uniqueKey)).
    rewrite (bind_inr _ _ _ _ _ (alloc_run _ _)).
    apply bind_inl. unfold call_ro. rewrite Hinit. reflexivity.
  - simpl. split; [apply alloc_subseteq|]. by rewrite <- app_assoc.
Qed.

End new_request.

(** ** There and back *)

Section roundtrip_meta.
Context `{!Framework}.

(** X14: after [to_apify_request] and [to_scrapy_request] the request that comes
    back has the identity of the one that went, the entries the snapshot's
    meta has everywhere else, and under [userData] the dict of the record:
    the dict of the first request when it had one, now with the snapshot in
    it. *)
Theorem roundtrip_meta (σ σe σ1 : state) (l q : loc) (rq rq2 : Request)
    (dm dm2 : gmap string pyval) (hs hs' : Headers) (i k spider r dv : pyval)
    (call_id call_id' enc b : string) (h1 h2 : gmap loc pyobj) :
  heap σ !! l = Some (ORequest rq) →
  headers rq = IsHeaders hs →
  meta_dict (heap σ) rq = Some dm →
  dm !! "apify_request_id" = Some i → truthy (heap σ) i = true → live (heap σ) i →
  dm !! "apify_request_unique_key" = Some k → truthy (heap σ) k = true → live (heap σ) k →
  (∀ v, dm !! "userData" = Some v → is_Some (as_dict (heap σ) v)) →
  encode_scrapy_request spider l
    (apify_request_fields l
       (State (heap σ) (log σ ++ [LogRec DEBUG (Some call_id)
                                    (to_apify_request_was_called (VRef l))]))).2
    = (inr enc, σe) →
  to_apify_request (VRef l) spider call_id σ = (inr r, σ1) →
  base64_decode enc = inr b →
  pickle_loads b (heap σ1) = inr (dv, h1) →
  is_Some (as_dict h1 dv) →
  request_from_dict dv spider h1 = inr (VRef q, h2) →
  h2 !! q = Some (ORequest rq2) →
  meta_or_empty h2 rq2 = Some dm2 →
  (∀ lm, _meta rq2 = VRef lm → heap σ1 !! lm = None) →
  Headers_init (VStr <$> to_unicode_dict hs) = inr hs' →
  ∃ σ2 rq' lm lu dm' du',
    to_scrapy_request r spider call_id' σ1 = (inr (VRef q), σ2)
    ∧ heap σ2 !! q = Some (ORequest rq')
    ∧ _meta rq' = VRef lm
    ∧ heap σ2 !! lm = Some (ODict dm')
    ∧ dm' !! "apify_request_id" = Some i
    ∧ dm' !! "apify_request_unique_key" = Some k
    ∧ dm' !! "userData" = Some (VRef lu)
    ∧ (∀ v, dm !! "userData" = Some v → v = VRef lu)
    ∧ heap σ2 !! lu = Some (ODict du')
    ∧ du' !! "scrapy_request" = Some (VStr enc)
    ∧ (∀ key, key ≠ "apify_request_id" → key ≠ "apify_request_unique_key" →
              key ≠ "userData" → dm' !! key = dm2 !! key).
Proof.
  intros Hl Hh Hmeta Hi Hti Hli Hk Htk Hlk Hud Henc Hto Hdec Hloads Hf Hfrom Hq
    Hmeta2 Hfresh Hinit.
  assert (∀ v, dm !! "apify_request_id" = Some v → live (heap σ) v) as Hlive1
    by (intros v Hv; rewrite Hi in Hv; by inversion Hv; subst).
  assert (∀ v, dm !! "apify_request_unique_key" = Some v → live (heap σ) v) as Hlive2
    by (intros v Hv; rewrite Hk in Hv; by inversion Hv; subst).
  destruct (to_apify_request_run σ l rq dm spider call_id enc σe Hl Hmeta Hlive1 Hlive2 Hud Henc)
    as (r0 & lu & du & hd & σ' & Hrun & Hr & H'r & Hsrc & H'lu & Hrlu & Hhead).
  rewrite Hrun in Hto. inversion Hto; subst r σ1. clear Hto.
  rewrite Hh in Hhead. destruct Hhead as (lh & -> & Hlh & H'lh & _).
  assert (copied (heap σ) dm "apify_request_id" = Some i) as Hci
    by (unfold copied; by rewrite Hi, Hti).
  assert (copied (heap σ) dm "apify_request_unique_key" = Some k) as Hck
    by (unfold copied; by rewrite Hk, Htk).
  rewrite Hci, Hck in H'r.
  destruct (record_fields_lookup rq (VRef lu) (Some (VRef lh)) (Some i) (Some k))
    as (Hfu & Hfm & Hfud & Hfh & Hfi & Hfk).
  destruct (to_scrapy_request_restore_run σ' r0 lu q
              (record_fields rq (VRef lu) (Some (VRef lh)) (Some i) (Some k))
              (<["scrapy_request" := VStr enc]> du) dm2 i k dv spider enc b call_id'
              h1 h2 rq2 (IsHeaders hs'))
    as (lm & σ2 & Hrun2 & H2q & H2lm & _ & Hkept & _); try done; try (by eexists).
  - apply lookup_insert_eq.
  - intros hv Hhv x ->. rewrite Hfh in Hhv. inversion Hhv; subst. by eexists.
  - unfold headers_after. rewrite Hfh. simpl. rewrite H'lh. by rewrite Hinit.
  - eexists σ2, (set_headers (set_meta rq2 (VRef lm)) (IsHeaders hs')), lm, lu, _, _.
    split; [done|]. split; [done|]. split; [done|]. split; [exact H2lm|].
    unfold meta_after. rewrite Hfud. simpl.
    split; [by simplify_map_eq|]. split; [by simplify_map_eq|].
    split; [by simplify_map_eq|].
    split. { intros v Hv. rewrite Hv in Hsrc. by destruct Hsrc. }
    split; [by apply Hkept|]. split; [apply lookup_insert_eq|].
    intros key Hk1 Hk2 Hk3. by rewrite !lookup_insert_ne.
Qed.

End roundtrip_meta.

(** ** The conversions, with what the libraries return spelled out *)

(** *** A new request: what the constructor makes of the record *)

Section new_request_built.
Context `{!Framework}.

Lemma has_snapshot_without (σ : state) (l : loc) (d : gmap string pyval) :
  heap σ !! l = Some (ODict d) →
  without_snapshot (heap σ) d →
  has_snapshot (VRef l) σ = (inr false, σ).
Proof.
  intros Hl Hno. unfold without_snapshot in Hno.
  destruct (d !! "userData") as [ud|] eqn:Hud; [|by apply (has_snapshot_absent σ l d)].
  unfold has_snapshot.
  rewrite (bind_inr _ _ _ _ _ (py_contains_run σ l d "userData" Hl)).
  rewrite bool_decide_eq_true_2 by (by eexists).
  rewrite (bind_inr _ _ _ _ _ (py_getitem_run σ l d "userData" ud Hl Hud)).
  unfold py_contains. rewrite (bind_inr _ _ _ _ _ (get_heap_run _)).
  destruct ud as [| | |s|x]; try done.
  - by rewrite Hno.
  - destruct (heap σ !! x) as [[du|xs| |]|]; try done.
    + rewrite Hno. by rewrite bool_decide_eq_false_2 by (by intros [? ?]).
    + by rewrite bool_decide_eq_false_2.
Qed.

(** The branch that makes a new request, run to its end. *)
Lemma to_scrapy_request_built_run (σ : state) (l : loc) (d : gmap string pyval)
    (u m i k spider : pyval) (call_id : string) (rq0 : Request) (hnew : headers_attr) :
  heap σ !! l = Some (ODict d) →
  d !! "url" = Some u → d !! "method" = Some m →
  d !! "id" = Some i → d !! "uniqueKey" = Some k →
  without_snapshot (heap σ) d →
  Request_init u m = inr rq0 →
  (∀ hv, d !! "headers" = Some hv → live (heap σ) hv) →
  headers_after (heap σ) d (headers rq0) = Some hnew →
  ∃ q lm σ',
    to_scrapy_request (VRef l) spider call_id σ = (inr (VRef q), σ')
    ∧ heap σ !! q = None ∧ heap σ !! lm = None
    ∧ heap σ' !! q = Some (ORequest (set_headers (set_meta rq0 (VRef lm)) hnew))
    ∧ heap σ' !! lm = Some (ODict (meta_after d ∅ i k))
    ∧ heap σ ⊆ heap σ'.
Proof.
  intros Hl Hu Hm Hi Hk Hsnap Hinit Hlive Hhead.
  rewrite (to_scrapy_request_checked σ l d spider call_id Hl
             (missing_keys_present d (ex_intro _ _ Hu) (ex_intro _ _ Hm)
                (ex_intro _ _ Hi) (ex_intro _ _ Hk))).
  set (σ0 := State (heap σ) _).
  rewrite (bind_inr _ _ _ _ _ (has_snapshot_without σ0 l d Hl Hsnap)).
  rewrite (bind_inr _ _ _ _ _ (create_scrapy_request_run σ0 l d u m i k rq0 call_id
             Hl Hu Hm Hi Hk Hinit)).
  change (heap σ0) with (heap σ).
  set (lm := new_loc (heap σ)).
  set (dm := ({[ "apify_request_id" := i; "apify_request_unique_key" := k ]} : gmap string pyval)).
  set (h1 := <[lm := ODict dm]> (heap σ)).
  set (q := new_loc h1). set (h2 := <[q := ORequest (set_meta rq0 (VRef lm))]> h1).
  set (σ2 := State h2 _).
  assert (heap σ !! lm = None) as Hlm by apply new_loc_fresh.
  assert (h1 !! q = None) as H1q by apply new_loc_fresh.
  assert (heap σ ⊆ h1) as Hsub1 by apply alloc_subseteq.
  assert (heap σ ⊆ h2) as Hsub2 by (etrans; [exact Hsub1 | apply alloc_subseteq]).
  assert (heap σ !! q = None) as Hq by (by eapply lookup_weaken_None).
  assert (h1 !! lm = Some (ODict dm)) as H1lm by apply lookup_insert_eq.
  assert (q ≠ lm) as Hqlm by congruence.
  assert (dm = <["apify_request_unique_key" := k]> (<["apify_request_id" := i]> ∅)) as Hdm.
  { unfold dm. apply map_eq. intros key.
    destruct (decide (key = "apify_request_unique_key")) as [->|Hk1];
      [by simplify_map_eq|].
    destruct (decide (key = "apify_request_id")) as [->|Hk2]; by simplify_map_eq. }
  assert (∀ hv, d !! "headers" = Some hv → as_dict h2 hv = as_dict (heap σ) hv) as Hsame.
  { intros hv Hhv. apply as_dict_weaken; [done | by apply Hlive]. }
  destruct (headers_after_stable (heap σ) h2 d (headers rq0) Hsame) as [Hha Hhw].
  assert (heap σ2 !! l = Some (ODict d)) as H2l by (by eapply lookup_weaken).
  assert (heap σ2 !! q = Some (ORequest (set_meta rq0 (VRef lm)))) as H2q
    by apply lookup_insert_eq.
  assert (heap σ2 !! lm = Some (ODict dm)) as H2lm by (by apply lookup_alloc_old).
  assert (headers_after (heap σ2) d (headers (set_meta rq0 (VRef lm))) = Some hnew) as Hhead2
    by (by rewrite <- Hhead, <- Hha).
  unfold finish_scrapy_request.
  rewrite (bind_inr _ _ _ _ _ (set_optional_fields_run σ2 l q lm d _ _ hnew
             H2l H2q eq_refl H2lm Hhead2)).
  rewrite (bind_inr _ _ _ _ _ (emit_run _ _ _ _)). rewrite ret_run. simpl.
  exists q, lm. eexists. split; [reflexivity|]. simpl.
  split; [done|]. split; [done|].
  split; [rewrite lookup_insert_ne by done; apply lookup_insert_eq|].
  split; [unfold meta_after; rewrite <- Hdm; apply lookup_insert_eq|].
  apply insert_subseteq_r; [done|]. by apply insert_subseteq_r.
Qed.

(** C5, as the code has it: a record with the four keys and nothing to
    restore gives a new request when the constructor accepts its [url] and
    [method], and [Headers] its headers when it has a dict of them; the url
    and method of the request are those the constructor made of the url and
    method of the record, its meta holds the [id] and [uniqueKey] of the
    record, and the [userData] of the record when it has one. *)
Theorem to_scrapy_request_fresh_built (σ : state) (l : loc) (d : gmap string pyval)
    (u m i k spider : pyval) (call_id : string) (rq0 : Request) (hnew : headers_attr) :
  heap σ !! l = Some (ODict d) →
  d !! "url" = Some u → d !! "method" = Some m →
  d !! "id" = Some i → d !! "uniqueKey" = Some k →
  without_snapshot (heap σ) d →
  Request_init u m = inr rq0 →
  (∀ hv, d !! "headers" = Some hv → live (heap σ) hv) →
  headers_after (heap σ) d (headers rq0) = Some hnew →
  ∃ q lm σ' rq',
    to_scrapy_request (VRef l) spider call_id σ = (inr (VRef q), σ')
    ∧ heap σ !! q = None
    ∧ heap σ' !! q = Some (ORequest rq')
    ∧ url rq' = url rq0 ∧ method rq' = method rq0
    ∧ _meta rq' = VRef lm
    ∧ heap σ' !! lm
      = Some (ODict (insert_opt "userData" (d !! "userData")
                       {[ "apify_request_id" := i; "apify_request_unique_key" := k ]})).
Proof.
  intros Hl Hu Hm Hi Hk Hsnap Hinit Hlive Hhead.
  destruct (to_scrapy_request_built_run σ l d u m i k spider call_id rq0 hnew)
    as (q & lm & σ' & Hrun & Hq & Hlm & H'q & H'lm & _); try done.
  exists q, lm, σ', (set_headers (set_meta rq0 (VRef lm)) hnew).
  repeat split; done.
Qed.

End new_request_built.

(** *** Headers that are not [Headers] *)

Section headers_or_warning.
Context `{!Framework}.

(** The record of lines 38-57 is built whatever the meta is, and the
    warning is logged when it is due. *)
Lemma apify_request_fields_log (σ : state) (l : loc) (rq : Request)
    (dm : gmap string pyval) :
  heap σ !! l = Some (ORequest rq) →
  meta_dict (heap σ) rq = Some dm →
  (∀ v, dm !! "apify_request_id" = Some v → live (heap σ) v) →
  (∀ v, dm !! "apify_request_unique_key" = Some v → live (heap σ) v) →
  ∃ r σ1,
    apify_request_fields l σ = (inr (VRef r), σ1)
    ∧ log σ1 = (log σ ++ match headers rq with
                         | IsHeaders _ => []
                         | NotHeaders w =>
                             [LogRec WARNING None (headers_is_not_Headers (NotHeaders w))]
                         end)%list.
Proof.
  intros Hl Hmeta Hlive1 Hlive2. unfold meta_dict in Hmeta.
  assert (∀ σ' lm rq' dm',
            heap σ' !! l = Some (ORequest rq') → _meta rq' = VRef lm →
            heap σ' !! lm = Some (ODict dm') → headers rq' = headers rq →
            (∀ v, dm' !! "apify_request_id" = Some v → live (heap σ') v) →
            (∀ v, dm' !! "apify_request_unique_key" = Some v → live (heap σ') v) →
            ∃ r σ1, apify_request_fields l σ' = (inr (VRef r), σ1)
                    ∧ log σ1 = (log σ' ++ match headers rq with
                                          | IsHeaders _ => []
                                          | NotHeaders w =>
                                              [LogRec WARNING None
                                                 (headers_is_not_Headers (NotHeaders w))]
                                          end)%list) as Hdict.
  { intros σ' lm rq' dm' Hl' Hm' Hlm' Hh' Hl1 Hl2.
    destruct (apify_request_fields_run σ' l lm rq' dm' Hl' Hm' Hlm' Hl1 Hl2)
      as (r & σ1 & Hrun & _ & _ & _ & _ & Hhead).
    exists r, σ1. split; [done|]. rewrite Hh' in Hhead.
    destruct (headers rq) as [hs|w].
    - destruct Hhead as (hd & _ & _ & _ & _ & ->). by rewrite app_nil_r.
    - by destruct Hhead as (_ & ->). }
  destruct (_meta rq) as [| | | |lm] eqn:Hm; try done.
  - inversion Hmeta; subst dm.
    rewrite (apify_request_fields_meta_None σ l rq Hl Hm).
    set (e := new_loc (heap σ)).
    assert (heap σ !! e = None) as He by apply new_loc_fresh.
    assert (l ≠ e) as Hle by congruence.
    apply (Hdict (State _ (log σ)) e (set_meta rq (VRef e)) ∅); simpl; try done.
    + apply lookup_insert_eq.
    + rewrite lookup_insert_ne by done. apply lookup_insert_eq.
  - simpl in Hmeta. destruct (heap σ !! lm) as [[dm'| | |]|] eqn:Hlm; try done.
    inversion Hmeta; subst dm'. by apply (Hdict σ lm rq dm).
Qed.

(** C6, as the code has it: a request whose [headers] is not a [Headers]
    instance gets a warning and a record without [headers]; the record comes
    back, with [url], [method], [userData] holding the snapshot and the
    identity fields that are set, when the framework exports and pickles the
    request, and the exception of the framework comes out, after the warning,
    when it does not.  Headers of the expected type go under [headers] as a
    dict of strings. *)
Theorem to_apify_request_headers_or_warning (σ : state) (l : loc) (rq : Request)
    (dm : gmap string pyval) (spider : pyval) (call_id : string) :
  heap σ !! l = Some (ORequest rq) →
  meta_dict (heap σ) rq = Some dm →
  (∀ v, dm !! "apify_request_id" = Some v → live (heap σ) v) →
  (∀ v, dm !! "apify_request_unique_key" = Some v → live (heap σ) v) →
  (∀ v, dm !! "userData" = Some v → is_Some (as_dict (heap σ) v)) →
  let built := (apify_request_fields l
                  (State (heap σ) (log σ ++ [LogRec DEBUG (Some call_id)
                                               (to_apify_request_was_called (VRef l))]))).2 in
  (∀ dv h' b,
     Request_to_dict spider l (heap built) = inr (dv, h') →
     pickle_dumps dv h' = inr b →
     ∃ r lu rec du σ',
       to_apify_request (VRef l) spider call_id σ = (inr (VRef r), σ')
       ∧ heap σ' !! r = Some (ODict rec)
       ∧ rec !! "url" = Some (url rq)
       ∧ rec !! "method" = Some (method rq)
       ∧ rec !! "userData" = Some (VRef lu)
       ∧ heap σ' !! lu = Some (ODict du)
       ∧ du !! "scrapy_request" = Some (VStr (base64_encode b))
       ∧ rec !! "id" = copied (heap σ) dm "apify_request_id"
       ∧ rec !! "uniqueKey" = copied (heap σ) dm "apify_request_unique_key"
       ∧ match headers rq with
         | NotHeaders w =>
             rec !! "headers" = None
             ∧ LogRec WARNING None (headers_is_not_Headers (NotHeaders w)) ∈ log σ'
         | IsHeaders hs => ∃ lh,
             rec !! "headers" = Some (VRef lh)
             ∧ heap σ' !! lh = Some (ODict (VStr <$> to_unicode_dict hs))
         end)
  ∧ (∀ e,
       Request_to_dict spider l (heap built) = inl e
       ∨ (∃ dv h', Request_to_dict spider l (heap built) = inr (dv, h')
                   ∧ pickle_dumps dv h' = inl e) →
       ∃ σ',
         to_apify_request (VRef l) spider call_id σ = (inl e, σ')
         ∧ match headers rq with
           | NotHeaders w =>
               LogRec WARNING None (headers_is_not_Headers (NotHeaders w)) ∈ log σ'
           | IsHeaders _ => True
           end).
Proof.
  intros Hl Hmeta Hlive1 Hlive2 Hud built. split.
  - intros dv h' b Hexport Hdumps.
    pose proof (encode_scrapy_request_run spider l built dv h' b Hexport Hdumps) as Henc.
    destruct (to_apify_request_run σ l rq dm spider call_id _ _ Hl Hmeta Hlive1 Hlive2 Hud Henc)
      as (r & lu & du & hd & σ' & Hrun & Hr & H'r & Hsrc & H'lu & Hrlu & Hhead).
    destruct (record_fields_lookup rq (VRef lu) hd
                (copied (heap σ) dm "apify_request_id")
                (copied (heap σ) dm "apify_request_unique_key"))
      as (Hfu & Hfm & Hfud & Hfh & Hfi & Hfk).
    eexists r, lu, _, _, σ'. split; [done|]. split; [exact H'r|].
    split; [done|]. split; [done|]. split; [done|]. split; [exact H'lu|].
    split; [by simplify_map_eq|]. split; [done|]. split; [done|].
    destruct (headers rq) as [hs|w].
    + destruct Hhead as (lh & -> & _ & H'lh & _). by exists lh.
    + destruct Hhead as (-> & Hlog). split; [done|]. rewrite Hlog.
      apply elem_of_app. right. apply list_elem_of_here.
  - intros e Hfail.
    set (σ0 := State (heap σ) _) in built.
    destruct (apify_request_fields_log σ0 l rq dm Hl Hmeta Hlive1 Hlive2)
      as (r & σ1 & Hfields & Hlog).
    assert (built = σ1) as Hbuilt by (unfold built; by rewrite Hfields).
    rewrite Hbuilt in Hfail.
    destruct (encode_scrapy_request_inl spider l σ1 e Hfail) as (σ' & Henc & Hlog').
    exists σ'. split.
    + rewrite (to_apify_request_entered σ l rq spider call_id Hl). fold σ0.
      rewrite (bind_inr _ _ _ _ _ Hfields). by apply bind_inl.
    + rewrite Hlog', Hlog. destruct (headers rq) as [hs|w]; [done|].
      apply elem_of_app. right. apply list_elem_of_here.
Qed.

End headers_or_warning.

(** *** The round trip *)

Section restored_kept.
Context `{!Framework}.



End restored_kept.

Section roundtrip.
Context `{!Framework, !Faithful}.


End roundtrip.

(** ** The claims on the examples *)

(** The record [{url, method}] is refused, and the message names [id] and
    [uniqueKey]. *)
Lemma to_scrapy_request_missing_keys_witness :
  to_scrapy_request (VRef 1) VNone "c0ffee02" incomplete
    = (inl (Exn ValueError (missing_keys_message (missing_keys incomplete_record))), incomplete)
  ∧ (∀ key, key ∈ required_keys →
       is_substring (repr_str key) (missing_keys_message (missing_keys incomplete_record)) = true
       ↔ incomplete_record !! key = None)
  ∧ (is_Some (incomplete_record !! "url") → is_Some (incomplete_record !! "method") →
     incomplete_record !! "id" = None → incomplete_record !! "uniqueKey" = None →
     missing_keys_message (missing_keys incomplete_record)
       = "apify_request must contain 'id', 'uniqueKey' key(s)").
Proof.
  apply (to_scrapy_request_missing_keys incomplete 1 incomplete_record VNone "c0ffee02").
  - reflexivity.
  - exists "id". split; [|reflexivity].
    unfold required_keys. set_solver.
Defined.

(** The snapshot of [crawled] held the id [old]; the record now has [new]. *)
Lemma to_scrapy_request_identity_overwrite_witness :
  ∃ lm σ' rq' dm',
    to_scrapy_request (VRef 5) VNone "c0ffee02" queued = (inr (VRef 13), σ')
    ∧ heap σ' !! 13 = Some (ORequest rq')
    ∧ _meta rq' = VRef lm
    ∧ heap σ' !! lm = Some (ODict dm')
    ∧ dm' !! "apify_request_id" = Some (VStr "new")
    ∧ dm' !! "apify_request_unique_key" = Some (VStr "k0").
Proof.
  apply (to_scrapy_request_identity_overwrite queued 5 3 13
           (dict_at (heap queued) 5) (dict_at (heap queued) 3) (dict_at queued_rebuilt.2 10)
           (VStr "new") (VStr "k0") queued_loaded.1 VNone crawled_snapshot crawled_pickle
           "c0ffee02" queued_loaded.2 queued_rebuilt.2 (request_at queued_rebuilt.2 13)
           (IsHeaders {[ "Accept" := ["text/html"] ]})).
  all: try reflexivity.
  all: try (eexists; reflexivity).
  - intros lm [= <-]. reflexivity.
  - intros hv [= <-] x [= <-]. eexists; reflexivity.
Defined.


(** A record whose [id] is [None] and whose [uniqueKey] is [0] passes. *)
Lemma to_scrapy_request_presence_only_witness :
  check_required_keys unchecked_record unchecked = (inr tt, unchecked)
  ∧ ∃ q lm σ' rq' dm',
      to_scrapy_request (VRef 1) VNone "c0ffee02" unchecked = (inr (VRef q), σ')
      ∧ heap σ' !! q = Some (ORequest rq') ∧ _meta rq' = VRef lm
      ∧ heap σ' !! lm = Some (ODict dm')
      ∧ dm' !! "apify_request_id" = Some VNone
      ∧ dm' !! "apify_request_unique_key" = Some (VInt 0).
Proof.
  destruct (to_scrapy_request_presence_only unchecked 1 unchecked_record
              (VStr "http://x") (VStr "GET") VNone (VInt 0) VNone "c0ffee02")
    as (Hcheck & Hcreate & _); try reflexivity.
  split; [exact Hcheck|].
  apply (Hcreate (mkRequest (VStr "http://x") (VStr "GET") (IsHeaders ∅) VNone ∅)
           (IsHeaders ∅)).
  - left. reflexivity.
  - reflexivity.
  - intros hv [=].
  - reflexivity.
Defined.

(** The request restored from [queued] still carries the snapshot. *)
Lemma to_scrapy_request_keeps_snapshot_witness :
  ∃ lm σ' rq' dm' du',
    to_scrapy_request (VRef 5) VNone "c0ffee02" queued = (inr (VRef 13), σ')
    ∧ heap σ' !! 13 = Some (ORequest rq')
    ∧ _meta rq' = VRef lm
    ∧ heap σ' !! lm = Some (ODict dm')
    ∧ dm' !! "userData" = Some (VRef 3)
    ∧ heap σ' !! 3 = Some (ODict du')
    ∧ du' !! "scrapy_request" = Some (VStr crawled_snapshot)
    ∧ du' = dict_at (heap queued) 3.
Proof.
  apply (to_scrapy_request_keeps_snapshot queued 5 3 13
           (dict_at (heap queued) 5) (dict_at (heap queued) 3) (dict_at queued_rebuilt.2 10)
           (VStr "new") (VStr "k0") queued_loaded.1 VNone crawled_snapshot crawled_pickle
           "c0ffee02" queued_loaded.2 queued_rebuilt.2 (request_at queued_rebuilt.2 13)
           (IsHeaders {[ "Accept" := ["text/html"] ]})).
  all: try reflexivity.
  all: try (eexists; reflexivity).
  - intros lm [= <-]. reflexivity.
  - intros hv [= <-] x [= <-]. eexists; reflexivity.
Defined.


(** On [blank] the empty id stays behind and the unique key is copied. *)
Lemma to_apify_request_identity_witness :
  ∃ r rec σ',
    to_apify_request (VRef 1) VNone "c0ffee01" blank = (inr (VRef r), σ')
    ∧ heap σ' !! r = Some (ODict rec)
    ∧ (∀ v, blank_meta !! "apify_request_id" = Some v → truthy (heap blank) v = true →
         rec !! "id" = Some v)
    ∧ ((∀ v, blank_meta !! "apify_request_id" = Some v → truthy (heap blank) v = false) →
         rec !! "id" = None)
    ∧ (∀ v, blank_meta !! "apify_request_unique_key" = Some v → truthy (heap blank) v = true →
         rec !! "uniqueKey" = Some v)
    ∧ ((∀ v, blank_meta !! "apify_request_unique_key" = Some v → truthy (heap blank) v = false) →
         rec !! "uniqueKey" = None).
Proof.
  apply (to_apify_request_identity blank 1 blank_request blank_meta VNone "c0ffee01"
           blank_snapshot blank_encoded.2).
  all: try reflexivity.
  - intros v [= <-] x [=].
  - intros v [= <-] x [=].
  - intros v [=].
Defined.

(** C7 as the spec has it fails: the meta holds an [apify_request_id], the
    empty string, and the record gets no [id]. *)
Lemma to_apify_request_drops_empty_id :
  blank_meta !! "apify_request_id" = Some (VStr "")
  ∧ to_apify_request (VRef 1) VNone "c0ffee01" blank = (inr (VRef 5), blank_pushed)
  ∧ ∃ rec, heap blank_pushed !! 5 = Some (ODict rec) ∧ rec !! "id" = None.
Proof.
  split; [reflexivity|]. split; [reflexivity|].
  exists (dict_at (heap blank_pushed) 5). split; reflexivity.
Qed.

(** The [userData] dict of [crawled], at [3], is not what it was. *)
Lemma to_apify_request_writes_into_meta_witness :
  ∃ r σ',
    to_apify_request (VRef 1) VNone "c0ffee01" crawled = (inr (VRef r), σ')
    ∧ heap σ' !! 3
      = Some (ODict (<["scrapy_request" := VStr crawled_snapshot]> crawled_userData))
    ∧ (crawled_userData !! "scrapy_request" ≠ Some (VStr crawled_snapshot) →
       heap σ' !! 3 ≠ heap crawled !! 3).
Proof.
  apply (to_apify_request_writes_into_meta crawled 1 3 crawled_request crawled_meta
           crawled_userData VNone "c0ffee01" crawled_snapshot crawled_encoded.2).
  all: try reflexivity.
  - intros v [= <-] x [=].
  - intros v [= <-] x [=].
Defined.

(** C8 as the spec has it fails both ways: a record whose [userData] is
    [None] raises a TypeError though it is a dict and holds no snapshot; a
    record with a snapshot that is not a string raises the ValueError when
    it lacks a required key. *)
Lemma to_scrapy_request_TypeError_not_exactly :
  (as_dict (heap userData_None) (VRef 1) = Some userData_None_record
   ∧ userData_None_record !! "userData" = Some VNone
   ∧ snapshot_value (heap userData_None) VNone = None
   ∧ ∃ σ', to_scrapy_request (VRef 1) VNone "c0ffee02" userData_None
           = (inl (Exn TypeError "argument of type 'NoneType' is not iterable"), σ'))
  ∧ (snapshot_value (heap numbered_incomplete) (VRef 2) = Some (VInt 5)
     ∧ to_scrapy_request (VRef 1) VNone "c0ffee02" numbered_incomplete
       = (inl (Exn ValueError "apify_request must contain 'id', 'uniqueKey' key(s)"),
          numbered_incomplete)).
Proof.
  split.
  - split; [reflexivity|]. split; [reflexivity|]. split; [reflexivity|].
    eexists. reflexivity.
  - split; reflexivity.
Qed.

(** A snapshot that is a number raises the TypeError. *)
Lemma to_scrapy_request_TypeError_witness :
  ∃ msg σ', to_scrapy_request (VRef 1) VNone "c0ffee02" numbered
            = (inl (Exn TypeError msg), σ').
Proof.
  apply (proj1 (to_scrapy_request_TypeError numbered (VRef 1) VNone "c0ffee02")).
  right. exists numbered_record, (VRef 2).
  split; [reflexivity|]. split; [reflexivity|]. split; [reflexivity|].
  right. right. exists (VInt 5). split; [reflexivity|].
  left. intros s [=].
Defined.


(** ** The further properties on the examples *)

(** A request whose [userData] is a string. *)
Definition labelled_request : Request :=
  mkRequest (VStr "http://x") (VStr "GET") (IsHeaders ∅) (VRef 2) ∅.

Definition labelled_meta : gmap string pyval := {[ "userData" := VStr "start" ]}.

Definition labelled : state :=
  State {[ 1 := ORequest labelled_request; 2 := ODict labelled_meta ]} [].

Definition labelled_encoded : (exn + string) * state := Eval vm_compute in
  encode_scrapy_request VNone 1 (apify_request_fields 1 (entered labelled "c0ffee01")).2.

Definition labelled_snapshot : string := Eval vm_compute in value_of labelled_encoded.1 "".

(** A request that holds, in its meta, an object that cannot be pickled. *)
Definition locked_request : Request :=
  mkRequest (VStr "http://x") (VStr "GET") (IsHeaders ∅) (VRef 2) ∅.

Definition locked_meta : gmap string pyval := {[ "lock" := VRef 3 ]}.

Definition locked : state :=
  State {[ 1 := ORequest locked_request; 2 := ODict locked_meta; 3 := OOpaque "Lock" ]} [].

Definition locked_exported : pyval * gmap loc pyobj := Eval vm_compute in
  value_of (Request_to_dict VNone 1 (heap (apify_request_fields 1 (entered locked "c0ffee01")).2))
           (VNone, ∅).

(** A record whose snapshot is no hexadecimal text. *)
Definition garbled : state :=
  State {[ 1 := ODict numbered_record; 2 := ODict {[ "scrapy_request" := VStr "zz" ]} ]} [].

(** A seed with headers. *)
Definition seed_with_headers_record : gmap string pyval :=
  {[ "url" := VStr "http://x"; "method" := VStr "GET"; "id" := VStr "1";
     "uniqueKey" := VStr "k1"; "headers" := VRef 2 ]}.

Definition seed_with_headers : state :=
  State {[ 1 := ODict seed_with_headers_record;
           2 := ODict {[ "Accept" := VStr "text/html" ]} ]} [].

(** A record whose [url] is [None]. *)
Definition no_url_record : gmap string pyval :=
  {[ "url" := VNone; "method" := VStr "GET"; "id" := VStr "1"; "uniqueKey" := VStr "k1" ]}.

Definition no_url : state := State {[ 1 := ODict no_url_record ]} [].

(** On [crawled] the request and its meta dict are left as they were. *)
Lemma to_apify_request_frame_witness :
  ∃ r σ',
    to_apify_request (VRef 1) VNone "c0ffee01" crawled = (inr (VRef r), σ')
    ∧ (∀ x o, heap crawled !! x = Some o → crawled_meta !! "userData" ≠ Some (VRef x) →
         heap σ' !! x = Some o)
    ∧ heap σ' !! 1 = Some (ORequest crawled_request)
    ∧ (crawled_meta !! "userData" ≠ Some (VRef 2) → heap σ' !! 2 = Some (ODict crawled_meta)).
Proof.
  apply (to_apify_request_frame crawled 1 2 crawled_request crawled_meta VNone "c0ffee01"
           crawled_snapshot crawled_encoded.2).
  all: try reflexivity.
  - intros v [= <-] x [=].
  - intros v [= <-] x [=].
  - intros v [= <-]. eexists; reflexivity.
Defined.


(** [labelled] has a string for [userData]. *)
Lemma to_apify_request_userData_not_dict_witness :
  ∃ msg, to_apify_request (VRef 1) VNone "c0ffee01" labelled
         = (inl (Exn TypeError msg), labelled_encoded.2).
Proof.
  apply (to_apify_request_userData_not_dict labelled 1 2 labelled_request labelled_meta
           (VStr "start") VNone "c0ffee01" labelled_snapshot labelled_encoded.2).
  all: try reflexivity.
  - intros v [=].
  - intros v [=].
  - intros x [=].
Defined.


(** The three entries [blank] leaves in the log. *)
Lemma to_apify_request_log_witness :
  ∃ r σ',
    to_apify_request (VRef 1) VNone "c0ffee01" blank = (inr (VRef r), σ')
    ∧ log σ' = [LogRec DEBUG (Some "c0ffee01") (to_apify_request_was_called (VRef 1));
                LogRec WARNING None (headers_is_not_Headers (NotHeaders (VRef 3)));
                LogRec DEBUG (Some "c0ffee01") (scrapy_request_was_converted (VRef r))].
Proof.
  apply (to_apify_request_log blank 1 blank_request blank_meta VNone "c0ffee01"
           blank_snapshot blank_encoded.2).
  all: try reflexivity.
  - intros v [= <-] x [=].
  - intros v [= <-] x [=].
  - intros v [=].
Defined.

(** [queued] has a dict of headers, which the restored request gets. *)
Lemma to_scrapy_request_restored_headers_witness :
  ∃ σ' rq',
    to_scrapy_request (VRef 5) VNone "c0ffee02" queued = (inr (VRef 13), σ')
    ∧ heap σ' !! 13 = Some (ORequest rq')
    ∧ url rq' = VStr "http://x" ∧ method rq' = VStr "GET"
    ∧ internal rq' = {[ "priority" := VInt 3 ]}
    ∧ ∃ hs, Headers_init {[ "Accept" := VStr "text/html" ]} = inr hs
            ∧ headers rq' = IsHeaders hs.
Proof.
  apply (to_scrapy_request_restored_headers queued 5 3 13
           (dict_at (heap queued) 5) (dict_at (heap queued) 3) (dict_at queued_rebuilt.2 10)
           (VStr "new") (VStr "k0") queued_loaded.1 VNone crawled_snapshot crawled_pickle
           "c0ffee02" queued_loaded.2 queued_rebuilt.2 (request_at queued_rebuilt.2 13)
           (IsHeaders {[ "Accept" := ["text/html"] ]})).
  all: try reflexivity.
  all: try (eexists; reflexivity).
  - intros lm [= <-]. reflexivity.
  - intros hv [= <-] x [= <-]. eexists; reflexivity.
Defined.

(** The meta restored from [queued] keeps what the snapshot had. *)
Lemma to_scrapy_request_restored_meta_witness :
  ∃ lm σ' rq' dm',
    to_scrapy_request (VRef 5) VNone "c0ffee02" queued = (inr (VRef 13), σ')
    ∧ heap σ' !! 13 = Some (ORequest rq')
    ∧ _meta rq' = VRef lm
    ∧ heap σ' !! lm = Some (ODict dm')
    ∧ ∀ key, key ≠ "apify_request_id" → key ≠ "apify_request_unique_key" →
             key ≠ "userData" → dm' !! key = dict_at queued_rebuilt.2 10 !! key.
Proof.
  apply (to_scrapy_request_restored_meta queued 5 3 13
           (dict_at (heap queued) 5) (dict_at (heap queued) 3) (dict_at queued_rebuilt.2 10)
           (VStr "new") (VStr "k0") queued_loaded.1 VNone crawled_snapshot crawled_pickle
           "c0ffee02" queued_loaded.2 queued_rebuilt.2 (request_at queued_rebuilt.2 13)
           (IsHeaders {[ "Accept" := ["text/html"] ]})).
  all: try reflexivity.
  all: try (eexists; reflexivity).
  - intros lm [= <-]. reflexivity.
  - intros hv [= <-] x [= <-]. eexists; reflexivity.
Defined.

(** The record of [queued] and its [userData] come through unchanged. *)
Lemma to_scrapy_request_restore_keeps_dicts_witness :
  ∃ lm σ' rq',
    to_scrapy_request (VRef 5) VNone "c0ffee02" queued = (inr (VRef 13), σ')
    ∧ (∀ x dx, heap queued !! x = Some (ODict dx) → heap σ' !! x = Some (ODict dx))
    ∧ heap σ' !! 5 = Some (ODict (dict_at (heap queued) 5))
    ∧ heap σ' !! 3 = Some (ODict (dict_at (heap queued) 3))
    ∧ heap σ' !! 13 = Some (ORequest rq')
    ∧ _meta rq' = VRef lm
    ∧ heap queued !! lm = None.
Proof.
  apply (to_scrapy_request_restore_keeps_dicts queued 5 3 13
           (dict_at (heap queued) 5) (dict_at (heap queued) 3) (dict_at queued_rebuilt.2 10)
           (VStr "new") (VStr "k0") queued_loaded.1 VNone crawled_snapshot crawled_pickle
           "c0ffee02" queued_loaded.2 queued_rebuilt.2 (request_at queued_rebuilt.2 13)
           (IsHeaders {[ "Accept" := ["text/html"] ]})).
  all: try reflexivity.
  all: try (eexists; reflexivity).
  - intros lm [= <-]. reflexivity.
  - intros hv [= <-] x [= <-]. eexists; reflexivity.
Defined.

(** The four entries the restoring of [queued] leaves in the log. *)
Lemma to_scrapy_request_restore_log_witness :
  ∃ σ',
    to_scrapy_request (VRef 5) VNone "c0ffee02" queued = (inr (VRef 13), σ')
    ∧ log σ' = (log queued
                ++ [LogRec DEBUG (Some "c0ffee02") (to_scrapy_request_was_called (VRef 5));
                    LogRec DEBUG (Some "c0ffee02") restoring_the_scrapy_request;
                    LogRec DEBUG (Some "c0ffee02") (scrapy_request_reconstructed (VRef 13))]
                ++ headers_warning (heap queued) (dict_at (heap queued) 5)
                ++ [LogRec DEBUG (Some "c0ffee02") (apify_request_was_converted (VRef 13))])%list.
Proof.
  apply (to_scrapy_request_restore_log queued 5 3 13
           (dict_at (heap queued) 5) (dict_at (heap queued) 3) (dict_at queued_rebuilt.2 10)
           (VStr "new") (VStr "k0") queued_loaded.1 VNone crawled_snapshot crawled_pickle
           "c0ffee02" queued_loaded.2 queued_rebuilt.2 (request_at queued_rebuilt.2 13)
           (IsHeaders {[ "Accept" := ["text/html"] ]})).
  all: try reflexivity.
  all: try (eexists; reflexivity).
  - intros lm [= <-]. reflexivity.
  - intros hv [= <-] x [= <-]. eexists; reflexivity.
Defined.

(** The snapshot of [garbled] does not decode. *)
Lemma to_scrapy_request_broken_snapshot_witness :
  to_scrapy_request (VRef 1) VNone "c0ffee02" garbled
  = (inl (Exn ValueError "Incorrect padding"), restoring garbled 1 "c0ffee02").
Proof.
  apply (proj1 (to_scrapy_request_broken_snapshot garbled 1 2 numbered_record
                  {[ "scrapy_request" := VStr "zz" ]} VNone "zz" "c0ffee02"
                  eq_refl eq_refl eq_refl eq_refl eq_refl
                  (Exn ValueError "Incorrect padding"))).
  reflexivity.
Defined.

(** The headers of the seed go to the new request. *)
Lemma to_scrapy_request_fresh_headers_witness :
  ∃ q σ' rq',
    to_scrapy_request (VRef 1) VNone "c0ffee02" seed_with_headers = (inr (VRef q), σ')
    ∧ heap σ' !! q = Some (ORequest rq')
    ∧ internal rq' = ∅
    ∧ ∃ hs, Headers_init {[ "Accept" := VStr "text/html" ]} = inr hs
            ∧ headers rq' = IsHeaders hs.
Proof.
  apply (to_scrapy_request_fresh_headers seed_with_headers 1 seed_with_headers_record
           (VStr "http://x") (VStr "GET") (VStr "1") (VStr "k1") VNone "c0ffee02"
           eq_refl eq_refl eq_refl eq_refl eq_refl)
    with (rq0 := mkRequest (VStr "http://x") (VStr "GET") (IsHeaders ∅) VNone ∅)
         (hnew := IsHeaders {[ "Accept" := ["text/html"] ]}).
  - left. reflexivity.
  - intros hv [= <-] x [= <-]. eexists; reflexivity.
  - reflexivity.
  - reflexivity.
Defined.

(** The request made for [seed] and its meta are new. *)
Lemma to_scrapy_request_fresh_frame_witness :
  ∃ q lm σ' rq',
    to_scrapy_request (VRef 1) VNone "c0ffee02" seed = (inr (VRef q), σ')
    ∧ heap σ' !! q = Some (ORequest rq') ∧ _meta rq' = VRef lm
    ∧ heap seed !! q = None ∧ heap seed !! lm = None
    ∧ heap seed ⊆ heap σ'
    ∧ log σ' = [LogRec DEBUG (Some "c0ffee02") (to_scrapy_request_was_called (VRef 1));
                LogRec DEBUG (Some "c0ffee02") gonna_create_a_new_scrapy_request;
                LogRec DEBUG (Some "c0ffee02") (apify_request_was_converted (VRef q))].
Proof.
  apply (to_scrapy_request_fresh_frame seed 1 seed_record
           (VStr "http://x") (VStr "GET") (VStr "1") (VStr "k1") VNone "c0ffee02"
           eq_refl eq_refl eq_refl eq_refl eq_refl)
    with (rq0 := mkRequest (VStr "http://x") (VStr "GET") (IsHeaders ∅) VNone ∅)
         (hnew := IsHeaders ∅).
  - left. reflexivity.
  - intros hv [=].
  - reflexivity.
  - reflexivity.
Defined.

(** A record whose [url] is [None] passes the check and fails in the
    constructor. *)
Lemma to_scrapy_request_constructor_fails_witness :
  ∃ σ',
    to_scrapy_request (VRef 1) VNone "c0ffee02" no_url
    = (inl (Exn TypeError "Request url must be str"), σ')
    ∧ heap no_url ⊆ heap σ'
    ∧ log σ' = [LogRec DEBUG (Some "c0ffee02") (to_scrapy_request_was_called (VRef 1));
                LogRec DEBUG (Some "c0ffee02") gonna_create_a_new_scrapy_request].
Proof.
  apply (to_scrapy_request_constructor_fails no_url 1 no_url_record
           VNone (VStr "GET") (VStr "1") (VStr "k1") VNone "c0ffee02"
           eq_refl eq_refl eq_refl eq_refl eq_refl).
  - left. reflexivity.
  - reflexivity.
Defined.

(** The meta [crawled] comes back with. *)
Lemma roundtrip_meta_witness :
  ∃ σ2 rq' lm lu dm' du',
    to_scrapy_request (VRef 5) VNone "c0ffee02" pushed = (inr (VRef 13), σ2)
    ∧ heap σ2 !! 13 = Some (ORequest rq')
    ∧ _meta rq' = VRef lm
    ∧ heap σ2 !! lm = Some (ODict dm')
    ∧ dm' !! "apify_request_id" = Some (VStr "old")
    ∧ dm' !! "apify_request_unique_key" = Some (VStr "k0")
    ∧ dm' !! "userData" = Some (VRef lu)
    ∧ (∀ v, crawled_meta !! "userData" = Some v → v = VRef lu)
    ∧ heap σ2 !! lu = Some (ODict du')
    ∧ du' !! "scrapy_request" = Some (VStr crawled_snapshot)
    ∧ (∀ key, key ≠ "apify_request_id" → key ≠ "apify_request_unique_key" →
              key ≠ "userData" → dm' !! key = dict_at pushed_rebuilt.2 10 !! key).
Proof.
  apply (roundtrip_meta crawled crawled_encoded.2 pushed 1 13 crawled_request
           (request_at pushed_rebuilt.2 13) crawled_meta (dict_at pushed_rebuilt.2 10)
           {[ "Accept" := ["text/html"] ]} {[ "Accept" := ["text/html"] ]}
           (VStr "old") (VStr "k0") VNone (VRef 5)
           pushed_loaded.1 "c0ffee01" "c0ffee02" crawled_snapshot crawled_pickle
           pushed_loaded.2 pushed_rebuilt.2).
  all: try reflexivity.
  all: try (eexists; reflexivity).
  - intros x [=].
  - intros x [=].
  - intros v [= <-]. eexists; reflexivity.
  - intros lm [= <-]. reflexivity.
Defined.

(** On [blank] the record gets a [userData] of its own. *)
Lemma to_apify_request_new_userData_witness :
  ∃ r lu rec σ',
    to_apify_request (VRef 1) VNone "c0ffee01" blank = (inr (VRef r), σ')
    ∧ heap σ' !! r = Some (ODict rec)
    ∧ rec !! "userData" = Some (VRef lu)
    ∧ heap blank !! lu = None
    ∧ heap σ' !! lu = Some (ODict {[ "scrapy_request" := VStr (base64_encode blank_pickled) ]})
    ∧ heap σ' !! 2 = Some (ODict blank_meta)
    ∧ heap blank ⊆ heap σ'.
Proof.
  apply (to_apify_request_new_userData blank 1 2 blank_request blank_meta VNone
           blank_exported.1 "c0ffee01" blank_pickled blank_exported.2).
  all: try reflexivity.
  - intros v [= <-] x [=].
  - intros v [= <-] x [=].
Defined.

(** On [locked] the pickling fails, and nothing has been changed. *)
Lemma to_apify_request_encode_fails_witness :
  ∃ σ2,
    to_apify_request (VRef 1) VNone "c0ffee01" locked
      = (inl (Exn (OtherError "PicklingError") "cannot pickle"), σ2)
    ∧ heap locked ⊆ heap σ2.
Proof.
  apply (to_apify_request_encode_fails locked 1 2 locked_request locked_meta VNone
           "c0ffee01" (Exn (OtherError "PicklingError") "cannot pickle")).
  all: try reflexivity.
  - intros v [=].
  - intros v [=].
  - right. exists locked_exported.1, locked_exported.2. split; reflexivity.
Defined.

(** ** The round trip, the new request and the headers, on the examples *)



(** C5 as the spec has it fails: a [userData] that is [None] raises a
    TypeError, a [url] that is [None] or has no scheme is refused by the
    constructor, and a method in lower case is not the method of the
    request. *)
Lemma to_scrapy_request_fresh_refused :
  (userData_None_record !! "userData" = Some VNone
   ∧ (back userData_None).1
     = inl (Exn TypeError "argument of type 'NoneType' is not iterable"))
  ∧ (no_url_record !! "url" = Some VNone
     ∧ (back no_url).1 = inl (Exn TypeError "Request url must be str"))
  ∧ (no_scheme_record !! "url" = Some (VStr "x")
     ∧ (back no_scheme).1 = inl (Exn ValueError "Missing scheme in request url: x"))
  ∧ (lower_seed_record !! "method" = Some (VStr "get")
     ∧ (back lower_seed).1 = inr (VRef 4)
     ∧ method (request_at (heap (back lower_seed).2) 4) = VStr "GET").
Proof. repeat split; reflexivity. Qed.

(** The request made of [lower_seed] has the method in upper case, and the
    [userData] of the record in its meta. *)
Lemma to_scrapy_request_fresh_built_witness :
  ∃ q lm σ' rq',
    @to_scrapy_request model_framework (VRef 1) VNone "c0ffee02" lower_seed
      = (inr (VRef q), σ')
    ∧ heap lower_seed !! q = None
    ∧ heap σ' !! q = Some (ORequest rq')
    ∧ url rq' = VStr "http://x"
    ∧ method rq' = VStr "GET"
    ∧ _meta rq' = VRef lm
    ∧ heap σ' !! lm
      = Some (ODict (insert_opt "userData" (lower_seed_record !! "userData")
                       {[ "apify_request_id" := VStr "1";
                          "apify_request_unique_key" := VStr "k1" ]})).
Proof.
  apply (@to_scrapy_request_fresh_built model_framework lower_seed 1 lower_seed_record
           (VStr "http://x") (VStr "get") (VStr "1") (VStr "k1") VNone "c0ffee02"
           (mkRequest (VStr "http://x") (VStr "GET") (IsHeaders ∅) VNone ∅) (IsHeaders ∅)).
  all: try reflexivity.
  intros hv [=].
Defined.

(** C6 as the spec has it fails: with a number for [headers] the warning is
    logged and the export of the request raises; with a dict for [headers]
    and a string for [userData] the warning is logged and line 66 raises. *)
Lemma to_apify_request_headers_still_fail :
  ((to_apify_request (VRef 1) VNone "c0ffee01" five).1
     = inl (Exn TypeError "'int' object is not iterable")
   ∧ LogRec WARNING None (headers_is_not_Headers (NotHeaders (VInt 5)))
     ∈ log (to_apify_request (VRef 1) VNone "c0ffee01" five).2)
  ∧ ((to_apify_request (VRef 1) VNone "c0ffee01" blank_labelled).1
       = inl (Exn TypeError "'str' object does not support item assignment")
     ∧ LogRec WARNING None (headers_is_not_Headers (NotHeaders (VRef 3)))
       ∈ log (to_apify_request (VRef 1) VNone "c0ffee01" blank_labelled).2).
Proof.
  split; (split; [reflexivity|]).
  - apply list_elem_of_further, list_elem_of_here.
  - apply list_elem_of_further, list_elem_of_here.
Qed.

(** On [blank], whose headers are a dict, the record has no [headers] and
    the warning is logged. *)
Lemma to_apify_request_headers_or_warning_witness :
  ∃ r lu rec du σ',
    to_apify_request (VRef 1) VNone "c0ffee01" blank = (inr (VRef r), σ')
    ∧ heap σ' !! r = Some (ODict rec)
    ∧ rec !! "url" = Some (VStr "http://x")
    ∧ rec !! "method" = Some (VStr "GET")
    ∧ rec !! "userData" = Some (VRef lu)
    ∧ heap σ' !! lu = Some (ODict du)
    ∧ du !! "scrapy_request" = Some (VStr (base64_encode blank_pickled))
    ∧ rec !! "id" = None
    ∧ rec !! "uniqueKey" = Some (VStr "k0")
    ∧ rec !! "headers" = None
    ∧ LogRec WARNING None (headers_is_not_Headers (NotHeaders (VRef 3))) ∈ log σ'.
Proof.
  apply (proj1 (to_apify_request_headers_or_warning blank 1 blank_request blank_meta VNone
                  "c0ffee01" eq_refl eq_refl
                  (λ v Hv, ltac:(by inversion Hv))
                  (λ v Hv, ltac:(by inversion Hv))
                  (λ v Hv, ltac:(by inversion Hv)))
           blank_exported.1 blank_exported.2 blank_pickled).
  all: reflexivity.
Defined.
